(** * PyKMP: the codec stack of the Kamstrup KMP protocol

    A shallow embedding of [pykmp/constants.py], [pykmp/codec.py],
    [pykmp/messages.py] and the codec of [pykmp/client.py], followed by the
    properties of the codecs and of the messages.

    Conventions of the embedding:
    - a Python [bytes] value is a [list Z] whose items lie in [0, 256);
    - a Python [int] is a [Z];
    - a function that can raise returns a [Result]; the exception raised is
      a constructor of [Error] carrying the exception's attributes;
    - [logging] calls of [pykmp/messages.py] are recorded in a log that the
      functions return next to their result;
    - the serial port of [pykmp/client.py] and the command line tool are
      not part of the embedding. *)

From Stdlib Require Import ZArith List Bool String Ascii Lia QArith Qpower.
Import ListNotations.
Local Open Scope Z_scope.

Definition bytes := list Z.

Definition is_byte (b : Z) : Prop := 0 <= b < 256.
Definition is_bytes (bs : bytes) : Prop := Forall is_byte bs.

(** ** Python built-ins the sources rely on *)
Module py.

Fixpoint bytes_eqb (a b : bytes) : bool :=
  match a, b with
  | [], [] => true
  | x :: a', y :: b' => (x =? y) && bytes_eqb a' b'
  | _, _ => false
  end.

(** [len(s)] as a Python int. *)
Definition len {A} (s : list A) : Z := Z.of_nat (List.length s).

(** [s.startswith(p)] *)
Fixpoint startswith (s p : bytes) : bool :=
  match p, s with
  | [], _ => true
  | _ :: _, [] => false
  | x :: p', y :: s' => (x =? y) && startswith s' p'
  end.

(** [s.endswith(p)] *)
Definition endswith (s p : bytes) : bool := startswith (rev s) (rev p).

(** Normalisation of one bound of a slice: a negative index counts from the
    end, and the result is clamped to [0, len]. *)
Definition clamp_index (n i : Z) : Z :=
  let j := if i <? 0 then i + n else i in
  Z.max 0 (Z.min n j).

(** [s[lo:hi]]; [None] is an omitted bound. *)
Definition slice {A} (lo hi : option Z) (s : list A) : list A :=
  let n := len s in
  let l := match lo with Some i => clamp_index n i | None => 0 end in
  let h := match hi with Some i => clamp_index n i | None => n end in
  firstn (Z.to_nat (h - l)) (skipn (Z.to_nat l) s).

(** [s[i]] for an index the caller has checked to be in range. *)
Definition item (s : bytes) (i : Z) : Z :=
  nth (Z.to_nat (if i <? 0 then i + len s else i)) s 0.

(** [s.replace(old, new)] for a non-empty [old]: occurrences are found from
    the left and do not overlap; [skip] counts the bytes of the current
    occurrence that are still to be dropped. *)
Fixpoint replace_from (old new : bytes) (skip : nat) (s : bytes) : bytes :=
  match s with
  | [] => []
  | b :: s' =>
      match skip with
      | S k => replace_from old new k s'
      | O =>
          if startswith s old
          then new ++ replace_from old new (List.length old - 1) s'
          else b :: replace_from old new 0 s'
      end
  end.

(** [s.replace(old, new)]; an empty [old] matches before every byte and at
    the end. *)
Definition replace (s old new : bytes) : bytes :=
  match old with
  | [] => new ++ flat_map (fun b => b :: new) s
  | _ :: _ => replace_from old new 0 s
  end.

(** The digits of [n.to_bytes(length, "big")], least significant first. *)
Fixpoint little_endian (n : Z) (length : nat) : bytes :=
  match length with
  | O => []
  | S k => (n mod 256) :: little_endian (n / 256) k
  end.

Definition big_endian (n : Z) (length : nat) : bytes :=
  rev (little_endian n length).

(** [n.to_bytes(length, "big")]: [None] stands for [OverflowError], raised
    for a negative [n] and for one that needs more than [length] bytes. *)
Definition to_bytes (n : Z) (length : nat) : option bytes :=
  if (0 <=? n) && (n <? 256 ^ Z.of_nat length)
  then Some (big_endian n length)
  else None.

(** [int.from_bytes(s, "big")] *)
Definition from_bytes (s : bytes) : Z :=
  fold_left (fun acc b => acc * 256 + b) s 0.

(** [n.bit_length()] *)
Definition bit_length (n : Z) : Z :=
  if n =? 0 then 0 else Z.log2 (Z.abs n) + 1.

(** The decimal digits of a non-negative int, most significant first, as
    [str(n)] spells them.  Every division by ten removes at least one bit,
    so [S (log2 n)] rounds are enough. *)
Fixpoint digits_from (fuel : nat) (n : Z) (acc : list Z) : list Z :=
  match fuel with
  | O => acc
  | S fuel' =>
      if n <? 10 then n :: acc
      else digits_from fuel' (n / 10) (n mod 10 :: acc)
  end.

Definition str_digits (n : Z) : list Z :=
  digits_from (S (Z.to_nat (Z.log2 n))) n [].

(** [int("".join(str(digit) for digit in digits))] *)
Definition int_of_digits (digits : list Z) : Z :=
  fold_left (fun acc digit => acc * 10 + digit) digits 0.

Definition digit_char (d : Z) : ascii := ascii_of_nat (48 + Z.to_nat d).

(** [str(n)] *)
Definition str (n : Z) : string :=
  let body := string_of_list_ascii (map digit_char (str_digits (Z.abs n))) in
  if n <? 0 then String "-" body else body.

(** [math.ceil(n / 8)] for a non-negative int [n]. *)
Definition ceil_div8 (n : Z) : Z := (n + 7) / 8.

(** *** [int(s)] for a string

    The embedding covers ASCII strings: blanks around the number are
    skipped, one sign is allowed, and the digits may be grouped by single
    underscores.  A conversion of more than [INT_MAX_STR_DIGITS] digits is
    refused.  [None] stands for [ValueError]. *)
Definition INT_MAX_STR_DIGITS : Z := 4300.

Definition isspace (c : ascii) : bool :=
  let n := Z.of_nat (nat_of_ascii c) in
  ((9 <=? n) && (n <=? 13)) || (n =? 32).

Definition isdigit (c : ascii) : bool :=
  let n := Z.of_nat (nat_of_ascii c) in
  (48 <=? n) && (n <=? 57).

Definition digit_value (c : ascii) : Z := Z.of_nat (nat_of_ascii c) - 48.

Fixpoint lstrip (s : list ascii) : list ascii :=
  match s with
  | c :: s' => if isspace c then lstrip s' else s
  | [] => []
  end.

Definition strip (s : list ascii) : list ascii :=
  rev (lstrip (rev (lstrip s))).

(** The digits and underscores of the number: [prev_underscore] also holds
    at the start, where an underscore is refused as well; [count] is the
    number of digits read. *)
Fixpoint int_digits (acc count : Z) (prev_underscore : bool) (s : list ascii)
  : option Z :=
  match s with
  | [] =>
      if prev_underscore then None
      else if INT_MAX_STR_DIGITS <? count then None
      else Some acc
  | c :: s' =>
      if isdigit c then int_digits (acc * 10 + digit_value c) (count + 1) false s'
      else if Ascii.eqb c "_" && negb prev_underscore then int_digits acc count true s'
      else None
  end.

Definition int (s : string) : option Z :=
  match strip (list_ascii_of_string s) with
  | c :: s' =>
      if Ascii.eqb c "+" then int_digits 0 0 true s'
      else if Ascii.eqb c "-" then option_map Z.opp (int_digits 0 0 true s')
      else int_digits 0 0 true (c :: s')
  | [] => None
  end.

(** [range(start, stop, step)] for a positive [step] *)
Definition range (start stop step : Z) : list Z :=
  map (fun k => start + Z.of_nat k * step)
      (seq 0 (Z.to_nat ((stop - start + step - 1) / step))).

(** [chr(n)] for a code point below 256 *)
Definition chr (n : Z) : ascii := ascii_of_nat (Z.to_nat n).

(** [ord(s)]: [None] stands for the [TypeError] raised for a string that
    is not made of one character. *)
Definition ord (s : string) : option Z :=
  match s with
  | String c EmptyString => Some (Z.of_nat (nat_of_ascii c))
  | _ => None
  end.

End py.

(** ** [pykmp/constants.py] *)
Module constants.

Module ByteCode.
Definition START_FROM_METER : Z := 0x40.
Definition START_TO_METER : Z := 0x80.
Definition STOP : Z := 0x0D.
Definition ACK : Z := 0x06.
Definition STUFFING : Z := 0x1B.
End ByteCode.

Module DestinationAddress.
Definition HEAT_METER : Z := 0x3F.
Definition LOGGER_TOP : Z := 0x7F.
Definition LOGGER_BASE : Z := 0xBF.
End DestinationAddress.

Definition ACK_BYTES : bytes := py.big_endian ByteCode.ACK 1.

Module CommandId.
Definition GET_TYPE : Z := 0x01.
Definition GET_SERIAL : Z := 0x02.
Definition SET_CLOCK : Z := 0x09.
Definition GET_REGISTER : Z := 0x10.
Definition PUT_REGISTER : Z := 0x11.
End CommandId.

End constants.

(** ** Exceptions of [pykmp/codec.py] and [pykmp/messages.py] *)

(** The [exponent] item of [decimal.Decimal.as_tuple()]: an int for a finite
    number, or one of the letters ['F'], ['n'], ['N'] for an infinity, a quiet
    NaN and a signaling NaN. *)
Inductive DecimalExponent : Type :=
| ExpInt (e : Z)
| ExpF
| ExpNaN
| ExpSNaN.

Inductive Error : Type :=
| AckReceivedException
| OutOfRangeError (what : string) (valid_range : option Z * option Z) (actual : Z)
| DataLengthUnexpectedError
    (what : string) (actual : Z) (length_expected : option Z)
    (expected_is_minimum : bool)
| BoundaryByteInvalidError (what : string) (expected_byte actual_byte : Z)
| InvalidDestinationAddressError
| UnsupportedDecimalExponentError (actual_exponent : DecimalExponent)
| CrcChecksumInvalidError
| MessageCidMismatchError
    (message_class_name : string) (cid_expected actual : Z)
| SerialNumberInvalidError (serial : string)
(* exceptions of the interpreter and of [decimal] that the code lets through *)
| OverflowError
| InvalidOperation.

Inductive Result (A : Type) : Type :=
| Ok (a : A)
| Raise (e : Error).
Arguments Ok {A} a.
Arguments Raise {A} e.

Definition bind {A B} (r : Result A) (k : A -> Result B) : Result B :=
  match r with
  | Ok a => k a
  | Raise e => Raise e
  end.

Notation "x <- r ;; k" := (bind r (fun x => k))
  (at level 61, r at next level, right associativity).

(** The exceptions that the decoders of the responses do not raise: those of
    the requests, of [GetTypeResponse.encode] and of the client, and the
    interpreter's own for a value of the wrong kind. *)
Inductive Exception : Type :=
| CodecError (e : Error)
| DataWithNoDataError (message_class : string)
| SoftwareRevisionInvalidError (revision_string : string)
| NotImplementedError
| ValueError
| TypeError.

Inductive Outcome (A : Type) : Type :=
| Returns (a : A)
| Raises (x : Exception).
Arguments Returns {A} a.
Arguments Raises {A} x.

Definition of_result {A} (r : Result A) : Outcome A :=
  match r with
  | Ok a => Returns a
  | Raise e => Raises (CodecError e)
  end.

(** ** [pykmp/codec.py] *)

Inductive PhysicalDirection : Type := TO_METER | FROM_METER.

Module PhysicalCodec.
Import constants.

Record t : Type := mk { direction : PhysicalDirection; _start_byte : Z }.

(** The five special bytes, in the order of the source: the stuffing byte
    comes first.  Each of them, and its complement, fits one byte, so the
    [to_bytes(1, "big")] calls of the comprehension cannot raise. *)
Definition BYTE_STUFFING_MAP : list (bytes * bytes) :=
  map (fun the_byte =>
         (py.big_endian the_byte 1,
          py.big_endian ByteCode.STUFFING 1
            ++ py.big_endian (Z.lxor the_byte 0xFF) 1))
      [ ByteCode.STUFFING; ByteCode.ACK; ByteCode.START_FROM_METER;
        ByteCode.START_TO_METER; ByteCode.STOP ].

Definition _direction_to_start_byte (direction : PhysicalDirection) : Z :=
  match direction with
  | FROM_METER => ByteCode.START_FROM_METER
  | TO_METER => ByteCode.START_TO_METER
  end.

(** The constructor, with [__attrs_post_init__]. *)
Definition new (direction : PhysicalDirection) : t :=
  mk direction (_direction_to_start_byte direction).

Definition decode (self : t) (frame : bytes) : Result bytes :=
  match frame with
  | [] => Raise (DataLengthUnexpectedError "Frame" 0 None false)
  | _ :: _ =>
      if py.bytes_eqb frame ACK_BYTES then Raise AckReceivedException
      else if negb (py.startswith frame (py.big_endian (_start_byte self) 1))
      then Raise (BoundaryByteInvalidError
                    "start" (_start_byte self) (py.item frame 0))
      else if negb (py.endswith frame (py.big_endian ByteCode.STOP 1))
      then Raise (BoundaryByteInvalidError
                    "stop" ByteCode.STOP (py.item frame (-1)))
      else
        Ok (fold_left
              (fun data_bytes '(unescaped_byte, escaped_bytes) =>
                 py.replace data_bytes escaped_bytes unescaped_byte)
              BYTE_STUFFING_MAP
              (py.slice (Some 1) (Some (-1)) frame))
  end.

Definition encode (self : t) (data_bytes : bytes) : Result bytes :=
  if py.len data_bytes =? 0
  then Raise (DataLengthUnexpectedError "Data link bytes" 0 None false)
  else
    let raw :=
      fold_left
        (fun raw '(unescaped_byte, escaped_bytes) =>
           py.replace raw unescaped_byte escaped_bytes)
        BYTE_STUFFING_MAP data_bytes in
    Ok (py.big_endian (_start_byte self) 1
          ++ raw ++ py.big_endian ByteCode.STOP 1).

Definition encode_ack : bytes := ACK_BYTES.

End PhysicalCodec.

(** *** The CRC engine

    [pykmp/codec.py] builds its checksum calculator from the third-party
    package [crc], which is not part of the sources.  The calculator is
    embedded here after that package's register classes: [Register] shifts
    the register bit by bit, [TableBasedRegister] (selected by
    [optimized=True]) consumes a byte at a time through a table of 256
    entries computed with [Register]. *)
Module crc.

Record Configuration : Type := mkConfiguration {
  width : Z;
  polynomial : Z;
  init_value : Z;
  final_xor_value : Z;
  reverse_input : bool;
  reverse_output : bool
}.

Definition _topbit (c : Configuration) : Z := Z.shiftl 1 (width c - 1).
Definition _bitmask (c : Configuration) : Z := 2 ^ width c - 1.

(** The value of the [n] low bits of [v] read in the opposite order. *)
Fixpoint reversed (n : nat) (v : Z) : Z :=
  match n with
  | O => 0
  | S k => Z.lor (Z.shiftl (Z.land v 1) (Z.of_nat k)) (reversed k (Z.shiftr v 1))
  end.

Module Register.
Fixpoint shift (c : Configuration) (n : nat) (register : Z) : Z :=
  match n with
  | O => register
  | S k =>
      shift c k
        (if negb (Z.land register (_topbit c) =? 0)
         then Z.lxor (Z.shiftl register 1) (polynomial c)
         else Z.shiftl register 1)
  end.

Definition _process_byte (c : Configuration) (register byte : Z) : Z :=
  let register := Z.lxor register (Z.shiftl byte (width c - 8)) in
  Z.land (shift c 8 register) (_bitmask c).
End Register.

Definition digest (c : Configuration) (register : Z) : Z :=
  let register :=
    if reverse_output c then reversed (Z.to_nat (width c)) register
    else register in
  Z.lxor register (final_xor_value c).

(** [create_lookup_table(width, polynomial)]: entry [index] is the digest
    of the one-byte message [index] under the plain configuration of that
    width and polynomial. *)
Definition create_lookup_table (width polynomial : Z) : list Z :=
  let config := mkConfiguration width polynomial 0 0 false false in
  map (fun index =>
         digest config
           (Register._process_byte config (init_value config) (Z.of_nat index)))
      (seq 0 256).

Module TableBasedRegister.
Definition _process_byte
    (c : Configuration) (_lookup_table : list Z) (register byte : Z) : Z :=
  let index := Z.lxor byte (Z.shiftr register (width c - 8)) in
  let register :=
    Z.lxor (nth (Z.to_nat index) _lookup_table 0) (Z.shiftl register 8) in
  Z.land register (_bitmask c).
End TableBasedRegister.

Record Calculator : Type := mkCalculator {
  configuration : Configuration;
  optimized : bool;
  _lookup_table : list Z
}.

Definition new (c : Configuration) (optimized : bool) : Calculator :=
  mkCalculator c optimized
    (if optimized then create_lookup_table (width c) (polynomial c) else []).

Definition _process_byte (k : Calculator) (register byte : Z) : Z :=
  if optimized k
  then TableBasedRegister._process_byte (configuration k) (_lookup_table k) register byte
  else Register._process_byte (configuration k) register byte.

(** [update(data)] on a register holding [register]. *)
Definition update (k : Calculator) (register : Z) (data : bytes) : Z :=
  fold_left
    (fun register byte =>
       let byte :=
         if reverse_input (configuration k) then reversed 8 byte else byte in
       _process_byte k register byte)
    data register.

Definition checksum (k : Calculator) (data : bytes) : Z :=
  digest (configuration k) (update k (init_value (configuration k)) data).

Definition verify (k : Calculator) (data : bytes) (expected : Z) : bool :=
  checksum k data =? expected.

End crc.

Definition _create_kamstrup_crc16_ccitt_calculator (initial : Z) : crc.Calculator :=
  let configuration :=
    crc.mkConfiguration 16 0x1021 initial 0x0000 false false in
  crc.new configuration true.

Module ApplicationData.
Record t : Type := mk {
  command_id : Z;
  data : bytes
}.
End ApplicationData.

Module DataLinkData.
Record t : Type := mk {
  destination_address : Z;
  application_bytes : bytes;
  crc_value : option Z
}.
End DataLinkData.

(** The [logger] calls of the codecs in [pykmp/codec.py] only report what is
    returned or raised; they are left out of the embedding of this module. *)
Module DataLinkCodec.

Definition DATA_LINK_BYTES_LENGTH_MIN : Z := 4.
Definition APPLICATION_BYTES_LENGTH_MIN : Z := 1.

(** The class attribute; the table of the calculator is computed once. *)
Definition crc_calculator : crc.Calculator :=
  Eval vm_compute in _create_kamstrup_crc16_ccitt_calculator 0x0000.

Definition decode (raw : bytes) : Result DataLinkData.t :=
  if negb (py.len raw >=? DATA_LINK_BYTES_LENGTH_MIN)
  then Raise (DataLengthUnexpectedError
                "Data link layer message to destructure"
                (py.len raw) (Some DATA_LINK_BYTES_LENGTH_MIN) true)
  else
    let destination_address := py.item raw 0 in
    let application_bytes := py.slice (Some 1) (Some (-2)) raw in
    let crc_bytes := py.slice (Some (-2)) None raw in
    let crc_verifies := crc.verify crc_calculator raw 0 in
    if negb crc_verifies then Raise CrcChecksumInvalidError
    else
      Ok (DataLinkData.mk destination_address application_bytes
            (Some (py.from_bytes crc_bytes))).

Definition encode (data : DataLinkData.t) : Result bytes :=
  match py.to_bytes (DataLinkData.destination_address data) 1 with
  | None => Raise InvalidDestinationAddressError
  | Some destination_address_raw =>
      if py.len (DataLinkData.application_bytes data) <? APPLICATION_BYTES_LENGTH_MIN
      then Raise (DataLengthUnexpectedError
                    "Application data" (py.len (DataLinkData.application_bytes data))
                    (Some APPLICATION_BYTES_LENGTH_MIN) true)
      else
        let raw_before_crc := destination_address_raw ++ DataLinkData.application_bytes data in
        let crc := crc.checksum crc_calculator raw_before_crc in
        match py.to_bytes crc 2 with
        | None => Raise OverflowError
        | Some crc_bytes => Ok (raw_before_crc ++ crc_bytes)
        end
  end.

End DataLinkCodec.

Module ApplicationCodec.

Definition APPLICATION_BYTES_LENGTH_MIN : Z := 1.

Definition decode (data : bytes) : Result ApplicationData.t :=
  if negb (py.len data >=? APPLICATION_BYTES_LENGTH_MIN)
  then Raise (DataLengthUnexpectedError
                "Application data message to destructure"
                (py.len data) (Some APPLICATION_BYTES_LENGTH_MIN) true)
  else Ok (ApplicationData.mk (py.item data 0) (py.slice (Some 1) None data)).

Definition encode (to_encode : ApplicationData.t) : Result bytes :=
  match py.to_bytes (ApplicationData.command_id to_encode) 1 with
  | None =>
      Raise (OutOfRangeError "Command ID" (Some 0, Some 255)
               (ApplicationData.command_id to_encode))
  | Some command_id_raw => Ok (command_id_raw ++ ApplicationData.data to_encode)
  end.

End ApplicationCodec.

(** *** [decimal.Decimal]

    A decimal is the triple of [as_tuple()]: the sign (true for negative),
    the coefficient's digits and the exponent. *)
Module decimal.

Record Decimal : Type := mkDecimal {
  sign : bool;
  digits : list Z;
  exponent : DecimalExponent
}.

(** The precision of the default context; its rounding mode is
    [ROUND_HALF_EVEN].  The exponent limits of the context
    ([Emax = 999999], [Emin = -999999]) are far beyond what the codec can
    encode and are not part of the embedding. *)
Definition prec : Z := 28.

(** [_fix(context)] on a finite number with coefficient digits [digits]
    and exponent [exp]: a coefficient of more than [prec] digits is rounded
    to [prec] digits. *)
Definition _fix (digits : list Z) (exp : Z) : list Z * Z :=
  let n := py.len digits in
  if n <=? prec then (digits, exp)
  else
    let k := n - prec in
    let coefficient := py.int_of_digits digits in
    let q := coefficient / 10 ^ k in
    let r := coefficient mod 10 ^ k in
    let half := 5 * 10 ^ (k - 1) in
    let q := if (half <? r) || ((r =? half) && Z.odd q) then q + 1 else q in
    if q =? 10 ^ prec
    then (py.str_digits (10 ^ (prec - 1)), exp + k + 1)
    else (py.str_digits q, exp + k).

(** The loop of [normalize] that drops trailing zeros of the coefficient,
    on the digits in reverse order. *)
Fixpoint strip_zeros (reversed_digits : list Z) (exp : Z) : list Z * Z :=
  match reversed_digits with
  | d :: rest =>
      if d =? 0 then strip_zeros rest (exp + 1) else (reversed_digits, exp)
  | [] => ([], exp)
  end.

(** [Decimal.normalize()] in the default context, where a signaling NaN
    raises [InvalidOperation]. *)
Definition normalize (d : Decimal) : Result Decimal :=
  match exponent d with
  | ExpSNaN => Raise InvalidOperation
  | ExpNaN | ExpF => Ok d
  | ExpInt exp =>
      let '(digits, exp) := _fix (digits d) exp in
      if py.int_of_digits digits =? 0
      then Ok (mkDecimal (sign d) [0] (ExpInt 0))
      else
        let '(reversed_digits, exp) := strip_zeros (rev digits) exp in
        Ok (mkDecimal (sign d) (rev reversed_digits) (ExpInt exp))
  end.

(** The number a finite decimal stands for. *)
Definition value_of (sign : bool) (coefficient exp : Z) : Q :=
  inject_Z (if sign then - coefficient else coefficient) * (10 # 1) ^ exp.

Definition value (d : Decimal) : option Q :=
  match exponent d with
  | ExpInt exp => Some (value_of (sign d) (py.int_of_digits (digits d)) exp)
  | _ => None
  end.

(** [a == b] on finite decimals compares the numbers. *)
Definition eq (a b : Decimal) : Prop :=
  match value a, value b with
  | Some x, Some y => x == y
  | _, _ => False
  end.

End decimal.

(** [decode_int_or_float] computes with binary floating point numbers and is
    left out. *)
Module FloatCodec.
Import decimal.

Definition _decode_parts (data : bytes) : Result (bool * bool * Z * Z) :=
  match data with
  | [] =>
      Raise (DataLengthUnexpectedError
               "Data for floating point decoding" (py.len data) None false)
  | _ :: _ =>
      let integer_length := py.item data 0 in
      if integer_length =? 0
      then Raise (OutOfRangeError
                    "Integer length byte value for floating point data decoding"
                    (Some 1, None) 0)
      else
        let length_expected := integer_length + 2 in
        if negb (py.len data =? length_expected)
        then Raise (DataLengthUnexpectedError
                      "Floating point data" (py.len data)
                      (Some length_expected) false)
        else
          let sign_exp_byte := py.item data 1 in
          let mantissa :=
            py.from_bytes (py.slice (Some 2) (Some (integer_length + 2)) data) in
          Ok (negb (Z.shiftr (Z.land sign_exp_byte 0x80) 7 =? 0),
              negb (Z.shiftr (Z.land sign_exp_byte 0x40) 6 =? 0),
              Z.land sign_exp_byte 0x3F,
              mantissa)
  end.

Definition decode (data : bytes) : Result Decimal :=
  parts <- _decode_parts data ;;
  let '(negative, exponent_negative, _exponent, mantissa) := parts in
  let mantissa_digits := py.str_digits mantissa in
  let exponent := if exponent_negative then - _exponent else _exponent in
  Ok (mkDecimal negative mantissa_digits (ExpInt exponent)).

Definition encode (to_encode : Decimal) (significand_num_bytes : option Z)
  : Result bytes :=
  decimal_tuple <- normalize to_encode ;;
  let negative := sign decimal_tuple in
  let digits := digits decimal_tuple in
  match exponent decimal_tuple with
  | ExpInt exponent =>
      let mantissa := py.int_of_digits digits in
      let mantissa_bytes_length_needed :=
        py.ceil_div8 (py.bit_length mantissa) in
      mantissa_bytes_length <-
        match significand_num_bytes with
        | Some significand_num_bytes =>
            if mantissa_bytes_length_needed >? significand_num_bytes
            then Raise (OutOfRangeError
                          "Significand bytes length of decimal to encode as mantissa"
                          (Some significand_num_bytes, Some significand_num_bytes)
                          mantissa_bytes_length_needed)
            else Ok significand_num_bytes
        | None => Ok mantissa_bytes_length_needed
        end ;;
      let exponent_negative := exponent <? 0 in
      let _exponent := Z.abs exponent in
      let max_value_six_bits := 0x3F in
      if _exponent >? max_value_six_bits
      then Raise (OutOfRangeError
                    ("Exponent (" ++ py.str _exponent ++ ") to encode")
                    (None, Some max_value_six_bits) _exponent)
      else
        let sign_bit := Z.shiftl (Z.b2z negative) 7 in
        let exponent_sign_bit := Z.shiftl (Z.b2z exponent_negative) 6 in
        let exponent_bits := Z.land _exponent 0x3F in
        match py.to_bytes mantissa_bytes_length 1,
              py.to_bytes (Z.lor (Z.lor sign_bit exponent_sign_bit) exponent_bits) 1,
              py.to_bytes mantissa (Z.to_nat mantissa_bytes_length) with
        | Some mantissa_lengh_byte, Some sign_exp_byte, Some mantissa_bytes =>
            Ok (mantissa_lengh_byte ++ sign_exp_byte ++ mantissa_bytes)
        | _, _, _ => Raise OverflowError
        end
  | exponent => Raise (UnsupportedDecimalExponentError exponent)
  end.

End FloatCodec.

(** ** [pykmp/messages.py] *)

(** *** Logging

    A log record keeps the level, the format string and the arguments of the
    [logger] call that made it. *)
Module logging.

Inductive Level : Type := DEBUG | INFO | WARNING | ERROR.

Definition levelno (l : Level) : Z :=
  match l with
  | DEBUG => 10
  | INFO => 20
  | WARNING => 30
  | ERROR => 40
  end.

Inductive Arg : Type :=
| ArgInt (n : Z)
| ArgStr (s : string)
| ArgHex (b : bytes).   (* [b.hex().upper()] *)

Record LogRecord : Type := mkLogRecord {
  level : Level;
  msg : string;
  args : list Arg
}.

(** The records a test keeps with [rec.levelno >= logging.WARNING]. *)
Definition warnings_and_up (records : list LogRecord) : list LogRecord :=
  filter (fun r => levelno (level r) >=? levelno WARNING) records.

End logging.

(** A computation of [pykmp/messages.py]: the records it logged, in order,
    and what it returned or raised. *)
Definition Logged (A : Type) : Type := (list logging.LogRecord * Result A)%type.

Definition ret {A} (a : A) : Logged A := ([], Ok a).

Definition raise {A} (e : Error) : Logged A := ([], Raise e).

Definition log (l : logging.Level) (msg : string) (args : list logging.Arg)
  : Logged unit :=
  ([logging.mkLogRecord l msg args], Ok tt).

Definition lift {A} (r : Result A) : Logged A := ([], r).

Definition bindL {A B} (m : Logged A) (k : A -> Logged B) : Logged B :=
  match m with
  | (records, Ok a) => let '(records', r) := k a in (records ++ records', r)
  | (records, Raise e) => (records, Raise e)
  end.

Notation "x <~ m ;; k" := (bindL m (fun x => k))
  (at level 61, m at next level, right associativity).
Notation "m ;;; k" := (bindL m (fun _ => k))
  (at level 61, right associativity).

(** *** [dict] with int keys, in insertion order *)
Module dict.

Definition t (V : Type) : Type := list (Z * V).

(** [d.get(key)] *)
Fixpoint get {V} (d : t V) (key : Z) : option V :=
  match d with
  | [] => None
  | (k, v) :: d' => if k =? key then Some v else get d' key
  end.

(** [key in d] *)
Definition contains {V} (d : t V) (key : Z) : bool :=
  match get d key with Some _ => true | None => false end.

(** [d.update({key: v})]: the value of a present key is replaced where the
    key stands, a new key is appended. *)
Fixpoint update {V} (d : t V) (key : Z) (v : V) : t V :=
  match d with
  | [] => [(key, v)]
  | (k, v') :: d' =>
      if k =? key then (k, v) :: d' else (k, v') :: update d' key v
  end.

(** [d.values()] *)
Definition values {V} (d : t V) : list V := map snd d.

End dict.

Definition _decode_validate_command_id
    (class_name : string) (class_command_id command_id : Z) : Result unit :=
  if negb (command_id =? class_command_id)
  then Raise (MessageCidMismatchError class_name class_command_id command_id)
  else Ok tt.

Module GetSerialResponse.

Definition command_id : Z := constants.CommandId.GET_SERIAL.
Definition command_name : string := "GetSerialNo".

Definition SERIAL_LENGTH_ENCODED : Z := 4.
Definition SERIAL_VALUE_MAX : Z := 2 ^ (SERIAL_LENGTH_ENCODED * 8) - 1.

Record t : Type := mk { serial : string; data_raw : option bytes }.

Definition digits_only_validator (value : string) : Result unit :=
  match py.int value with
  | None => Raise (SerialNumberInvalidError value)
  | Some int_value =>
      if negb ((0 <=? int_value) && (int_value <=? SERIAL_VALUE_MAX))
      then Raise (OutOfRangeError
                    "Serial number" (Some 0, Some SERIAL_VALUE_MAX) int_value)
      else Ok tt
  end.

(** The constructor: the validator of [serial] runs on every construction. *)
Definition new (serial : string) (data_raw : option bytes) : Result t :=
  _ <- digits_only_validator serial ;;
  Ok (mk serial data_raw).

Definition decode (data : ApplicationData.t) : Logged t :=
  lift (_decode_validate_command_id "GetSerialResponse" command_id
          (ApplicationData.command_id data)) ;;;
  log logging.DEBUG "Decoding %s data (len=%d != %d): %r"
    [logging.ArgStr command_name;
     logging.ArgInt (py.len (ApplicationData.data data));
     logging.ArgInt SERIAL_LENGTH_ENCODED;
     logging.ArgHex (ApplicationData.data data)] ;;;
  if negb (py.len (ApplicationData.data data) =? SERIAL_LENGTH_ENCODED)
  then raise (DataLengthUnexpectedError
                "Serial data" (py.len (ApplicationData.data data))
                (Some SERIAL_LENGTH_ENCODED) false)
  else
    let serial_int := py.from_bytes (ApplicationData.data data) in
    lift (new (py.str serial_int) (Some (ApplicationData.data data))).

Definition encode (self : t) : Outcome ApplicationData.t :=
  match py.int (serial self) with
  | None => Raises ValueError
  | Some serial_int =>
      match py.to_bytes serial_int (Z.to_nat SERIAL_LENGTH_ENCODED) with
      | None => Raises (CodecError OverflowError)
      | Some serial_bytes => Returns (ApplicationData.mk command_id serial_bytes)
      end
  end.

End GetSerialResponse.

Record RegisterData : Type := mkRegisterData {
  id_ : Z;
  unit : Z;
  value : bytes
}.

Module GetRegisterResponse.
Import logging.

Definition command_id : Z := constants.CommandId.GET_REGISTER.
Definition command_name : string := "GetRegister".

Record t : Type := mk {
  registers : dict.t RegisterData;
  data_raw : option bytes
}.

Definition REGISTER_ID_LENGTH_ENCODED : Z := 2.
Definition REGISTER_UNIT_LENGTH_ENCODED : Z := 1.
Definition REGISTER_VALUE_LENGTH_LENGTH_ENCODED : Z := 1.
Definition REGISTER_VALUE_FORMAT_LENGTH_ENCODED : Z := 1.

Definition _decode_one_register_value (raw : bytes)
  : Logged (RegisterData * bytes) :=
  let len_min :=
    REGISTER_ID_LENGTH_ENCODED + REGISTER_UNIT_LENGTH_ENCODED
    + REGISTER_VALUE_LENGTH_LENGTH_ENCODED
    + REGISTER_VALUE_FORMAT_LENGTH_ENCODED + 1 in
  log DEBUG "Decoding register bytes. [raw=%r, length_min=%d]"
    [ArgHex raw; ArgInt len_min] ;;;
  let len_raw := py.len raw in
  if len_raw <? len_min
  then raise (DataLengthUnexpectedError
                "Data to decode register data" len_raw (Some len_min) true)
  else
    let value_length := py.item raw 3 + REGISTER_VALUE_FORMAT_LENGTH_ENCODED in
    let expected_len_min := 4 + value_length in
    if negb (len_raw >=? expected_len_min)
    then raise (DataLengthUnexpectedError
                  "Register value data left in buffer" len_raw
                  (Some expected_len_min) true)
    else
      let data :=
        mkRegisterData
          (py.from_bytes (py.slice None (Some 2) raw))
          (py.item raw 2)
          (py.slice (Some 3)
             (Some (3 + value_length + REGISTER_VALUE_LENGTH_LENGTH_ENCODED))
             raw) in
      let remaining_bytes := py.slice (Some (4 + value_length)) None raw in
      let len_remaining := py.len remaining_bytes in
      (if (0 <? len_remaining) && (len_remaining <? len_min)
       then log WARNING
              "Remaining data after decoding register value is unexpectedly short. [len=%d, min=%d]"
              [ArgInt len_remaining; ArgInt len_min]
       else ret tt) ;;;
      ret (data, remaining_bytes).

(** The [while bytes_remaining:] loop of [decode].  Every round removes at
    least six bytes from [bytes_remaining], so a [fuel] of its length
    covers all rounds; the branch taken without fuel is never reached
    then. *)
Fixpoint decode_loop
    (fuel : nat) (bytes_remaining : bytes) (registers : dict.t RegisterData)
  : Logged (dict.t RegisterData) :=
  match bytes_remaining with
  | [] => ret registers
  | _ :: _ =>
      match fuel with
      | O => ret registers
      | S fuel' =>
          decoded <~ _decode_one_register_value bytes_remaining ;;
          let '(register_data, bytes_remaining) := decoded in
          log DEBUG
            "Decoded register values: [id=%d, unit=%d, value_bytes=%s, remaining bytes=%d]"
            [ArgInt (id_ register_data); ArgInt (unit register_data);
             ArgHex (value register_data); ArgInt (py.len bytes_remaining)] ;;;
          (if dict.contains registers (id_ register_data)
           then log WARNING
                  "Duplicate register ID %d in response, overwriting value."
                  [ArgInt (id_ register_data)]
           else ret tt) ;;;
          decode_loop fuel' bytes_remaining
            (dict.update registers (id_ register_data) register_data)
      end
  end.

Definition decode (data : ApplicationData.t) : Logged t :=
  lift (_decode_validate_command_id "GetRegisterResponse" command_id
          (ApplicationData.command_id data)) ;;;
  registers <~ decode_loop (List.length (ApplicationData.data data))
                 (ApplicationData.data data) [] ;;
  ret (mk registers (Some (ApplicationData.data data))).

Definition _encode_one_register_value (data : RegisterData) : Result bytes :=
  match py.to_bytes (id_ data) 2, py.to_bytes (unit data) 1 with
  | Some id_bytes, Some unit_bytes => Ok (id_bytes ++ unit_bytes ++ value data)
  | _, _ => Raise OverflowError
  end.

(** [b"".join(self._encode_one_register_value(register) for register in
    records)] *)
Fixpoint join_encoded (records : list RegisterData) : Result bytes :=
  match records with
  | [] => Ok []
  | register :: rest =>
      encoded <- _encode_one_register_value register ;;
      joined <- join_encoded rest ;;
      Ok (encoded ++ joined)
  end.

Definition encode (self : t) : Result ApplicationData.t :=
  to_return <- join_encoded (dict.values (registers self)) ;;
  Ok (ApplicationData.mk command_id to_return).

End GetRegisterResponse.

(** A computation that logs and can raise any of the exceptions. *)
Definition LoggedOutcome (A : Type) : Type :=
  (list logging.LogRecord * Outcome A)%type.

Definition of_logged {A} (m : Logged A) : LoggedOutcome A :=
  (fst m, of_result (snd m)).

(** *** Regular expressions

    The patterns of [pykmp/messages.py] use literal characters, character
    ranges, alternatives, bounded greedy repetitions, groups and the anchors
    [^] and [$].  [run] tries the alternatives from the left and the longer
    repetition first, and backtracks into them when the rest of the pattern
    fails, as the [re] module does. *)
Module re.

Inductive Pattern : Type :=
| Char (c : ascii)
| Range (lo hi : ascii)
| Cat (a b : Pattern)
| Alt (a b : Pattern)
| Repeat (a : Pattern) (lo hi : nat)
| Group (name : option string) (a : Pattern)
| Caret
| Dollar.

(** A match: the named groups that took part, with the text of each. *)
Definition Match : Type := list (string * string).

Definition in_range (lo hi c : ascii) : bool :=
  (nat_of_ascii lo <=? nat_of_ascii c)%nat && (nat_of_ascii c <=? nat_of_ascii hi)%nat.

(** [pos] counts the characters before [s]; [k] matches what follows the
    pattern.  [$] holds at the end of the string and before a newline that
    ends it. *)
Fixpoint run (p : Pattern) (pos : nat) (s : list ascii) (groups : Match)
    (k : nat -> list ascii -> Match -> option Match) {struct p} : option Match :=
  match p with
  | Char c =>
      match s with
      | x :: s' => if Ascii.eqb x c then k (S pos) s' groups else None
      | [] => None
      end
  | Range lo hi =>
      match s with
      | x :: s' => if in_range lo hi x then k (S pos) s' groups else None
      | [] => None
      end
  | Cat a b => run a pos s groups (fun pos' s' groups' => run b pos' s' groups' k)
  | Alt a b =>
      match run a pos s groups k with
      | Some m => Some m
      | None => run b pos s groups k
      end
  | Repeat a lo hi =>
      (fix rep (lo hi : nat) (pos : nat) (s : list ascii) (groups : Match)
           {struct hi} : option Match :=
         match hi with
         | O => k pos s groups
         | S hi' =>
             match run a pos s groups (rep (Nat.pred lo) hi') with
             | Some m => Some m
             | None => if (lo =? 0)%nat then k pos s groups else None
             end
         end) lo hi pos s groups
  | Group name a =>
      run a pos s groups
        (fun pos' s' groups' =>
           k pos' s'
             (match name with
              | Some n =>
                  (n, string_of_list_ascii (firstn (pos' - pos) s)) :: groups'
              | None => groups'
              end))
  | Caret => if (pos =? 0)%nat then k pos s groups else None
  | Dollar =>
      match s with
      | [] => k pos s groups
      | [c] => if Ascii.eqb c "010" then k pos s groups else None
      | _ => None
      end
  end.

(** [pattern.match(s)] *)
Definition match_ (p : Pattern) (s : string) : option Match :=
  run p 0 (list_ascii_of_string s) [] (fun _ _ groups => Some groups).

(** [m[name]]: [None] for a group that took no part in the match. *)
Fixpoint group (m : Match) (name : string) : option string :=
  match m with
  | [] => None
  | (n, text) :: m' => if String.eqb n name then Some text else group m' name
  end.

End re.

Definition ZERO_TO_255_RE : re.Pattern :=
  re.Group None
    (re.Alt
       (re.Cat (re.Repeat (re.Char "1") 0 1) (re.Repeat (re.Range "0" "9") 1 2))
       (re.Alt
          (re.Cat (re.Char "2") (re.Cat (re.Range "0" "4") (re.Range "0" "9")))
          (re.Cat (re.Char "2") (re.Cat (re.Char "5") (re.Range "0" "5"))))).

(** *** Requests without data *)
Module WithoutDataMixin.

(** [cls_name] and [cls_command_id] are those of the class that [decode]
    is called on; the instance it returns has no field. *)
Definition decode (cls_name : string) (cls_command_id : Z) (data : ApplicationData.t)
  : Outcome Datatypes.unit :=
  match _decode_validate_command_id cls_name cls_command_id
          (ApplicationData.command_id data) with
  | Raise e => Raises (CodecError e)
  | Ok _ =>
      match ApplicationData.data data with
      | _ :: _ => Raises (DataWithNoDataError cls_name)
      | [] => Returns tt
      end
  end.

Definition encode (cls_command_id : Z) : ApplicationData.t :=
  ApplicationData.mk cls_command_id [].

End WithoutDataMixin.

Module GetTypeRequest.

Definition command_id : Z := constants.CommandId.GET_TYPE.
Definition command_name : string := "GetType".

Inductive t : Type := mk.

Definition decode (data : ApplicationData.t) : Outcome t :=
  match WithoutDataMixin.decode "GetTypeRequest" command_id data with
  | Raises x => Raises x
  | Returns _ => Returns mk
  end.

Definition encode (self : t) : ApplicationData.t :=
  WithoutDataMixin.encode command_id.

End GetTypeRequest.

Module GetTypeResponse.
Import logging.

Definition command_id : Z := GetTypeRequest.command_id.
Definition command_name : string := GetTypeRequest.command_name.

Record t : Type := mk {
  meter_type_bytes : bytes;
  software_revision : option string;
  data_raw : option bytes
}.

Definition METER_TYPE_LENGTH_ENCODED : Z := 2.
Definition SOFTWARE_REVISION_LENGTH_ENCODED : Z := 2.
Definition SOFTWARE_REVISION_LETTER_INT_MIN : Z := 1.
Definition SOFTWARE_REVISION_LETTER_INT_MAX : Z := 26.
Definition SOFTWARE_REVISION_STR_RE : re.Pattern :=
  re.Cat re.Caret
    (re.Cat (re.Group (Some "letter"%string) (re.Range "A" "Z"))
       (re.Cat (re.Group (Some "number"%string) ZERO_TO_255_RE) re.Dollar)).
Definition SOFTWARE_REVISION_UNAVAILABLE_BYTES : bytes := [0x00; 0x00].

Definition decode (data : ApplicationData.t) : Logged t :=
  lift (_decode_validate_command_id "GetTypeResponse" command_id
          (ApplicationData.command_id data)) ;;;
  let length_expected :=
    METER_TYPE_LENGTH_ENCODED + SOFTWARE_REVISION_LENGTH_ENCODED in
  let data_len := py.len (ApplicationData.data data) in
  log DEBUG "Decoding GetType data. [len=%d, expected_len=%d, data=%r]"
    [ArgInt data_len; ArgInt length_expected; ArgHex (ApplicationData.data data)] ;;;
  if negb (data_len =? length_expected)
  then raise (DataLengthUnexpectedError
                "GetType response data" data_len (Some length_expected) false)
  else
    let meter_type_bytes := py.slice None (Some 2) (ApplicationData.data data) in
    let sw_rev_bytes := py.slice (Some 2) None (ApplicationData.data data) in
    software_revision <~
      (if py.bytes_eqb sw_rev_bytes SOFTWARE_REVISION_UNAVAILABLE_BYTES
       then ret None
       else
         let sw_rev_letter_int := py.item sw_rev_bytes 0 in
         if negb ((SOFTWARE_REVISION_LETTER_INT_MIN <=? sw_rev_letter_int)
                  && (sw_rev_letter_int <=? SOFTWARE_REVISION_LETTER_INT_MAX))
         then
           log DEBUG
             "Decoding %s response; software revision letter out of range. [data=%r]"
             [ArgStr command_name; ArgHex (ApplicationData.data data)] ;;;
           raise (OutOfRangeError
                    "Software revision letter (int value)"
                    (Some SOFTWARE_REVISION_LETTER_INT_MIN,
                     Some SOFTWARE_REVISION_LETTER_INT_MAX)
                    sw_rev_letter_int)
         else
           let sw_rev_letter := py.chr (sw_rev_letter_int + 64) in
           let sw_rev_number := py.item sw_rev_bytes 1 in
           ret (Some (String sw_rev_letter (py.str sw_rev_number)))) ;;
    ret (mk meter_type_bytes software_revision (Some (ApplicationData.data data))).

(** The bytes of a software revision string, or the exception that
    [encode] raises for it. *)
Definition encode_software_revision (software_revision : string) : Outcome bytes :=
  match re.match_ SOFTWARE_REVISION_STR_RE software_revision with
  | None => Raises (SoftwareRevisionInvalidError software_revision)
  | Some matches =>
      match re.group matches "letter", re.group matches "number" with
      | Some sw_rev_letter, Some sw_rev_number =>
          match py.ord sw_rev_letter with
          | None => Raises TypeError
          | Some letter_code =>
              match py.to_bytes (letter_code - 64) 1 with
              | None => Raises (CodecError OverflowError)
              | Some sw_rev_letter_bytes =>
                  match py.int sw_rev_number with
                  | None => Raises ValueError
                  | Some number =>
                      match py.to_bytes number 1 with
                      | None => Raises (CodecError OverflowError)
                      | Some sw_rev_number_bytes =>
                          Returns (sw_rev_letter_bytes ++ sw_rev_number_bytes)
                      end
                  end
              end
          end
      | _, _ => Raises TypeError
      end
  end.

Definition encode (self : t) : LoggedOutcome ApplicationData.t :=
  ([mkLogRecord DEBUG
      "Encoding %s response [meter_type_bytes=%r, software_revision=%s]"
      [ArgStr command_name; ArgHex (meter_type_bytes self);
       ArgStr (match software_revision self with
               | Some s => s
               | None => "None"
               end)]],
   if negb (py.len (meter_type_bytes self) =? METER_TYPE_LENGTH_ENCODED)
   then Raises (CodecError
                  (DataLengthUnexpectedError
                     "GetTypeResponse meter type bytes"
                     (py.len (meter_type_bytes self))
                     (Some METER_TYPE_LENGTH_ENCODED) false))
   else
     match
       match software_revision self with
       | None => Returns SOFTWARE_REVISION_UNAVAILABLE_BYTES
       | Some software_revision => encode_software_revision software_revision
       end
     with
     | Raises x => Raises x
     | Returns sw_rev_bytes =>
         Returns (ApplicationData.mk command_id
                    (meter_type_bytes self ++ sw_rev_bytes))
     end).

End GetTypeResponse.

Module GetSerialRequest.

Definition command_id : Z := constants.CommandId.GET_SERIAL.
Definition command_name : string := "GetSerialNo".

Inductive t : Type := mk.

Definition decode (data : ApplicationData.t) : Outcome t :=
  match WithoutDataMixin.decode "GetSerialRequest" command_id data with
  | Raises x => Raises x
  | Returns _ => Returns mk
  end.

Definition encode (self : t) : ApplicationData.t :=
  WithoutDataMixin.encode command_id.

End GetSerialRequest.

Definition _ints2register_ids (val : list Z) : list Z :=
  map (fun rid => rid) val.

Module GetRegisterRequest.
Import logging.

Definition command_id : Z := constants.CommandId.GET_REGISTER.
Definition command_name : string := "GetRegister".

Record t : Type := mk { registers : list Z; data_raw : option bytes }.

Definition NUM_REGISTERS_LENGTH_ENCODED : Z := 1.
Definition NUM_REGISTERS_MAX : Z := 8.
Definition REGISTER_ID_LENGTH_ENCODED : Z := 2.
Definition REGISTER_ID_VALUE_MAX : Z := 2 ^ (REGISTER_ID_LENGTH_ENCODED * 8) - 1.

Fixpoint register_id_validator (value : list Z) : Result Datatypes.unit :=
  match value with
  | [] => Ok tt
  | reg_id :: rest =>
      if negb ((0 <=? reg_id) && (reg_id <=? REGISTER_ID_VALUE_MAX))
      then Raise (OutOfRangeError
                    "Register ID" (Some 0, Some REGISTER_ID_VALUE_MAX) reg_id)
      else register_id_validator rest
  end.

(** The constructor: the converter of [registers], then its validator. *)
Definition new (registers : list Z) (data_raw : option bytes) : Result t :=
  let registers := _ints2register_ids registers in
  _ <- register_id_validator registers ;;
  Ok (mk registers data_raw).

Definition _decode_register_ids_array (num_registers : Z) (packed : bytes)
  : Logged (list Z) :=
  let expected_length := num_registers * REGISTER_ID_LENGTH_ENCODED in
  let packed_len := py.len packed in
  if negb (packed_len =? expected_length)
  then
    log DEBUG
      "%s: Unexpected number of bytes for register IDs (len=%d != %d, num_registers=%d): %r"
      [ArgStr command_name; ArgInt packed_len; ArgInt expected_length;
       ArgInt num_registers; ArgHex packed] ;;;
    raise (DataLengthUnexpectedError
             (command_name ++ " request data for " ++ py.str num_registers
                ++ " register ID(s)")
             packed_len (Some expected_length) false)
  else
    let registers_bytes :=
      map (fun i => py.slice (Some i) (Some (i + REGISTER_ID_LENGTH_ENCODED)) packed)
          (py.range 0 packed_len REGISTER_ID_LENGTH_ENCODED) in
    ret (map py.from_bytes registers_bytes).

Definition decode (data : ApplicationData.t) : Logged t :=
  lift (_decode_validate_command_id "GetRegisterRequest" command_id
          (ApplicationData.command_id data)) ;;;
  let min_length := NUM_REGISTERS_LENGTH_ENCODED in
  let data_len := py.len (ApplicationData.data data) in
  if data_len <? min_length
  then
    log DEBUG "Decoding %s data (len=%d < %d): %r"
      [ArgStr command_name; ArgInt data_len; ArgInt min_length;
       ArgHex (ApplicationData.data data)] ;;;
    raise (DataLengthUnexpectedError
             (command_name ++ " request data") data_len (Some min_length) true)
  else
    let num_registers := py.item (ApplicationData.data data) 0 in
    let registers_bytes := py.slice (Some 1) None (ApplicationData.data data) in
    (if negb ((1 <=? num_registers) && (num_registers <=? NUM_REGISTERS_MAX))
     then log WARNING
            "Number of registers (%d) in %s request is outside the defined range (1-%d)."
            [ArgInt num_registers; ArgStr command_name; ArgInt NUM_REGISTERS_MAX]
     else ret tt) ;;;
    registers <~ _decode_register_ids_array num_registers registers_bytes ;;
    lift (new registers (Some (ApplicationData.data data))).

(** [b"".join(register_id.to_bytes(2, "big") for register_id in registers)] *)
Fixpoint join_register_ids (registers : list Z) : Result bytes :=
  match registers with
  | [] => Ok []
  | register_id :: rest =>
      match py.to_bytes register_id (Z.to_nat REGISTER_ID_LENGTH_ENCODED) with
      | None => Raise OverflowError
      | Some register_id_bytes =>
          joined <- join_register_ids rest ;;
          Ok (register_id_bytes ++ joined)
      end
  end.

Definition encode (self : t) : Result ApplicationData.t :=
  let num_registers := py.len (registers self) in
  if negb ((1 <=? num_registers) && (num_registers <=? NUM_REGISTERS_MAX))
  then Raise (OutOfRangeError
                ("Number of registers requested in " ++ command_name ++ " request")
                (Some 1, Some NUM_REGISTERS_MAX) num_registers)
  else
    match py.to_bytes (py.len (registers self))
            (Z.to_nat NUM_REGISTERS_LENGTH_ENCODED) with
    | None => Raise OverflowError
    | Some num_registers_bytes =>
        register_ids_bytes <- join_register_ids (registers self) ;;
        Ok (ApplicationData.mk command_id
              (num_registers_bytes ++ register_ids_bytes))
    end.

End GetRegisterRequest.

(** ** [pykmp/client.py]

    A request is an instance of one of the request classes; [type(request)]
    is kept as a [RequestClass], and [get_response_type()] of a request
    class selects the decoder of its response. *)
Inductive RequestClass : Type :=
| GetTypeRequest_class
| GetSerialRequest_class
| GetRegisterRequest_class.

Inductive Request : Type :=
| GetTypeRequest_ (request : GetTypeRequest.t)
| GetSerialRequest_ (request : GetSerialRequest.t)
| GetRegisterRequest_ (request : GetRegisterRequest.t).

Inductive Response : Type :=
| GetTypeResponse_ (response : GetTypeResponse.t)
| GetSerialResponse_ (response : GetSerialResponse.t)
| GetRegisterResponse_ (response : GetRegisterResponse.t).

(** [type(request)] *)
Definition type_of (request : Request) : RequestClass :=
  match request with
  | GetTypeRequest_ _ => GetTypeRequest_class
  | GetSerialRequest_ _ => GetSerialRequest_class
  | GetRegisterRequest_ _ => GetRegisterRequest_class
  end.

(** [request.encode()] *)
Definition request_encode (request : Request) : Result ApplicationData.t :=
  match request with
  | GetTypeRequest_ r => Ok (GetTypeRequest.encode r)
  | GetSerialRequest_ r => Ok (GetSerialRequest.encode r)
  | GetRegisterRequest_ r => GetRegisterRequest.encode r
  end.

(** [request_cls.get_response_type().decode(application_data)] *)
Definition response_decode (request_cls : RequestClass) (data : ApplicationData.t)
  : Logged Response :=
  match request_cls with
  | GetTypeRequest_class =>
      response <~ GetTypeResponse.decode data ;; ret (GetTypeResponse_ response)
  | GetSerialRequest_class =>
      response <~ GetSerialResponse.decode data ;; ret (GetSerialResponse_ response)
  | GetRegisterRequest_class =>
      response <~ GetRegisterResponse.decode data ;; ret (GetRegisterResponse_ response)
  end.

Module EncodedClientRequest.
Record t : Type := mk { physical_bytes : bytes; request_cls : RequestClass }.
End EncodedClientRequest.

Module EncodedClientResponse.
Record t : Type := mk { physical_bytes : bytes; request_cls : RequestClass }.
End EncodedClientResponse.

Definition DESTINATION_ADDRESS_DEFAULT : Z :=
  constants.DestinationAddress.HEAT_METER.

(** The application and data link codecs hold no state; an instance of
    [ClientCodec] is its destination address. *)
Module ClientCodec.

Record t : Type := mk { destination_address : Z }.

Definition physical_codec_encode : PhysicalCodec.t := PhysicalCodec.new TO_METER.
Definition physical_codec_decode : PhysicalCodec.t := PhysicalCodec.new FROM_METER.

Definition encode (self : t) (request : Request) : Result EncodedClientRequest.t :=
  application_data <- request_encode request ;;
  application_bytes <- ApplicationCodec.encode application_data ;;
  let data_link_data :=
    DataLinkData.mk (destination_address self) application_bytes None in
  data_link_bytes <- DataLinkCodec.encode data_link_data ;;
  thebytes <- PhysicalCodec.encode physical_codec_encode data_link_bytes ;;
  Ok (EncodedClientRequest.mk thebytes (type_of request)).

Definition decode (self : t) (frame : EncodedClientResponse.t)
  : LoggedOutcome Response :=
  match PhysicalCodec.decode physical_codec_decode
          (EncodedClientResponse.physical_bytes frame) with
  | Raise AckReceivedException => ([], Raises NotImplementedError)
  | Raise e => ([], Raises (CodecError e))
  | Ok data_link_bytes =>
      of_logged
        (data_link_data <~ lift (DataLinkCodec.decode data_link_bytes) ;;
         application_data <~
           lift (ApplicationCodec.decode
                   (DataLinkData.application_bytes data_link_data)) ;;
         response_decode (EncodedClientResponse.request_cls frame) application_data)
  end.

End ClientCodec.

(** ** Notions used to state the properties *)

(** A decimal digit, as [as_tuple()] lists them. *)
Definition is_digit (d : Z) : Prop := 0 <= d <= 9.

(** The coefficient of a decimal with its sign. *)
Definition signed (s : bool) (c : Z) : Z := if s then - c else c.

(** The sign and exponent byte that [FloatCodec.encode] packs. *)
Definition sign_exp_of (negative exponent_negative : bool) (_exponent : Z) : Z :=
  Z.lor (Z.lor (Z.shiftl (Z.b2z negative) 7) (Z.shiftl (Z.b2z exponent_negative) 6))
        (Z.land _exponent 0x3F).

(** The records logged by [GetRegisterResponse]. *)
Definition record_debug (raw : bytes) : logging.LogRecord :=
  logging.mkLogRecord logging.DEBUG
    "Decoding register bytes. [raw=%r, length_min=%d]"
    [logging.ArgHex raw; logging.ArgInt 6].

Definition short_remainder_warning (len_remaining : Z) : logging.LogRecord :=
  logging.mkLogRecord logging.WARNING
    "Remaining data after decoding register value is unexpectedly short. [len=%d, min=%d]"
    [logging.ArgInt len_remaining; logging.ArgInt 6].

Definition decoded_debug (r : RegisterData) (remaining : Z) : logging.LogRecord :=
  logging.mkLogRecord logging.DEBUG
    "Decoded register values: [id=%d, unit=%d, value_bytes=%s, remaining bytes=%d]"
    [logging.ArgInt (id_ r); logging.ArgInt (unit r);
     logging.ArgHex (value r); logging.ArgInt remaining].

Definition duplicate_warning (id : Z) : logging.LogRecord :=
  logging.mkLogRecord logging.WARNING
    "Duplicate register ID %d in response, overwriting value."
    [logging.ArgInt id].

(** A register as a record of the wire holds it: the ID on two bytes, the
    unit on one, and a value made of its length byte [L >= 1] and [L + 1]
    more bytes. *)
Definition wire_register (r : RegisterData) : Prop :=
  0 <= id_ r < 65536 /\ 0 <= unit r < 256
  /\ exists L body, value r = L :: body /\ 1 <= L /\ py.len body = L + 1.

(** The IDs of the records that repeat the ID of an earlier record, in
    order; [seen] holds the IDs met before. *)
Fixpoint duplicate_ids (seen : list Z) (records : list RegisterData) : list Z :=
  match records with
  | [] => []
  | r :: rest =>
      (if existsb (Z.eqb (id_ r)) seen then [id_ r] else [])
        ++ duplicate_ids (id_ r :: seen) rest
  end.

(** The bytes that, right after a stuffing byte, make an escape sequence of
    another special byte: the complements of [ACK], [START_FROM_METER],
    [START_TO_METER] and [STOP]. *)
Definition completes_escape (b : Z) : bool :=
  existsb (Z.eqb b) [0xF9; 0xBF; 0x7F; 0xF2].

(** No stuffing byte of the data is followed by such a byte. *)
Fixpoint no_escape_clash (data : bytes) : bool :=
  match data with
  | a :: rest =>
      match rest with
      | b :: _ => negb ((a =? 0x1B) && completes_escape b)
      | [] => true
      end && no_escape_clash rest
  | [] => true
  end.

(** The image of a byte when the special bytes listed in [escaped] are
    stuffed. *)
Definition stuffed (escaped : list Z) (y : Z) : bytes :=
  if existsb (Z.eqb y) escaped then [0x1B; Z.lxor y 0xFF] else [y].

(** A string of decimal digits. *)
Definition is_decimal (s : list ascii) : Prop :=
  Forall (fun c => py.isdigit c = true) s.

(** The number spelled by a sequence of decimal digits. *)
Definition decimal_value (s : list ascii) : Z :=
  py.int_of_digits (map py.digit_value s).

(** One of the five special bytes of the physical layer. *)
Definition is_special (b : Z) : bool :=
  existsb (Z.eqb b) [0x1B; 0x06; 0x40; 0x80; 0x0D].

(** A byte that delimits a frame or is a frame of its own: a start byte,
    the stop byte, the ACK byte. *)
Definition is_delimiter (b : Z) : bool :=
  existsb (Z.eqb b) [0x06; 0x40; 0x80; 0x0D].

(** The start byte of the other direction. *)
Definition opposite (direction : PhysicalDirection) : PhysicalDirection :=
  match direction with
  | TO_METER => FROM_METER
  | FROM_METER => TO_METER
  end.

(** One step of the checksum register of the data link layer, on a
    register that already holds the byte in its high bits. *)
Definition crc_step (R : Z) : Z :=
  Z.land
    (Z.lxor
       (nth (Z.to_nat (Z.shiftr R 8)) (crc._lookup_table DataLinkCodec.crc_calculator) 0)
       (Z.shiftl (Z.land R 255) 8))
    65535.

(** The index of the table entry with a given low byte. *)
Definition crc_low_byte_index : list Z :=
  Eval vm_compute in
    map (fun v =>
           match find (fun i =>
                         Z.land (nth i (crc._lookup_table DataLinkCodec.crc_calculator) 0) 255
                         =? Z.of_nat v)
                      (seq 0 256) with
           | Some i => Z.of_nat i
           | None => 0
           end)
        (seq 0 256).

(** The register before a step, from the register after it. *)
Definition crc_unstep (y : Z) : Z :=
  let h := nth (Z.to_nat (Z.land y 255)) crc_low_byte_index 0 in
  256 * h
  + Z.shiftr
      (Z.lxor y (nth (Z.to_nat h) (crc._lookup_table DataLinkCodec.crc_calculator) 0)) 8.

(** The dictionary that holds the given registers under their IDs, in
    order. *)
Definition registers_of (records : list RegisterData) : dict.t RegisterData :=
  map (fun r => (id_ r, r)) records.

(** A register as [_decode_one_register_value] builds it from bytes, under
    its key: the ID of two bytes, the unit, and a value made of a length
    byte [L] and [L + 1] more bytes. *)
Definition decoded_register (entry : Z * RegisterData) : Prop :=
  let r := snd entry in
  fst entry = id_ r
  /\ 0 <= id_ r < 65536
  /\ is_byte (unit r)
  /\ is_bytes (value r)
  /\ exists L rest, value r = L :: rest /\ py.len rest = L + 1.

(** The register IDs of a GetRegister request on the wire: two big-endian
    bytes each. *)
Definition packed_register_ids (registers : list Z) : bytes :=
  flat_map (fun register_id => [register_id / 256; register_id mod 256]) registers.

(** The big-endian numbers of the pairs of bytes of a sequence. *)
Fixpoint unpacked_register_ids (packed : bytes) : list Z :=
  match packed with
  | hi :: lo :: rest => (hi * 256 + lo) :: unpacked_register_ids rest
  | _ => []
  end.

(** The warning of [GetRegisterRequest.decode] for a number of registers
    outside of [1, 8]. *)
Definition number_of_registers_warning (num_registers : Z) : logging.LogRecord :=
  logging.mkLogRecord logging.WARNING
    "Number of registers (%d) in %s request is outside the defined range (1-%d)."
    [logging.ArgInt num_registers; logging.ArgStr "GetRegister"; logging.ArgInt 8].

(** The software revision that [GetTypeResponse.decode] builds from the
    letter byte and the number byte. *)
Definition revision_string (letter number : Z) : string :=
  String (py.chr (letter + 64)) (py.str number).

(** Checks of [GetTypeResponse.encode_software_revision] that can be
    computed: the bytes returned, and the refusal of the string. *)
Definition revision_encodes_to (s : string) (expected : bytes) : bool :=
  match GetTypeResponse.encode_software_revision s with
  | Returns b => py.bytes_eqb b expected && (List.length b =? List.length expected)%nat
  | Raises _ => false
  end.

Definition revision_refused (s : string) : bool :=
  match GetTypeResponse.encode_software_revision s with
  | Raises (SoftwareRevisionInvalidError s') => String.eqb s' s
  | _ => false
  end.



(** * Properties *)

(** ** Lengths and slices *)

Lemma len_app {A} (a b : list A) : py.len (a ++ b) = py.len a + py.len b.
Proof. unfold py.len. rewrite length_app. lia. Qed.

Lemma len_cons {A} (x : A) (a : list A) : py.len (x :: a) = 1 + py.len a.
Proof. unfold py.len. cbn [List.length]. lia. Qed.

Lemma len_nonneg {A} (a : list A) : 0 <= py.len a.
Proof. unfold py.len. lia. Qed.

(** A slice with bounds inside the sequence, written with [firstn] and [skipn]. *)
Lemma slice_bounds {A} (s : list A) (lo hi : Z) :
  0 <= lo <= hi -> hi <= py.len s ->
  py.slice (Some lo) (Some hi) s
  = firstn (Z.to_nat (hi - lo)) (skipn (Z.to_nat lo) s).
Proof.
  intros Hlo Hhi. unfold py.slice, py.clamp_index.
  destruct (lo <? 0) eqn:E1; [apply Z.ltb_lt in E1; lia|].
  destruct (hi <? 0) eqn:E2; [apply Z.ltb_lt in E2; lia|].
  replace (Z.max 0 (Z.min (py.len s) hi)) with hi by lia.
  replace (Z.max 0 (Z.min (py.len s) lo)) with lo by lia.
  reflexivity.
Qed.

Lemma slice_from {A} (s : list A) (lo : Z) :
  0 <= lo <= py.len s ->
  py.slice (Some lo) None s = skipn (Z.to_nat lo) s.
Proof.
  intros Hlo. unfold py.slice, py.clamp_index.
  destruct (lo <? 0) eqn:E1; [apply Z.ltb_lt in E1; lia|].
  replace (Z.max 0 (Z.min (py.len s) lo)) with lo by lia.
  apply firstn_all2. rewrite length_skipn. unfold py.len in *. lia.
Qed.

Lemma slice_upto {A} (s : list A) (hi : Z) :
  0 <= hi <= py.len s ->
  py.slice None (Some hi) s = firstn (Z.to_nat hi) s.
Proof.
  intros H. unfold py.slice, py.clamp_index.
  destruct (hi <? 0) eqn:E1; [apply Z.ltb_lt in E1; lia|].
  replace (Z.max 0 (Z.min (py.len s) hi)) with hi by lia.
  rewrite Z.sub_0_r. reflexivity.
Qed.

Lemma slice_from_end {A} (s : list A) (k : Z) :
  0 < k <= py.len s ->
  py.slice (Some (- k)) None s = skipn (Z.to_nat (py.len s - k)) s.
Proof.
  intros H. unfold py.slice, py.clamp_index.
  destruct (- k <? 0) eqn:E1; [|apply Z.ltb_ge in E1; lia].
  replace (Z.max 0 (Z.min (py.len s) (- k + py.len s))) with (py.len s - k) by lia.
  apply firstn_all2. rewrite length_skipn. unfold py.len in *. lia.
Qed.

Lemma slice_inner {A} (s : list A) (lo k : Z) :
  0 <= lo -> 0 < k -> lo + k <= py.len s ->
  py.slice (Some lo) (Some (- k)) s
  = firstn (Z.to_nat (py.len s - k - lo)) (skipn (Z.to_nat lo) s).
Proof.
  intros H1 H2 H3. unfold py.slice, py.clamp_index.
  destruct (lo <? 0) eqn:E1; [apply Z.ltb_lt in E1; lia|].
  destruct (- k <? 0) eqn:E2; [|apply Z.ltb_ge in E2; lia].
  replace (Z.max 0 (Z.min (py.len s) (- k + py.len s))) with (py.len s - k) by lia.
  replace (Z.max 0 (Z.min (py.len s) lo)) with lo by lia.
  reflexivity.
Qed.

Lemma firstn_length_app {A} (a b : list A) n :
  n = List.length a -> firstn n (a ++ b) = a.
Proof.
  intros ->. rewrite firstn_app, Nat.sub_diag, firstn_all. cbn. apply app_nil_r.
Qed.

Lemma skipn_length_app {A} (a b : list A) n :
  n = List.length a -> skipn n (a ++ b) = b.
Proof.
  intros ->. rewrite skipn_app, Nat.sub_diag, skipn_all. reflexivity.
Qed.

(** ** The physical layer *)

(** C10: for both directions, decoding the two-byte frame made of the start
    byte and the stop byte succeeds with the empty byte sequence, while
    encoding the empty byte sequence raises the length error. *)
Theorem physical_decode_empty_frame_encode_refuses :
  forall direction : PhysicalDirection,
    let codec := PhysicalCodec.new direction in
    PhysicalCodec.decode codec
      [PhysicalCodec._start_byte codec; constants.ByteCode.STOP] = Ok []
    /\ PhysicalCodec.encode codec []
       = Raise (DataLengthUnexpectedError "Data link bytes" 0 None false).
Proof.
  intros [|]; split; reflexivity.
Qed.

(** C1, a defect of [decode]: the round trip is lost when a stuffing byte
    of the data is followed by the complement of a special byte.  For both
    directions the data link bytes [1B F9] are framed as [start 1B E4 F9 0D],
    and decoding that frame returns the single byte [06] instead of [1B F9]:
    [decode] undoes the escape of the stuffing byte first, which leaves
    [1B F9], the escape sequence of the ACK byte, for its next replacement.
    The same on a whole frame: a response to address 0x3F whose application
    bytes [10 00 1B F9] hold the two bytes leaves the physical layer changed,
    and the data link layer then rejects its checksum. *)
Theorem physical_decode_encode_escape_clash :
  (forall direction : PhysicalDirection,
     let codec := PhysicalCodec.new direction in
     PhysicalCodec.encode codec [0x1B; 0xF9]
     = Ok [PhysicalCodec._start_byte codec; 0x1B; 0xE4; 0xF9; 0x0D]
     /\ PhysicalCodec.decode codec
          [PhysicalCodec._start_byte codec; 0x1B; 0xE4; 0xF9; 0x0D]
        = Ok [0x06])
  /\ (let physical := PhysicalCodec.new FROM_METER in
      DataLinkCodec.encode (DataLinkData.mk 0x3F [0x10; 0x00; 0x1B; 0xF9] None)
      = Ok [0x3F; 0x10; 0x00; 0x1B; 0xF9; 0xD3; 0x0F]
      /\ PhysicalCodec.encode physical [0x3F; 0x10; 0x00; 0x1B; 0xF9; 0xD3; 0x0F]
         = Ok [0x40; 0x3F; 0x10; 0x00; 0x1B; 0xE4; 0xF9; 0xD3; 0x0F; 0x0D]
      /\ PhysicalCodec.decode physical
           [0x40; 0x3F; 0x10; 0x00; 0x1B; 0xE4; 0xF9; 0xD3; 0x0F; 0x0D]
         = Ok [0x3F; 0x10; 0x00; 0x06; 0xD3; 0x0F]
      /\ DataLinkCodec.decode [0x3F; 0x10; 0x00; 0x06; 0xD3; 0x0F]
         = Raise CrcChecksumInvalidError).
Proof.
  split.
  - intros [|]; split; reflexivity.
  - cbv zeta. repeat split; vm_compute; reflexivity.
Qed.

(** *** The round trip where no escape sequence clashes *)

Lemma startswith_nil (s : bytes) : py.startswith s [] = true.
Proof. destruct s; reflexivity. Qed.

Lemma startswith_refl_cons (x : Z) (s p : bytes) :
  py.startswith (x :: s) (x :: p) = py.startswith s p.
Proof. cbn [py.startswith]. rewrite Z.eqb_refl. reflexivity. Qed.

Lemma startswith_neq_cons (x y : Z) (s p : bytes) :
  y <> x -> py.startswith (x :: s) (y :: p) = false.
Proof.
  intros H. cbn [py.startswith].
  replace (y =? x) with false by (symmetry; apply Z.eqb_neq; exact H).
  reflexivity.
Qed.

(** Replacing a single byte maps every byte on its own. *)
Lemma replace_byte (s : bytes) (b : Z) (new : bytes) :
  py.replace s [b] new = flat_map (fun x => if x =? b then new else [x]) s.
Proof.
  cbn [py.replace]. induction s as [|x s IH]; [reflexivity|].
  cbn [py.replace_from flat_map List.length Nat.sub].
  destruct (Z.eqb_spec x b) as [->|Hx].
  - rewrite startswith_refl_cons, startswith_nil, IH. reflexivity.
  - rewrite startswith_neq_cons, IH by congruence. reflexivity.
Qed.

Lemma flat_map_flat_map {A B C} (f : A -> list B) (g : B -> list C) (s : list A) :
  flat_map g (flat_map f s) = flat_map (fun x => flat_map g (f x)) s.
Proof.
  induction s as [|x s IH]; [reflexivity|].
  cbn [flat_map]. rewrite flat_map_app, IH. reflexivity.
Qed.

(** One replacement of [decode]: the escape sequence [1B c] gives way to
    [u].  [f] gives the bytes that stand for each byte of the data before
    the replacement and [f'] after it. *)
Lemma replace_escape (f f' : Z -> bytes) (c u : Z) :
  (forall y,
      (f y = [0x1B; c] /\ f' y = [u])
      \/ (exists c', f y = [0x1B; c'] /\ c' <> c /\ c' <> 0x1B /\ f' y = f y)
      \/ (exists a, f y = [a] /\ a <> 0x1B /\ f' y = f y)
      \/ (f y = [0x1B] /\ f' y = [0x1B])) ->
  forall data,
    (forall pre a b post,
        data = pre ++ a :: b :: post -> f a = [0x1B] -> hd 0 (f b) <> c) ->
    py.replace (flat_map f data) [0x1B; c] [u] = flat_map f' data.
Proof.
  intros Hshape. cbn [py.replace].
  induction data as [|a rest IH]; intros Hadj; [reflexivity|].
  assert (IH' : py.replace_from [27; c] [u] 0 (flat_map f rest) = flat_map f' rest).
  { apply IH. intros pre a' b post E. apply (Hadj (a :: pre) a' b post).
    rewrite E. reflexivity. }
  cbn [flat_map].
  destruct (Hshape a) as [(E & E') | [(c' & E & Hc & Hc' & E') | [(a' & E & Ha & E') | (E & E')]]];
    rewrite E'; rewrite E; cbn [app].
  - cbn [py.replace_from]. rewrite !startswith_refl_cons, startswith_nil.
    cbn [List.length Nat.sub app py.replace_from]. rewrite IH'. reflexivity.
  - cbn [py.replace_from]. rewrite startswith_refl_cons.
    rewrite (startswith_neq_cons c' c) by congruence.
    rewrite (startswith_neq_cons c' 27) by congruence.
    rewrite IH'. reflexivity.
  - cbn [py.replace_from].
    rewrite (startswith_neq_cons a' 27) by congruence.
    rewrite IH'. reflexivity.
  - destruct rest as [|b post].
    + reflexivity.
    + assert (Hb : hd 0 (f b) <> c) by (apply (Hadj [] a b post); [reflexivity | exact E]).
      cbn [py.replace_from]. fold (flat_map f (b :: post)).
      rewrite startswith_refl_cons.
      assert (Hno : py.startswith (flat_map f (b :: post)) [c] = false).
      { cbn [flat_map].
        destruct (Hshape b) as [(Eb & _) | [(? & Eb & _) | [(? & Eb & _) | (Eb & _)]]];
          rewrite Eb in *; cbn [hd app] in *;
          apply startswith_neq_cons; congruence. }
      rewrite Hno. cbn [flat_map] in IH'. cbn [flat_map]. rewrite IH'. reflexivity.
Qed.

Lemma stuffing_map_value :
  PhysicalCodec.BYTE_STUFFING_MAP
  = [ ([0x1B], [0x1B; 0xE4]); ([0x06], [0x1B; 0xF9]); ([0x40], [0x1B; 0xBF]);
      ([0x80], [0x1B; 0x7F]); ([0x0D], [0x1B; 0xF2]) ].
Proof. reflexivity. Qed.

Ltac split_special y :=
  destruct (Z.eqb_spec y 0x1B); [subst y|];
  [|destruct (Z.eqb_spec y 0x06); [subst y|];
    [|destruct (Z.eqb_spec y 0x40); [subst y|];
      [|destruct (Z.eqb_spec y 0x80); [subst y|];
        [|destruct (Z.eqb_spec y 0x0D); [subst y|]]]]].

(** The replacements of [encode], one after the other, stuff each byte on
    its own. *)
Lemma encode_stuffs (data : bytes) :
  fold_left
    (fun raw '(unescaped_byte, escaped_bytes) =>
       py.replace raw unescaped_byte escaped_bytes)
    PhysicalCodec.BYTE_STUFFING_MAP data
  = flat_map (stuffed [0x1B; 0x06; 0x40; 0x80; 0x0D]) data.
Proof.
  rewrite stuffing_map_value. cbn [fold_left].
  rewrite !replace_byte, !flat_map_flat_map.
  apply flat_map_ext. intros y. unfold stuffed. cbn [existsb].
  split_special y; try reflexivity.
  repeat match goal with
         | H : y <> ?b |- _ => apply Z.eqb_neq in H
         end.
  repeat (cbn [flat_map app];
          match goal with
          | H : (y =? _) = false |- _ => rewrite H
          end).
  reflexivity.
Qed.

Lemma no_escape_clash_adjacent (data : bytes) :
  no_escape_clash data = true ->
  forall pre a b post,
    data = pre ++ a :: b :: post -> a = 0x1B -> completes_escape b = false.
Proof.
  intros H pre. revert data H.
  induction pre as [|p pre IH]; intros data H a b post E Ha; subst data.
  - cbn [app no_escape_clash] in H. apply andb_prop in H. destruct H as [H _].
    subst a. rewrite Z.eqb_refl in H. cbn [andb] in H.
    destruct (completes_escape b); [discriminate H | reflexivity].
  - cbn [app no_escape_clash] in H. apply andb_prop in H. destruct H as [_ H].
    exact (IH _ H a b post eq_refl Ha).
Qed.

Ltac solve_shape :=
  first
    [ left; split; reflexivity
    | right; left; eexists; split; [reflexivity|];
      split; [discriminate|]; split; [discriminate | reflexivity]
    | right; right; left; eexists; split; [reflexivity|];
      split; [first [assumption | discriminate] | reflexivity]
    | right; right; right; split; reflexivity ].

Ltac shape_of_stage :=
  let y := fresh "y" in
  intros y; unfold stuffed; cbn [existsb];
  split_special y; cbn; solve_shape.

(** After the escape of the stuffing byte is undone, a lone [1B] of the
    stream is a stuffing byte of the data; what follows it cannot complete an
    escape sequence when the data has no clash. *)
Lemma stage_adjacent (escaped : list Z) (c : Z) (data : bytes) :
  no_escape_clash data = true ->
  completes_escape c = true ->
  forall pre a b post,
    data = pre ++ a :: b :: post ->
    stuffed escaped a = [0x1B] -> hd 0 (stuffed escaped b) <> c.
Proof.
  intros Hdata Hc pre a b post E Ha.
  assert (a = 0x1B).
  { unfold stuffed in Ha. destruct (existsb (Z.eqb a) escaped); congruence. }
  pose proof (no_escape_clash_adjacent data Hdata pre a b post E H) as Hb.
  unfold stuffed. destruct (existsb (Z.eqb b) escaped); cbn [hd].
  - intros <-. discriminate Hc.
  - intros <-. congruence.
Qed.

(** The replacements of [decode], one after the other, undo the stuffing of
    data without a clash. *)
Lemma decode_unstuffs (data : bytes) :
  no_escape_clash data = true ->
  fold_left
    (fun data_bytes '(unescaped_byte, escaped_bytes) =>
       py.replace data_bytes escaped_bytes unescaped_byte)
    PhysicalCodec.BYTE_STUFFING_MAP
    (flat_map (stuffed [0x1B; 0x06; 0x40; 0x80; 0x0D]) data)
  = data.
Proof.
  intros Hdata. rewrite stuffing_map_value. cbn [fold_left].
  rewrite (replace_escape (stuffed [0x1B; 0x06; 0x40; 0x80; 0x0D])
             (stuffed [0x06; 0x40; 0x80; 0x0D]) 0xE4 0x1B).
  2:{ shape_of_stage. }
  2:{ intros pre a b post _ Ha. exfalso. unfold stuffed in Ha. cbn [existsb] in Ha.
      destruct (Z.eqb_spec a 27); [discriminate Ha|]. cbn [orb] in Ha.
      destruct (_ || _); congruence. }
  rewrite (replace_escape (stuffed [0x06; 0x40; 0x80; 0x0D])
             (stuffed [0x40; 0x80; 0x0D]) 0xF9 0x06);
    [| shape_of_stage | apply stage_adjacent; [exact Hdata | reflexivity]].
  rewrite (replace_escape (stuffed [0x40; 0x80; 0x0D])
             (stuffed [0x80; 0x0D]) 0xBF 0x40);
    [| shape_of_stage | apply stage_adjacent; [exact Hdata | reflexivity]].
  rewrite (replace_escape (stuffed [0x80; 0x0D])
             (stuffed [0x0D]) 0x7F 0x80);
    [| shape_of_stage | apply stage_adjacent; [exact Hdata | reflexivity]].
  rewrite (replace_escape (stuffed [0x0D])
             (stuffed []) 0xF2 0x0D);
    [| shape_of_stage | apply stage_adjacent; [exact Hdata | reflexivity]].
  unfold stuffed. cbn [existsb].
  induction data as [|x data IH]; [reflexivity|].
  cbn [flat_map app]. f_equal. apply IH.
  cbn [no_escape_clash] in Hdata. apply andb_prop in Hdata. apply Hdata.
Qed.

Lemma stuffed_nonempty (escaped : list Z) (data : bytes) :
  data <> [] -> flat_map (stuffed escaped) data <> [].
Proof.
  destruct data as [|x data]; [congruence|]. intros _.
  cbn [flat_map]. unfold stuffed. destruct (existsb (Z.eqb x) escaped); discriminate.
Qed.

(** Decoding a frame: the bytes between the start byte and the stop byte go
    through the replacements. *)
Lemma decode_framed (direction : PhysicalDirection) (body : bytes) :
  body <> [] ->
  let codec := PhysicalCodec.new direction in
  PhysicalCodec.decode codec (PhysicalCodec._start_byte codec :: body ++ [0x0D])
  = Ok (fold_left
          (fun data_bytes '(unescaped_byte, escaped_bytes) =>
             py.replace data_bytes escaped_bytes unescaped_byte)
          PhysicalCodec.BYTE_STUFFING_MAP body).
Proof.
  intros Hbody codec.
  set (start := PhysicalCodec._start_byte codec).
  assert (Hsb : py.big_endian start 1 = [start]) by (destruct direction; reflexivity).
  assert (Hack : py.bytes_eqb (start :: body ++ [0x0D]) constants.ACK_BYTES = false).
  { destruct body as [|y rest]; [congruence|]. cbn. apply andb_false_r. }
  assert (Hstart : py.startswith (start :: body ++ [0x0D]) (py.big_endian start 1) = true).
  { rewrite Hsb, startswith_refl_cons. apply startswith_nil. }
  assert (Hstop : py.endswith (start :: body ++ [0x0D])
                    (py.big_endian constants.ByteCode.STOP 1) = true).
  { unfold py.endswith. cbn [rev]. rewrite rev_app_distr.
    change (rev (py.big_endian constants.ByteCode.STOP 1)) with [0x0D].
    cbn [rev app]. rewrite startswith_refl_cons. apply startswith_nil. }
  assert (Hslice : py.slice (Some 1) (Some (-1)) (start :: body ++ [0x0D]) = body).
  { change (-1) with (- (1)).
    assert (Hl : py.len (start :: body ++ [0x0D]) = py.len body + 2).
    { rewrite len_cons, len_app. unfold py.len. cbn [List.length]. lia. }
    pose proof (len_nonneg body).
    rewrite slice_inner by lia. rewrite Hl.
    change (Z.to_nat 1) with 1%nat. cbn [skipn].
    apply firstn_length_app. unfold py.len. lia. }
  unfold PhysicalCodec.decode. fold start.
  rewrite Hack, Hstart, Hstop, Hslice. reflexivity.
Qed.

(** X1: the round trip of the physical layer, for the data link bytes that
    [encode] accepts and in which no stuffing byte is followed by a byte that
    completes an escape sequence. *)
Theorem physical_decode_encode_without_clash
    (direction : PhysicalDirection) (data : bytes) :
  data <> [] ->
  no_escape_clash data = true ->
  let codec := PhysicalCodec.new direction in
  exists frame : bytes,
    PhysicalCodec.encode codec data = Ok frame
    /\ PhysicalCodec.decode codec frame = Ok data.
Proof.
  intros Hne Hclash codec.
  exists (PhysicalCodec._start_byte codec
            :: flat_map (stuffed [0x1B; 0x06; 0x40; 0x80; 0x0D]) data ++ [0x0D]).
  split.
  - unfold PhysicalCodec.encode.
    replace (py.len data =? 0) with false.
    2:{ symmetry. apply Z.eqb_neq. destruct data; [congruence|].
        rewrite len_cons. pose proof (len_nonneg data). lia. }
    rewrite encode_stuffs. destruct direction; reflexivity.
  - unfold codec. rewrite decode_framed by (apply stuffed_nonempty; exact Hne).
    rewrite decode_unstuffs by exact Hclash. reflexivity.
Qed.

Lemma physical_decode_encode_all_special_bytes :
  exists frame : bytes,
    PhysicalCodec.encode (PhysicalCodec.new TO_METER) [0x3F; 0x1B; 0x06; 0x40; 0x80; 0x0D; 0x1B]
    = Ok frame
    /\ PhysicalCodec.decode (PhysicalCodec.new TO_METER) frame
       = Ok [0x3F; 0x1B; 0x06; 0x40; 0x80; 0x0D; 0x1B].
Proof.
  apply (physical_decode_encode_without_clash TO_METER); [discriminate | reflexivity].
Defined.

(** ** The checksum of the data link layer *)
Section Crc16.

Let K := DataLinkCodec.crc_calculator.

Lemma crc_update_app (r : Z) (a b : bytes) :
  crc.update K r (a ++ b) = crc.update K (crc.update K r a) b.
Proof. unfold crc.update. apply fold_left_app. Qed.

Lemma crc_process_byte_eq (r b : Z) :
  crc._process_byte K r b
  = Z.land
      (Z.lxor (nth (Z.to_nat (Z.lxor b (Z.shiftr r 8))) (crc._lookup_table K) 0)
         (Z.shiftl r 8))
      65535.
Proof. reflexivity. Qed.

Lemma crc_process_byte_range (r b : Z) : 0 <= crc._process_byte K r b < 65536.
Proof.
  rewrite crc_process_byte_eq.
  change 65535 with (Z.ones 16). rewrite Z.land_ones by lia.
  apply Z.mod_pos_bound. lia.
Qed.

Lemma crc_update_range (data : bytes) (r : Z) :
  0 <= r < 65536 -> 0 <= crc.update K r data < 65536.
Proof.
  revert r. induction data as [|b data IH]; intros r Hr; [exact Hr|].
  cbn [crc.update fold_left]. apply IH.
  change (if crc.reverse_input (crc.configuration K) then crc.reversed 8 b else b)
    with b.
  apply crc_process_byte_range.
Qed.

Lemma crc_checksum_eq (data : bytes) : crc.checksum K data = crc.update K 0 data.
Proof.
  unfold crc.checksum, crc.digest.
  change (crc.reverse_output (crc.configuration K)) with false.
  change (crc.final_xor_value (crc.configuration K)) with 0.
  change (crc.init_value (crc.configuration K)) with 0.
  cbv iota. apply Z.lxor_0_r.
Qed.

Lemma crc_checksum_range (data : bytes) : 0 <= crc.checksum K data < 65536.
Proof. rewrite crc_checksum_eq. apply crc_update_range. lia. Qed.

(** Feeding a register its own high byte leaves the low byte, moved up. *)
Lemma crc_process_high_byte (c : Z) :
  0 <= c < 65536 ->
  crc._process_byte K c (c / 256) = 256 * (c mod 256).
Proof.
  intros Hc. rewrite crc_process_byte_eq.
  rewrite Z.shiftr_div_pow2 by lia. change (2 ^ 8) with 256.
  rewrite Z.lxor_nilpotent. change (nth (Z.to_nat 0) (crc._lookup_table K) 0) with 0.
  rewrite Z.lxor_0_l, Z.shiftl_mul_pow2 by lia.
  change 65535 with (Z.ones 16). rewrite Z.land_ones by lia.
  change (2 ^ 8) with 256. change (2 ^ 16) with (256 * 256).
  rewrite (Z.mul_comm c 256), Z.mul_mod_distr_l by lia. reflexivity.
Qed.

Lemma crc_process_low_byte (l : Z) :
  0 <= l < 256 ->
  crc._process_byte K (256 * l) l = 0.
Proof.
  intros Hl. rewrite crc_process_byte_eq.
  rewrite Z.shiftr_div_pow2 by lia. change (2 ^ 8) with 256.
  rewrite (Z.mul_comm 256 l), Z.div_mul by lia.
  rewrite Z.lxor_nilpotent. change (nth (Z.to_nat 0) (crc._lookup_table K) 0) with 0.
  rewrite Z.lxor_0_l, Z.shiftl_mul_pow2 by lia.
  change 65535 with (Z.ones 16). rewrite Z.land_ones by lia.
  change (2 ^ 8) with 256. change (2 ^ 16) with (256 * 256).
  rewrite <- Z.mul_assoc. apply Z.mod_mul. lia.
Qed.

(** The self-checking property: a message followed by its checksum, high
    byte first, has checksum zero. *)
Lemma crc_self_check (data : bytes) :
  let c := crc.checksum K data in
  crc.checksum K (data ++ [c / 256; c mod 256]) = 0.
Proof.
  intros c. pose proof (crc_checksum_range data) as Hc. fold c in Hc.
  rewrite crc_checksum_eq, crc_update_app.
  rewrite <- crc_checksum_eq. fold c.
  cbn [crc.update fold_left].
  change (crc.reverse_input (crc.configuration K)) with false. cbv iota.
  rewrite crc_process_high_byte by exact Hc.
  apply crc_process_low_byte. apply Z.mod_pos_bound. lia.
Qed.

End Crc16.

(** *** The table and the bit by bit register *)

(** A property of all numbers below [256 * 256], from its check on each pair
    of a high and a low byte. *)
Lemma forall_below_65536 (P : Z -> bool) :
  forallb
    (fun hi => forallb (fun lo => P (256 * Z.of_nat hi + Z.of_nat lo)) (seq 0 256))
    (seq 0 256) = true ->
  forall x, 0 <= x < 65536 -> P x = true.
Proof.
  intros H x Hx. rewrite forallb_forall in H.
  assert (Hhi : 0 <= x / 256 < 256).
  { split; [apply Z.div_pos; lia | apply Z.div_lt_upper_bound; lia]. }
  pose proof (Z.mod_pos_bound x 256 ltac:(lia)) as Hlo.
  specialize (H (Z.to_nat (x / 256))). rewrite forallb_forall in H.
  specialize (H ltac:(apply in_seq; lia) (Z.to_nat (x mod 256)) ltac:(apply in_seq; lia)).
  rewrite !Z2Nat.id in H by lia.
  rewrite <- Z.div_mod in H by lia. exact H.
Qed.

Lemma land_lxor_distr (a b c : Z) :
  Z.land (Z.lxor a b) c = Z.lxor (Z.land a c) (Z.land b c).
Proof.
  apply Z.bits_inj'. intros n Hn.
  rewrite Z.lxor_spec, !Z.land_spec, Z.lxor_spec.
  destruct (Z.testbit a n), (Z.testbit b n), (Z.testbit c n); reflexivity.
Qed.

Section TableDriven.

Let K := DataLinkCodec.crc_calculator.
Let C := crc.configuration K.

(** On a register that already holds the byte, the table gives what the
    eight shifts give. *)
Lemma crc_table_row (R : Z) :
  0 <= R < 65536 ->
  Z.land (crc.Register.shift C 8 R) 65535
  = Z.land
      (Z.lxor (nth (Z.to_nat (Z.shiftr R 8)) (crc._lookup_table K) 0)
         (Z.shiftl (Z.land R 255) 8))
      65535.
Proof.
  intros HR. apply Z.eqb_eq.
  apply (forall_below_65536
           (fun R =>
              Z.land (crc.Register.shift C 8 R) 65535
              =? Z.land
                   (Z.lxor (nth (Z.to_nat (Z.shiftr R 8)) (crc._lookup_table K) 0)
                      (Z.shiftl (Z.land R 255) 8))
                   65535)).
  - vm_compute. reflexivity.
  - exact HR.
Qed.

Lemma low_bits_small (x : Z) (n : Z) :
  0 <= n -> 0 <= x < 2 ^ n -> Z.land x (Z.ones n) = x.
Proof. intros Hn Hx. rewrite Z.land_ones by lia. apply Z.mod_small. exact Hx. Qed.

(** The register selected by [optimized=True] computes what the bit by bit
    register computes. *)
Lemma crc_table_driven_is_bitwise (r b : Z) :
  0 <= r < 65536 -> 0 <= b < 256 ->
  crc._process_byte K r b = crc.Register._process_byte C r b.
Proof.
  intros Hr Hb.
  change (crc.Register._process_byte C r b)
    with (Z.land (crc.Register.shift C 8 (Z.lxor r (Z.shiftl b 8))) 65535).
  change (crc._process_byte K r b)
    with (Z.land
            (Z.lxor (nth (Z.to_nat (Z.lxor b (Z.shiftr r 8))) (crc._lookup_table K) 0)
               (Z.shiftl r 8))
            65535).
  set (R := Z.lxor r (Z.shiftl b 8)).
  assert (Hb8 : 0 <= Z.shiftl b 8 < 65536).
  { rewrite Z.shiftl_mul_pow2 by lia. change (2 ^ 8) with 256. lia. }
  assert (HR : 0 <= R < 65536).
  { assert (E : Z.land R (Z.ones 16) = R).
    { unfold R. rewrite land_lxor_distr.
      rewrite !low_bits_small by (try lia; change (2 ^ 16) with 65536; lia).
      reflexivity. }
    rewrite <- E, Z.land_ones by lia. apply Z.mod_pos_bound. lia. }
  rewrite (crc_table_row R HR).
  assert (Hidx : Z.shiftr R 8 = Z.lxor b (Z.shiftr r 8)).
  { unfold R. rewrite Z.shiftr_lxor, Z.shiftr_shiftl_l by lia.
    rewrite Z.sub_diag, Z.shiftl_0_r. apply Z.lxor_comm. }
  rewrite Hidx.
  assert (Hlow : Z.land R 255 = Z.land r 255).
  { unfold R. rewrite land_lxor_distr.
    replace (Z.land (Z.shiftl b 8) 255) with 0; [apply Z.lxor_0_r|].
    change 255 with (Z.ones 8). rewrite Z.land_ones, Z.shiftl_mul_pow2 by lia.
    symmetry. apply Z.mod_mul. lia. }
  rewrite Hlow.
  rewrite !(land_lxor_distr _ _ 65535). f_equal.
  change 65535 with (Z.ones 16). change 255 with (Z.ones 8).
  rewrite !Z.land_ones, !Z.shiftl_mul_pow2 by lia.
  change (2 ^ 8) with 256. change (2 ^ 16) with (256 * 256).
  rewrite (Z.mul_comm r 256), Z.mul_mod_distr_l by lia.
  pose proof (Z.mod_pos_bound r 256 ltac:(lia)).
  rewrite (Z.mod_small (r mod 256 * 256)) by lia. lia.
Qed.

Lemma crc_update_table_driven_is_bitwise (data : bytes) :
  is_bytes data ->
  forall r, 0 <= r < 65536 ->
    crc.update K r data = crc.update (crc.new C false) r data.
Proof.
  induction 1 as [|b data Hb _ IH]; intros r Hr; [reflexivity|].
  cbn [crc.update fold_left].
  change (if crc.reverse_input (crc.configuration K) then crc.reversed 8 b else b)
    with b.
  change (if crc.reverse_input (crc.configuration (crc.new C false))
          then crc.reversed 8 b else b) with b.
  change (crc._process_byte (crc.new C false) r b)
    with (crc.Register._process_byte C r b).
  rewrite <- crc_table_driven_is_bitwise by assumption.
  apply IH. apply crc_process_byte_range.
Qed.

(** The checksum of the data link layer is the plain CRC of its
    configuration. *)
Lemma crc_checksum_table_driven_is_bitwise (data : bytes) :
  is_bytes data ->
  crc.checksum K data = crc.checksum (crc.new C false) data.
Proof.
  intros H. unfold crc.checksum.
  change (crc.configuration (crc.new C false)) with C.
  fold C. f_equal. apply crc_update_table_driven_is_bitwise; [exact H|].
  cbn. lia.
Qed.

End TableDriven.

Lemma to_bytes_1 (n : Z) : 0 <= n < 256 -> py.to_bytes n 1 = Some [n].
Proof.
  intros H. unfold py.to_bytes.
  replace (0 <=? n) with true by (symmetry; apply Z.leb_le; lia).
  replace (n <? 256 ^ Z.of_nat 1) with true
    by (symmetry; apply Z.ltb_lt; change (256 ^ Z.of_nat 1) with 256; lia).
  cbn. rewrite Z.mod_small by lia. reflexivity.
Qed.

Lemma to_bytes_2 (n : Z) :
  0 <= n < 65536 -> py.to_bytes n 2 = Some [n / 256; n mod 256].
Proof.
  intros H. unfold py.to_bytes.
  replace (0 <=? n) with true by (symmetry; apply Z.leb_le; lia).
  replace (n <? 256 ^ Z.of_nat 2) with true
    by (symmetry; apply Z.ltb_lt; change (256 ^ Z.of_nat 2) with 65536; lia).
  cbn. rewrite (Z.mod_small (n / 256)); [reflexivity|].
  split; [apply Z.div_pos; lia | apply Z.div_lt_upper_bound; lia].
Qed.

(** C3: for every [DataLinkData] whose destination address lies in
    [0, 255] and whose application bytes are not empty, [encode] succeeds with
    the address, the application bytes and the big-endian checksum of both;
    the checksum of the whole verifies, and [decode] of the encoding returns
    the address and the application bytes with [crc_value] equal to the
    checksum that [encode] appended. *)
Theorem data_link_decode_encode (d : DataLinkData.t) :
  0 <= DataLinkData.destination_address d <= 255 ->
  DataLinkData.application_bytes d <> [] ->
  exists raw : bytes,
    DataLinkCodec.encode d = Ok raw
    /\ let crc :=
         crc.checksum DataLinkCodec.crc_calculator
           (DataLinkData.destination_address d :: DataLinkData.application_bytes d) in
       raw = DataLinkData.destination_address d
               :: DataLinkData.application_bytes d ++ py.big_endian crc 2
       /\ crc.verify DataLinkCodec.crc_calculator raw 0 = true
       /\ DataLinkCodec.decode raw
          = Ok (DataLinkData.mk (DataLinkData.destination_address d)
                  (DataLinkData.application_bytes d) (Some crc)).
Proof.
  destruct d as [addr app crc0]. cbn [DataLinkData.destination_address DataLinkData.application_bytes].
  intros Haddr Happ.
  set (c := crc.checksum DataLinkCodec.crc_calculator (addr :: app)).
  pose proof (crc_checksum_range (addr :: app)) as Hc. fold c in Hc.
  assert (Hbe : py.big_endian c 2 = [c / 256; c mod 256]).
  { pose proof (to_bytes_2 c Hc) as H. unfold py.to_bytes in H.
    destruct ((0 <=? c) && (c <? 256 ^ Z.of_nat 2)); congruence. }
  assert (Hlen : 0 < py.len app).
  { destruct app; [congruence|]. rewrite len_cons. pose proof (len_nonneg app). lia. }
  assert (Hver : crc.checksum DataLinkCodec.crc_calculator
                   (addr :: app ++ [c / 256; c mod 256]) = 0).
  { change (addr :: app ++ [c / 256; c mod 256])
      with ((addr :: app) ++ [c / 256; c mod 256]).
    apply crc_self_check. }
  exists (addr :: app ++ [c / 256; c mod 256]).
  split.
  - unfold DataLinkCodec.encode.
    cbn [DataLinkData.destination_address DataLinkData.application_bytes].
    rewrite to_bytes_1 by lia.
    replace (py.len app <? DataLinkCodec.APPLICATION_BYTES_LENGTH_MIN) with false
      by (symmetry; apply Z.ltb_ge; unfold DataLinkCodec.APPLICATION_BYTES_LENGTH_MIN; lia).
    change ([addr] ++ app) with (addr :: app). fold c.
    rewrite to_bytes_2 by exact Hc. reflexivity.
  - cbv zeta. rewrite Hbe. split; [reflexivity|]. split.
    + unfold crc.verify. rewrite Hver. reflexivity.
    + unfold DataLinkCodec.decode.
      set (raw := addr :: app ++ [c / 256; c mod 256]).
      assert (Hraw : py.len raw = py.len app + 3).
      { unfold raw. rewrite len_cons, len_app. unfold py.len. cbn [List.length]. lia. }
      replace (py.len raw >=? DataLinkCodec.DATA_LINK_BYTES_LENGTH_MIN) with true
        by (symmetry; apply Z.geb_le; unfold DataLinkCodec.DATA_LINK_BYTES_LENGTH_MIN; lia).
      unfold crc.verify. fold raw in Hver. rewrite Hver.
      cbn [negb Z.eqb]. cbv iota.
      assert (H0 : py.item raw 0 = addr) by reflexivity.
      assert (H1 : py.slice (Some 1) (Some (-2)) raw = app).
      { change (-2) with (- (2)). rewrite (slice_inner raw 1 2) by lia.
        rewrite Hraw. unfold raw. cbn [Z.to_nat Pos.to_nat Pos.iter_op Nat.add skipn].
        apply firstn_length_app. unfold py.len. lia. }
      assert (H2 : py.from_bytes (py.slice (Some (-2)) None raw) = c).
      { change (-2) with (- (2)). rewrite slice_from_end by lia.
        rewrite Hraw. unfold raw.
        change (addr :: app ++ [c / 256; c mod 256])
          with ((addr :: app) ++ [c / 256; c mod 256]).
        rewrite skipn_length_app by (unfold py.len; cbn [List.length]; lia).
        cbn [py.from_bytes fold_left].
        pose proof (Z.div_mod c 256). lia. }
      rewrite H0, H1, H2. reflexivity.
Qed.

Lemma data_link_decode_encode_witness :
  exists raw : bytes,
    DataLinkCodec.encode (DataLinkData.mk 0x3F [0x10; 0x01; 0x00; 0x80] None) = Ok raw
    /\ let crc :=
         crc.checksum DataLinkCodec.crc_calculator [0x3F; 0x10; 0x01; 0x00; 0x80] in
       raw = 0x3F :: [0x10; 0x01; 0x00; 0x80] ++ py.big_endian crc 2
       /\ crc.verify DataLinkCodec.crc_calculator raw 0 = true
       /\ DataLinkCodec.decode raw
          = Ok (DataLinkData.mk 0x3F [0x10; 0x01; 0x00; 0x80] (Some crc)).
Proof.
  apply (data_link_decode_encode (DataLinkData.mk 0x3F [0x10; 0x01; 0x00; 0x80] None)).
  - cbn. lia.
  - discriminate.
Defined.

(** C6: [DataLinkCodec.decode] of [3F 02 01 23 45 67 E9 56] succeeds with
    destination address 0x3F, application bytes [02 01 23 45 67] and
    [crc_value] 0xE956.  The CRC of width 16 with polynomial 0x1021, initial
    value 0, no reflection and no final XOR is 0xE956 over
    [3F 02 01 23 45 67] and 0 over all eight bytes, computed through the
    table as well as bit by bit. *)
Theorem data_link_decode_documented_frame :
  let raw := [0x3F; 0x02; 0x01; 0x23; 0x45; 0x67; 0xE9; 0x56] in
  let configuration := crc.mkConfiguration 16 0x1021 0x0000 0x0000 false false in
  DataLinkCodec.decode raw
  = Ok (DataLinkData.mk 0x3F [0x02; 0x01; 0x23; 0x45; 0x67] (Some 0xE956))
  /\ crc.verify DataLinkCodec.crc_calculator raw 0 = true
  /\ (forall optimized : bool,
        crc.checksum (crc.new configuration optimized)
          [0x3F; 0x02; 0x01; 0x23; 0x45; 0x67] = 0xE956
        /\ crc.checksum (crc.new configuration optimized) raw = 0).
Proof.
  cbv zeta. split; [vm_compute; reflexivity|]. split; [vm_compute; reflexivity|].
  intros [|]; split; vm_compute; reflexivity.
Qed.

(** ** The floating point format *)

Section FloatCodecProperties.
Import decimal.

(** A property of all numbers below a bound, from its check on each of them. *)
Lemma forall_below (P : Z -> bool) (n : nat) :
  forallb P (map Z.of_nat (seq 0 n)) = true ->
  forall x, 0 <= x < Z.of_nat n -> P x = true.
Proof.
  intros H x Hx. rewrite forallb_forall in H. apply H.
  apply in_map_iff. exists (Z.to_nat x). split; [lia|].
  apply in_seq. lia.
Qed.

(** ** Digits *)

Lemma int_of_digits_acc (ds : list Z) (acc : Z) :
  fold_left (fun acc digit => acc * 10 + digit) ds acc
  = acc * 10 ^ py.len ds + py.int_of_digits ds.
Proof.
  unfold py.int_of_digits. revert acc.
  induction ds as [|d ds IH]; intros acc.
  - cbn. lia.
  - cbn [fold_left]. rewrite IH, (IH (0 * 10 + d)).
    unfold py.len. cbn [List.length]. rewrite Nat2Z.inj_succ, Z.pow_succ_r by lia. lia.
Qed.

Lemma int_of_digits_cons (d : Z) (ds : list Z) :
  py.int_of_digits (d :: ds) = d * 10 ^ py.len ds + py.int_of_digits ds.
Proof.
  unfold py.int_of_digits at 1. cbn [fold_left]. rewrite int_of_digits_acc. lia.
Qed.

Lemma int_of_digits_app (a b : list Z) :
  py.int_of_digits (a ++ b) = py.int_of_digits a * 10 ^ py.len b + py.int_of_digits b.
Proof.
  unfold py.int_of_digits at 1. rewrite fold_left_app.
  fold (py.int_of_digits a). apply int_of_digits_acc.
Qed.

Lemma int_of_digits_nonneg (ds : list Z) :
  Forall is_digit ds -> 0 <= py.int_of_digits ds.
Proof.
  induction 1 as [|d ds Hd _ IH]; [cbn; lia|].
  rewrite int_of_digits_cons. unfold is_digit in Hd.
  pose proof (Z.pow_nonneg 10 (py.len ds)). nia.
Qed.

Lemma digits_from_value (fuel : nat) :
  forall n acc, 0 <= n < 2 ^ Z.of_nat fuel ->
    py.int_of_digits (py.digits_from fuel n acc)
    = n * 10 ^ py.len acc + py.int_of_digits acc.
Proof.
  induction fuel as [|fuel IH]; intros n acc Hn.
  - cbn in Hn. assert (n = 0) by lia. subst n. cbn. reflexivity.
  - cbn [py.digits_from]. destruct (n <? 10) eqn:E.
    + apply int_of_digits_cons.
    + apply Z.ltb_ge in E. rewrite IH.
      * rewrite int_of_digits_cons.
        unfold py.len. cbn [List.length]. rewrite Nat2Z.inj_succ, Z.pow_succ_r by lia.
        pose proof (Z.div_mod n 10). nia.
      * rewrite Nat2Z.inj_succ, Z.pow_succ_r in Hn by lia.
        split; [apply Z.div_pos; lia|]. apply Z.div_lt_upper_bound; lia.
Qed.

Lemma digits_from_digits (fuel : nat) :
  forall n acc, 0 <= n -> Forall is_digit acc ->
    (fuel = O -> n = 0) ->
    (forall fuel', fuel = S fuel' -> n < 2 ^ Z.of_nat fuel) ->
    Forall is_digit (py.digits_from fuel n acc).
Proof.
  induction fuel as [|fuel IH]; intros n acc Hn Hacc H0 HS.
  - exact Hacc.
  - cbn [py.digits_from]. destruct (n <? 10) eqn:E.
    + apply Z.ltb_lt in E. constructor; [unfold is_digit; lia|exact Hacc].
    + apply Z.ltb_ge in E. specialize (HS fuel eq_refl).
      rewrite Nat2Z.inj_succ, Z.pow_succ_r in HS by lia.
      assert (Hq : 0 <= n / 10 < 2 ^ Z.of_nat fuel).
      { split; [apply Z.div_pos; lia|]. apply Z.div_lt_upper_bound; lia. }
      apply IH.
      * lia.
      * constructor; [|exact Hacc]. unfold is_digit.
        pose proof (Z.mod_pos_bound n 10). lia.
      * intros ->. cbn in Hq. lia.
      * intros fuel' _. lia.
Qed.

Lemma str_digits_fuel (n : Z) :
  0 <= n -> n < 2 ^ Z.of_nat (S (Z.to_nat (Z.log2 n))).
Proof.
  intros Hn. rewrite Nat2Z.inj_succ, Z2Nat.id by apply Z.log2_nonneg.
  destruct (Z.eq_dec n 0) as [->|Hz]; [cbn; lia|].
  apply Z.log2_spec. lia.
Qed.

(** [int(str(n)) == n] on the digits. *)
Lemma int_of_str_digits (n : Z) : 0 <= n -> py.int_of_digits (py.str_digits n) = n.
Proof.
  intros Hn. unfold py.str_digits. rewrite digits_from_value.
  - cbn. lia.
  - split; [exact Hn | apply str_digits_fuel; exact Hn].
Qed.

Lemma str_digits_are_digits (n : Z) : 0 <= n -> Forall is_digit (py.str_digits n).
Proof.
  intros Hn. unfold py.str_digits. apply digits_from_digits.
  - exact Hn.
  - constructor.
  - discriminate.
  - intros fuel' _. apply str_digits_fuel. exact Hn.
Qed.

(** ** Big-endian bytes *)

Lemma from_bytes_acc (s : bytes) (acc : Z) :
  fold_left (fun acc b => acc * 256 + b) s acc
  = acc * 256 ^ py.len s + py.from_bytes s.
Proof.
  unfold py.from_bytes. revert acc.
  induction s as [|b s IH]; intros acc.
  - cbn. lia.
  - cbn [fold_left]. rewrite IH, (IH (0 * 256 + b)).
    unfold py.len. cbn [List.length]. rewrite Nat2Z.inj_succ, Z.pow_succ_r by lia. lia.
Qed.

Lemma from_bytes_cons (b : Z) (s : bytes) :
  py.from_bytes (b :: s) = b * 256 ^ py.len s + py.from_bytes s.
Proof.
  unfold py.from_bytes at 1. cbn [fold_left]. rewrite from_bytes_acc. lia.
Qed.

Lemma from_bytes_snoc (s : bytes) (b : Z) :
  py.from_bytes (s ++ [b]) = py.from_bytes s * 256 + b.
Proof. unfold py.from_bytes. rewrite fold_left_app. reflexivity. Qed.

Lemma from_bytes_range (s : bytes) :
  is_bytes s -> 0 <= py.from_bytes s < 256 ^ py.len s.
Proof.
  induction 1 as [|b s Hb _ IH]; [cbn; lia|].
  rewrite from_bytes_cons. unfold py.len in *. cbn [List.length].
  rewrite Nat2Z.inj_succ, Z.pow_succ_r by lia. unfold is_byte in Hb. nia.
Qed.

Lemma big_endian_succ (n : Z) (k : nat) :
  py.big_endian n (S k) = py.big_endian (n / 256) k ++ [n mod 256].
Proof. reflexivity. Qed.

Lemma length_big_endian (n : Z) (k : nat) : List.length (py.big_endian n k) = k.
Proof.
  unfold py.big_endian. rewrite length_rev. revert n.
  induction k as [|k IH]; intros n; [reflexivity|]. cbn. rewrite IH. reflexivity.
Qed.

Lemma big_endian_is_bytes (n : Z) (k : nat) : is_bytes (py.big_endian n k).
Proof.
  revert n. induction k as [|k IH]; intros n; [constructor|].
  rewrite big_endian_succ. apply Forall_app. split; [apply IH|].
  constructor; [|constructor]. apply Z.mod_pos_bound. lia.
Qed.

Lemma from_bytes_big_endian (k : nat) :
  forall n, py.from_bytes (py.big_endian n k) = n mod 256 ^ Z.of_nat k.
Proof.
  induction k as [|k IH]; intros n.
  - cbn. symmetry. apply Z.mod_1_r.
  - rewrite big_endian_succ, from_bytes_snoc, IH.
    rewrite Nat2Z.inj_succ, Z.pow_succ_r by lia.
    rewrite Z.rem_mul_r by (try apply Z.pow_pos_nonneg; lia). lia.
Qed.

Lemma to_bytes_some (n : Z) (k : nat) :
  0 <= n < 256 ^ Z.of_nat k -> py.to_bytes n k = Some (py.big_endian n k).
Proof.
  intros H. unfold py.to_bytes.
  replace (0 <=? n) with true by (symmetry; apply Z.leb_le; lia).
  replace (n <? 256 ^ Z.of_nat k) with true by (symmetry; apply Z.ltb_lt; lia).
  reflexivity.
Qed.

(** ** Bits needed by a mantissa *)

Lemma bit_length_nonneg (n : Z) : 0 <= py.bit_length n.
Proof.
  unfold py.bit_length. destruct (n =? 0); [lia|].
  pose proof (Z.log2_nonneg (Z.abs n)). lia.
Qed.

Lemma bit_length_bound (n : Z) : 0 <= n -> n < 2 ^ py.bit_length n.
Proof.
  intros Hn. unfold py.bit_length. destruct (n =? 0) eqn:E.
  - apply Z.eqb_eq in E. subst. cbn. lia.
  - apply Z.eqb_neq in E. rewrite Z.abs_eq by lia.
    replace (Z.log2 n + 1) with (Z.succ (Z.log2 n)) by lia.
    apply Z.log2_spec. lia.
Qed.

Lemma ceil_div8_bounds (n : Z) : 0 <= n -> n <= 8 * py.ceil_div8 n < n + 8.
Proof.
  intros Hn. unfold py.ceil_div8.
  pose proof (Z.div_mod (n + 7) 8). pose proof (Z.mod_pos_bound (n + 7) 8). lia.
Qed.

(** A mantissa fits the number of bytes computed for it. *)
Lemma mantissa_fits_needed (m : Z) :
  0 <= m -> m < 256 ^ py.ceil_div8 (py.bit_length m).
Proof.
  intros Hm. pose proof (bit_length_bound m Hm) as Hb.
  pose proof (bit_length_nonneg m) as Hn.
  pose proof (ceil_div8_bounds _ Hn) as Hc.
  change 256 with (2 ^ 8). rewrite <- Z.pow_mul_r by lia.
  eapply Z.lt_le_trans; [exact Hb|]. apply Z.pow_le_mono_r; lia.
Qed.

(** The number of bytes computed for a mantissa is the least that fits. *)
Lemma needed_is_least (m k : Z) :
  0 <= m -> 0 <= k -> m < 256 ^ k -> py.ceil_div8 (py.bit_length m) <= k.
Proof.
  intros Hm Hk Hlt.
  assert (Hb : py.bit_length m <= 8 * k).
  { unfold py.bit_length. destruct (m =? 0) eqn:E; [lia|].
    apply Z.eqb_neq in E. rewrite Z.abs_eq by lia.
    assert (Z.log2 m < 8 * k); [|lia].
    apply Z.log2_lt_pow2; [lia|].
    rewrite Z.pow_mul_r by lia. exact Hlt. }
  pose proof (bit_length_nonneg m).
  pose proof (ceil_div8_bounds (py.bit_length m)). lia.
Qed.

Lemma needed_monotone (m m' : Z) :
  0 <= m <= m' ->
  py.ceil_div8 (py.bit_length m) <= py.ceil_div8 (py.bit_length m').
Proof.
  intros H. apply needed_is_least; try lia.
  - pose proof (bit_length_nonneg m').
    pose proof (ceil_div8_bounds (py.bit_length m')). lia.
  - assert (Hm' : 0 <= m') by lia.
    pose proof (mantissa_fits_needed m' Hm'). lia.
Qed.

(** ** The sign and exponent byte *)

Lemma bit_of_mask (b k : Z) :
  0 <= k ->
  negb (Z.shiftr (Z.land b (2 ^ k)) k =? 0) = Z.testbit b k.
Proof.
  intros Hk. rewrite Z.shiftr_land.
  replace (Z.shiftr (2 ^ k) k) with (Z.ones 1).
  2:{ rewrite Z.shiftr_div_pow2, Z.div_same by (try apply Z.pow_nonzero; lia). reflexivity. }
  rewrite Z.land_ones by lia. change (2 ^ 1) with 2.
  rewrite <- Z.bit0_mod, Z.shiftr_spec by lia. cbn [Z.add].
  destruct (Z.testbit b k); reflexivity.
Qed.

Lemma low_six_bits (b : Z) : Z.land b 0x3F = b mod 64.
Proof. change 0x3F with (Z.ones 6). rewrite Z.land_ones by lia. reflexivity. Qed.

Lemma sign_exp_of_fields (negative exponent_negative : bool) (x : Z) :
  0 <= x < 64 ->
  let v := sign_exp_of negative exponent_negative x in
  0 <= v < 256
  /\ negb (Z.shiftr (Z.land v 0x80) 7 =? 0) = negative
  /\ negb (Z.shiftr (Z.land v 0x40) 6 =? 0) = exponent_negative
  /\ Z.land v 0x3F = x.
Proof.
  intros Hx.
  pose (P := fun s en x =>
    let v := sign_exp_of s en x in
    (0 <=? v) && (v <? 256)
    && Bool.eqb (negb (Z.shiftr (Z.land v 0x80) 7 =? 0)) s
    && Bool.eqb (negb (Z.shiftr (Z.land v 0x40) 6 =? 0)) en
    && (Z.land v 0x3F =? x)).
  assert (H : P negative exponent_negative x = true).
  { apply (forall_below (P negative exponent_negative) 64); [|exact Hx].
    destruct negative, exponent_negative; vm_compute; reflexivity. }
  unfold P in H. cbv zeta in H.
  repeat (apply andb_prop in H; destruct H as [H ?]).
  cbv zeta. repeat split.
  - apply Z.leb_le; assumption.
  - apply Z.ltb_lt; assumption.
  - apply Bool.eqb_prop; assumption.
  - apply Bool.eqb_prop; assumption.
  - apply Z.eqb_eq; assumption.
Qed.

(** ** Decoding a well-formed float *)

Lemma decode_parts_well_formed (n se : Z) (mant : bytes) :
  1 <= n -> py.len mant = n ->
  FloatCodec._decode_parts (n :: se :: mant)
  = Ok (negb (Z.shiftr (Z.land se 0x80) 7 =? 0),
        negb (Z.shiftr (Z.land se 0x40) 6 =? 0),
        Z.land se 0x3F,
        py.from_bytes mant).
Proof.
  intros Hn Hlen. unfold FloatCodec._decode_parts.
  change (py.item (n :: se :: mant) 0) with n.
  change (py.item (n :: se :: mant) 1) with se.
  replace (n =? 0) with false by (symmetry; apply Z.eqb_neq; lia).
  assert (Hl : py.len (n :: se :: mant) = n + 2). { rewrite !len_cons. lia. }
  rewrite Hl, Z.eqb_refl. cbn [negb].
  rewrite slice_bounds by lia.
  replace (n + 2 - 2) with n by lia.
  change (Z.to_nat 2) with 2%nat. cbn [skipn].
  rewrite firstn_all2; [reflexivity|]. unfold py.len in Hlen. lia.
Qed.

Lemma decode_well_formed (n se : Z) (mant : bytes) :
  1 <= n -> py.len mant = n ->
  FloatCodec.decode (n :: se :: mant)
  = Ok (mkDecimal (Z.testbit se 7) (py.str_digits (py.from_bytes mant))
          (ExpInt (if Z.testbit se 6 then - (se mod 64) else se mod 64))).
Proof.
  intros Hn Hlen. unfold FloatCodec.decode.
  rewrite decode_parts_well_formed by assumption. cbn [bind].
  change 0x80 with (2 ^ 7). change 0x40 with (2 ^ 6).
  rewrite !bit_of_mask by lia. rewrite low_six_bits. reflexivity.
Qed.

(** What [decode] accepts. *)
Lemma decode_accepts (data : bytes) (d : Decimal) :
  is_bytes data ->
  FloatCodec.decode data = Ok d ->
  exists n se mant,
    data = n :: se :: mant /\ 1 <= n /\ py.len mant = n.
Proof.
  intros Hbytes. unfold FloatCodec.decode, FloatCodec._decode_parts.
  destruct data as [|n data]; [discriminate|].
  assert (Hn0 : 0 <= n) by (inversion Hbytes as [|? ? Hb _]; subst; apply Hb).
  change (py.item (n :: data) 0) with n.
  destruct (n =? 0) eqn:En; [discriminate|]. apply Z.eqb_neq in En.
  destruct (py.len (n :: data) =? n + 2) eqn:El; [|discriminate].
  apply Z.eqb_eq in El. rewrite len_cons in El.
  intros _. destruct data as [|se mant].
  - cbn in El. lia.
  - exists n, se, mant. rewrite len_cons in El. pose proof (len_nonneg mant).
    repeat split; lia.
Qed.

(** ** The value of a decimal *)

Lemma ten_nonzero : ~ (10 # 1 == 0)%Q.
Proof. discriminate. Qed.

Lemma value_of_scale (s : bool) (c e k : Z) :
  0 <= k ->
  (value_of s (c * 10 ^ k) e == value_of s c (e + k))%Q.
Proof.
  intros Hk. unfold value_of.
  rewrite (Z.add_comm e k), Qpower_plus by exact ten_nonzero.
  replace (if s then - (c * 10 ^ k) else c * 10 ^ k)
    with ((if s then - c else c) * 10 ^ k) by (destruct s; lia).
  rewrite inject_Z_mult, Zpower_Qpower by exact Hk.
  change (inject_Z 10) with (10 # 1)%Q. ring.
Qed.

(** C7: for every well-formed input (the length byte is at least one and
    the total length is the length byte plus two) [FloatCodec.decode] returns
    the decimal whose sign is bit 7 of the sign and exponent byte, whose
    digits are the decimal digits of the big-endian mantissa and whose
    exponent is the six low bits, negated when bit 6 is set; its value is
    exactly [(-1)^sign * mantissa * 10^exponent].  The bytes
    [04 43 00 00 00 FB] decode to [0.251]. *)
Theorem float_decode_exact :
  (forall data : bytes,
     is_bytes data ->
     1 <= py.item data 0 ->
     py.len data = py.item data 0 + 2 ->
     let sign_exp_byte := py.item data 1 in
     let negative := Z.testbit sign_exp_byte 7 in
     let exponent :=
       if Z.testbit sign_exp_byte 6
       then - (sign_exp_byte mod 64) else sign_exp_byte mod 64 in
     let mantissa := py.from_bytes (skipn 2 data) in
     exists (d : Decimal) (q : Q),
       FloatCodec.decode data = Ok d
       /\ d = mkDecimal negative (py.str_digits mantissa) (ExpInt exponent)
       /\ py.int_of_digits (digits d) = mantissa
       /\ value d = Some q
       /\ (q == inject_Z (if negative then -1 else 1) * inject_Z mantissa
                 * (10 # 1) ^ exponent)%Q)
  /\ (exists (d : Decimal) (q : Q),
        FloatCodec.decode [0x04; 0x43; 0x00; 0x00; 0x00; 0xFB] = Ok d
        /\ d = mkDecimal false [2; 5; 1] (ExpInt (-3))
        /\ value d = Some q
        /\ (q == 251 # 1000)%Q).
Proof.
  split.
  2:{ eexists. eexists. repeat split; reflexivity. }
  intros data Hbytes Hn Hlen.
  destruct data as [|n [|se mant]];
    [ cbn in Hn; lia | unfold py.len in Hlen; cbn in Hlen, Hn; lia | ].
  - change (py.item (n :: se :: mant) 0) with n in *.
    change (py.item (n :: se :: mant) 1) with se. cbn [skipn].
    rewrite !len_cons in Hlen.
    assert (Hmant : is_bytes mant).
    { unfold is_bytes in *. inversion Hbytes as [|? ? _ Hb']; subst.
      inversion Hb'; subst. assumption. }
    pose proof (from_bytes_range mant Hmant) as Hm.
    cbv zeta.
    eexists. eexists. split; [apply decode_well_formed; lia|].
    split; [reflexivity|]. cbn [digits].
    split; [apply int_of_str_digits; lia|].
    unfold value. cbn [decimal.exponent decimal.sign digits].
    split; [reflexivity|].
    rewrite int_of_str_digits by lia. unfold value_of.
    destruct (Z.testbit se 7).
    + rewrite inject_Z_opp. change (inject_Z (-1)) with (- (1))%Q. ring.
    + change (inject_Z 1) with 1%Q. ring.
Qed.

Lemma float_decode_exact_witness :
  exists (d : Decimal) (q : Q),
    FloatCodec.decode [0x02; 0xC2; 0x30; 0x39] = Ok d
    /\ d = mkDecimal true (py.str_digits 12345) (ExpInt (- 2))
    /\ py.int_of_digits (digits d) = 12345
    /\ value d = Some q
    /\ (q == inject_Z (-1) * inject_Z 12345 * (10 # 1) ^ (- 2))%Q.
Proof.
  apply (proj1 float_decode_exact [0x02; 0xC2; 0x30; 0x39]).
  - repeat constructor; unfold is_byte; lia.
  - cbn. lia.
  - reflexivity.
Defined.

Lemma value_of_signed (s : bool) (c e : Z) :
  value_of s c e = (inject_Z (signed s c) * (10 # 1) ^ e)%Q.
Proof. reflexivity. Qed.

(** Two equal values, brought to the smaller exponent. *)
Lemma value_of_eq_scaled (s1 s2 : bool) (c1 c2 e1 e2 : Z) :
  (value_of s1 c1 e1 == value_of s2 c2 e2)%Q ->
  e1 <= e2 ->
  signed s1 c1 = signed s2 c2 * 10 ^ (e2 - e1).
Proof.
  intros Heq Hle.
  assert (H2 : (value_of s2 (c2 * 10 ^ (e2 - e1)) e1 == value_of s2 c2 e2)%Q).
  { rewrite value_of_scale by lia. replace (e1 + (e2 - e1)) with e2 by lia. reflexivity. }
  rewrite <- H2 in Heq. rewrite !value_of_signed in Heq.
  apply (proj1 (Qmult_inj_r _ _ _ (Qpower_not_0 _ e1 ten_nonzero))) in Heq.
  apply (proj1 (inject_Z_injective _ _)) in Heq. rewrite Heq.
  unfold signed. destruct s2; lia.
Qed.

(** A mantissa that does not end in zero is the least among the mantissas of
    its value. *)
Lemma least_mantissa (s1 s2 : bool) (m1 m2 e1 e2 : Z) :
  (value_of s1 m1 e1 == value_of s2 m2 e2)%Q ->
  0 <= m1 -> 0 < m2 -> m2 mod 10 <> 0 ->
  m2 <= m1.
Proof.
  intros Heq H1 H2 Hmod.
  destruct (Z_le_gt_dec e1 e2) as [Hle|Hgt].
  - pose proof (value_of_eq_scaled _ _ _ _ _ _ Heq Hle) as H.
    assert (Hp : 1 <= 10 ^ (e2 - e1)) by (pose proof (Z.pow_pos_nonneg 10 (e2 - e1)); lia).
    unfold signed in H. destruct s1, s2; nia.
  - symmetry in Heq.
    pose proof (value_of_eq_scaled _ _ _ _ _ _ Heq ltac:(lia)) as H.
    exfalso. apply Hmod.
    assert (Hk : 10 ^ (e1 - e2) = 10 * 10 ^ (e1 - e2 - 1)).
    { rewrite <- Z.pow_succ_r by lia. f_equal. lia. }
    assert (Hm : m2 = 10 * (Z.abs (signed s1 m1) * 10 ^ (e1 - e2 - 1))).
    { rewrite Hk in H. unfold signed in *.
      pose proof (Z.pow_nonneg 10 (e1 - e2 - 1)).
      destruct s1, s2; nia. }
    rewrite Hm, Z.mul_comm. apply Z.mod_mul. lia.
Qed.

(** ** [normalize] *)

Lemma strip_zeros_spec (rd : list Z) :
  forall e rd' e',
    strip_zeros rd e = (rd', e') ->
    e <= e'
    /\ py.int_of_digits (rev rd) = py.int_of_digits (rev rd') * 10 ^ (e' - e)
    /\ (exists tl, rd = tl ++ rd')
    /\ (rd' = [] \/ exists d r, rd' = d :: r /\ d <> 0).
Proof.
  induction rd as [|d rest IH]; intros e rd' e' H; cbn [strip_zeros] in H.
  - inversion H; subst. rewrite Z.sub_diag.
    split; [lia|]. split; [cbn; lia|]. split; [exists []; reflexivity | left; reflexivity].
  - destruct (d =? 0) eqn:E.
    + apply Z.eqb_eq in E. subst d.
      destruct (IH _ _ _ H) as (Hle & Hval & (tl & Htl) & Hhead).
      split; [lia|]. split; [|split; [exists (0 :: tl); rewrite Htl; reflexivity | exact Hhead]].
      cbn [rev]. rewrite int_of_digits_app, Hval.
      replace (e' - e) with (Z.succ (e' - (e + 1))) by lia.
      rewrite Z.pow_succ_r by lia.
      change (py.len [0]) with 1. change (py.int_of_digits [0]) with 0.
      change (10 ^ 1) with 10. lia.
    + apply Z.eqb_neq in E. inversion H; subst. rewrite Z.sub_diag.
      split; [lia|]. split; [lia|]. split; [exists []; reflexivity|].
      right. exists d, rest. split; [reflexivity | exact E].
Qed.

Lemma int_of_digits_rev_cons (d : Z) (r : list Z) :
  py.int_of_digits (rev (d :: r)) = py.int_of_digits (rev r) * 10 + d.
Proof. cbn [rev]. rewrite int_of_digits_app. cbn. lia. Qed.

(** The normal form of a finite decimal whose coefficient is within the
    precision of the context. *)
Lemma normalize_finite (v : Decimal) (e : Z) :
  exponent v = ExpInt e ->
  py.len (digits v) <= prec ->
  Forall is_digit (digits v) ->
  exists (ds : list Z) (e' : Z),
    normalize v = Ok (mkDecimal (sign v) ds (ExpInt e'))
    /\ Forall is_digit ds
    /\ (value_of (sign v) (py.int_of_digits ds) e'
        == value_of (sign v) (py.int_of_digits (digits v)) e)%Q
    /\ py.int_of_digits ds <= py.int_of_digits (digits v)
    /\ (py.int_of_digits (digits v) <> 0 ->
        0 < py.int_of_digits ds /\ py.int_of_digits ds mod 10 <> 0).
Proof.
  intros He Hprec Hdig. unfold normalize, _fix. rewrite He.
  replace (py.len (digits v) <=? prec) with true by (symmetry; apply Z.leb_le; exact Hprec).
  pose proof (int_of_digits_nonneg _ Hdig) as Hnn.
  destruct (py.int_of_digits (digits v) =? 0) eqn:Ez.
  - apply Z.eqb_eq in Ez. exists [0], 0. rewrite Ez.
    repeat split.
    + constructor; [unfold is_digit; lia | constructor].
    + unfold value_of. cbn [py.int_of_digits fold_left Z.mul Z.add].
      destruct (sign v); cbn [Z.opp]; change (inject_Z 0) with 0%Q; ring.
    + cbn. lia.
    + intros; congruence.
    + intros; congruence.
  - apply Z.eqb_neq in Ez.
    destruct (strip_zeros (rev (digits v)) e) as [rd e'] eqn:Es.
    destruct (strip_zeros_spec _ _ _ _ Es) as (Hle & Hval & (tl & Htl) & Hhead).
    rewrite rev_involutive in Hval.
    exists (rev rd), e'.
    assert (Hrd : Forall is_digit rd).
    { apply Forall_rev in Hdig. rewrite Htl in Hdig.
      apply Forall_app in Hdig. apply Hdig. }
    assert (Hp : 1 <= 10 ^ (e' - e)) by (pose proof (Z.pow_pos_nonneg 10 (e' - e)); lia).
    pose proof (int_of_digits_nonneg _ (Forall_rev Hrd)) as Hnn'.
    repeat split.
    + apply Forall_rev. exact Hrd.
    + rewrite Hval, value_of_scale by lia.
      replace (e + (e' - e)) with e' by lia. reflexivity.
    + nia.
    + nia.
    + destruct Hhead as [->|(d & r & -> & Hd)].
      * cbn in Hval. lia.
      * rewrite int_of_digits_rev_cons.
        inversion Hrd as [|? ? Hd9 _]; subst. unfold is_digit in Hd9.
        rewrite Z.add_comm, Z_mod_plus_full, Z.mod_small by lia. exact Hd.
Qed.

Lemma normalize_finite_inv (v nv : Decimal) (e : Z) :
  normalize v = Ok nv -> exponent nv = ExpInt e ->
  exists e0, exponent v = ExpInt e0.
Proof.
  unfold normalize. destruct (exponent v) as [e0| | |] eqn:E.
  - intros _ _. exists e0. reflexivity.
  - intros H. inversion H; subst. congruence.
  - intros H. inversion H; subst. congruence.
  - discriminate.
Qed.

(** ** Encoding a normal form *)

Lemma encode_normalized (v : Decimal) (s : bool) (ds : list Z) (e : Z)
      (significand_num_bytes : option Z) :
  normalize v = Ok (mkDecimal s ds (ExpInt e)) ->
  Forall is_digit ds ->
  Z.abs e <= 63 ->
  let m := py.int_of_digits ds in
  let needed := py.ceil_div8 (py.bit_length m) in
  let n := match significand_num_bytes with Some l => l | None => needed end in
  needed <= n <= 255 ->
  FloatCodec.encode v significand_num_bytes
  = Ok (n :: sign_exp_of s (e <? 0) (Z.abs e) :: py.big_endian m (Z.to_nat n)).
Proof.
  intros Hnorm Hdig He m needed n Hn.
  pose proof (int_of_digits_nonneg _ Hdig) as Hm. fold m in Hm.
  pose proof (mantissa_fits_needed m Hm) as Hfit. fold needed in Hfit.
  assert (Hneeded : 0 <= needed).
  { unfold needed. pose proof (bit_length_nonneg m).
    pose proof (ceil_div8_bounds (py.bit_length m)). lia. }
  unfold FloatCodec.encode. rewrite Hnorm. cbn [bind sign digits exponent].
  fold m. fold needed.
  assert (Hlen :
    match significand_num_bytes with
    | Some l =>
        if needed >? l
        then Raise (OutOfRangeError
                      "Significand bytes length of decimal to encode as mantissa"
                      (Some l, Some l) needed)
        else Ok l
    | None => Ok needed
    end = Ok n).
  { unfold n in *. destruct significand_num_bytes as [l|]; [|reflexivity].
    replace (needed >? l) with false; [reflexivity|].
    symmetry. rewrite Z.gtb_ltb. apply Z.ltb_ge. lia. }
  rewrite Hlen. cbn [bind].
  replace (Z.abs e >? 63) with false
    by (symmetry; rewrite Z.gtb_ltb; apply Z.ltb_ge; lia).
  rewrite to_bytes_1 by lia.
  assert (Hse : 0 <= Z.abs e < 64) by lia.
  destruct (sign_exp_of_fields s (e <? 0) (Z.abs e) Hse) as (Hrange & _).
  fold (sign_exp_of s (e <? 0) (Z.abs e)).
  rewrite to_bytes_1 by exact Hrange.
  rewrite to_bytes_some; [reflexivity|].
  split; [exact Hm|]. eapply Z.lt_le_trans; [exact Hfit|].
  apply Z.pow_le_mono_r; lia.
Qed.

Lemma decode_encoded (s : bool) (m e n : Z) :
  Z.abs e <= 63 -> 1 <= n -> 0 <= m < 256 ^ n ->
  FloatCodec.decode
    (n :: sign_exp_of s (e <? 0) (Z.abs e) :: py.big_endian m (Z.to_nat n))
  = Ok (mkDecimal s (py.str_digits m) (ExpInt e)).
Proof.
  intros He Hn Hm.
  assert (Hse : 0 <= Z.abs e < 64) by lia.
  destruct (sign_exp_of_fields s (e <? 0) (Z.abs e) Hse) as (_ & Hs & Hen & Hx).
  unfold FloatCodec.decode.
  rewrite decode_parts_well_formed;
    [|lia | unfold py.len; rewrite length_big_endian; lia].
  rewrite Hs, Hen, Hx. cbn [bind].
  rewrite from_bytes_big_endian, Z2Nat.id, Z.mod_small by lia.
  f_equal. f_equal. f_equal.
  destruct (e <? 0) eqn:E; [apply Z.ltb_lt in E | apply Z.ltb_ge in E]; lia.
Qed.

Lemma decimal_eq_refl_finite (d : Decimal) (e : Z) :
  exponent d = ExpInt e -> decimal.eq d d.
Proof. intros H. unfold decimal.eq, value. rewrite H. reflexivity. Qed.

(** C2, counterexample: the decimal [10E+63] has exponent 63 and a mantissa
    that fits four bytes, yet [encode] refuses it: the exponent of its normal
    form [1E+64] does not fit six bits. *)
Lemma float_roundtrip_fails_for_10E63 :
  let v := mkDecimal false [1; 0] (ExpInt 63) in
  exponent v = ExpInt 63
  /\ Z.abs 63 <= 63
  /\ py.ceil_div8 (py.bit_length (py.int_of_digits (digits v))) <= 4
  /\ FloatCodec.encode v (Some 4)
     = Raise (OutOfRangeError "Exponent (64) to encode" (None, Some 63) 64).
Proof. cbv zeta. repeat split; vm_compute; congruence. Qed.

(** C2, as the code has it: for every finite decimal of at most 28 digits whose
    normal form (trailing zeros of the coefficient moved into the exponent,
    zero as [0E+0]) has an exponent of magnitude at most 63 and a mantissa
    that fits [L] bytes, [1 <= L <= 255], [encode] with
    [significand_num_bytes = L] succeeds and [decode] of the result is a
    decimal equal to the one encoded. *)
Theorem float_decode_encode_normalized (v nv : Decimal) (e L : Z) :
  Forall is_digit (digits v) ->
  py.len (digits v) <= prec ->
  normalize v = Ok nv ->
  exponent nv = ExpInt e ->
  Z.abs e <= 63 ->
  py.ceil_div8 (py.bit_length (py.int_of_digits (digits nv))) <= L ->
  1 <= L <= 255 ->
  exists (encoded : bytes) (d : Decimal),
    FloatCodec.encode v (Some L) = Ok encoded
    /\ FloatCodec.decode encoded = Ok d
    /\ decimal.eq d v.
Proof.
  intros Hdig Hprec Hnorm Hexp He Hfit HL.
  destruct (normalize_finite_inv _ _ _ Hnorm Hexp) as (e0 & He0).
  destruct (normalize_finite v e0 He0 Hprec Hdig)
    as (ds & e' & Hnorm' & Hds & Hval & _ & _).
  rewrite Hnorm in Hnorm'. inversion Hnorm'; subst nv.
  cbn [exponent digits] in *. inversion Hexp; subst e'.
  pose proof (int_of_digits_nonneg _ Hds) as Hm.
  pose proof (mantissa_fits_needed _ Hm) as Hlt.
  eexists. eexists. split; [|split].
  - apply (encode_normalized v (sign v) ds e (Some L)); try assumption. lia.
  - apply decode_encoded; [assumption | lia |].
    split; [exact Hm|]. eapply Z.lt_le_trans; [exact Hlt|].
    apply Z.pow_le_mono_r; lia.
  - unfold decimal.eq, value. cbn [exponent sign digits]. rewrite He0.
    rewrite int_of_str_digits by exact Hm. exact Hval.
Qed.

Lemma float_decode_encode_normalized_witness :
  exists (encoded : bytes) (d : Decimal),
    FloatCodec.encode (mkDecimal true [1; 2; 3; 4; 5; 0] (ExpInt (-3))) (Some 4) = Ok encoded
    /\ FloatCodec.decode encoded = Ok d
    /\ decimal.eq d (mkDecimal true [1; 2; 3; 4; 5; 0] (ExpInt (-3))).
Proof.
  apply (float_decode_encode_normalized
           (mkDecimal true [1; 2; 3; 4; 5; 0] (ExpInt (-3)))
           (mkDecimal true [1; 2; 3; 4; 5] (ExpInt (-2))) (-2) 4).
  - repeat constructor; unfold is_digit; lia.
  - vm_compute. congruence.
  - reflexivity.
  - reflexivity.
  - vm_compute. congruence.
  - vm_compute. congruence.
  - lia.
Defined.

(** C4, counterexample: [decode] accepts [01 3F 0A], the decimal [10E+63];
    encoding it again with no fixed length raises, as the exponent of its
    normal form [1E+64] does not fit six bits. *)
Lemma float_shortest_form_fails_for_10E63 :
  exists d : Decimal,
    FloatCodec.decode [0x01; 0x3F; 0x0A] = Ok d
    /\ FloatCodec.encode d None
       = Raise (OutOfRangeError "Exponent (64) to encode" (None, Some 63) 64).
Proof. eexists. split; reflexivity. Qed.

(** C4, as the code has it: for every byte sequence that [decode] accepts with a
    mantissa that is not zero and has at most 28 digits, and whose normal
    form has an exponent of magnitude at most 63, encoding the decoded decimal
    with no fixed length succeeds; the result decodes to a decimal equal to
    the decoded one, is not longer than the original bytes, and no byte
    sequence that decodes to an equal decimal is shorter. *)
Theorem float_shortest_form (data : bytes) (d nd : Decimal) (e : Z) :
  is_bytes data ->
  FloatCodec.decode data = Ok d ->
  py.int_of_digits (digits d) <> 0 ->
  py.len (digits d) <= prec ->
  normalize d = Ok nd ->
  exponent nd = ExpInt e ->
  Z.abs e <= 63 ->
  exists (shortest : bytes) (d' : Decimal),
    FloatCodec.encode d None = Ok shortest
    /\ FloatCodec.decode shortest = Ok d'
    /\ decimal.eq d' d
    /\ py.len shortest <= py.len data
    /\ forall (other : bytes) (d'' : Decimal),
         is_bytes other ->
         FloatCodec.decode other = Ok d'' ->
         decimal.eq d'' d ->
         py.len shortest <= py.len other.
Proof.
  intros Hbytes Hdec Hnz Hprec Hnorm Hexp He.
  destruct (decode_accepts data d Hbytes Hdec) as (n & se & mant & -> & Hn & Hlen).
  rewrite decode_well_formed in Hdec by assumption.
  assert (Hmant : is_bytes mant).
  { unfold is_bytes in *. inversion Hbytes as [|? ? _ Hb']; subst.
    inversion Hb'; subst. assumption. }
  pose proof (from_bytes_range mant Hmant) as Hm. rewrite Hlen in Hm.
  remember (py.from_bytes mant) as m eqn:Em. clear Em.
  remember (Z.testbit se 7) as s eqn:Es. clear Es.
  remember (if Z.testbit se 6 then - (se mod 64) else se mod 64) as e0 eqn:Ee0.
  clear Ee0.
  inversion Hdec; subst d. clear Hdec. cbn [digits sign exponent] in *.
  rewrite int_of_str_digits in Hnz by lia.
  destruct (normalize_finite (mkDecimal s (py.str_digits m) (ExpInt e0)) e0
              eq_refl Hprec (str_digits_are_digits m ltac:(lia)))
    as (ds & e' & Hnorm' & Hds & Hval & Hle & Hpos).
  cbn [digits sign exponent] in *.
  rewrite int_of_str_digits in Hval, Hle, Hpos by lia.
  destruct (Hpos Hnz) as (Hpos' & Hmod). clear Hpos.
  rewrite Hnorm in Hnorm'. inversion Hnorm'; subst nd. clear Hnorm'.
  cbn [exponent] in Hexp. inversion Hexp; subst e'. clear Hexp.
  set (m' := py.int_of_digits ds) in *.
  set (needed := py.ceil_div8 (py.bit_length m')).
  assert (Hneeded_n : needed <= n).
  { apply needed_is_least; lia. }
  assert (Hneeded_1 : 1 <= needed).
  { unfold needed, py.ceil_div8, py.bit_length.
    replace (m' =? 0) with false by (symmetry; apply Z.eqb_neq; lia).
    pose proof (Z.log2_nonneg (Z.abs m')).
    pose proof (Z.div_mod (Z.log2 (Z.abs m') + 1 + 7) 8).
    pose proof (Z.mod_pos_bound (Z.log2 (Z.abs m') + 1 + 7) 8). lia. }
  assert (Hbyte_n : n <= 255).
  { inversion Hbytes as [|? ? Hb _]; subst. unfold is_byte in Hb. lia. }
  pose proof (mantissa_fits_needed m' ltac:(lia)) as Hfit. fold needed in Hfit.
  assert (Hlen_short :
            py.len (needed :: sign_exp_of s (e <? 0) (Z.abs e)
                      :: py.big_endian m' (Z.to_nat needed)) = needed + 2).
  { rewrite !len_cons. unfold py.len. rewrite length_big_endian. lia. }
  eexists. eexists. split; [|split; [|split; [|split]]].
  - apply (encode_normalized _ s ds e None Hnorm Hds He). fold m'. fold needed. lia.
  - fold m'. fold needed. apply decode_encoded; [assumption | lia | lia].
  - unfold decimal.eq, value. cbn [exponent sign digits].
    rewrite !int_of_str_digits by lia. fold m'. exact Hval.
  - fold m'. fold needed. rewrite Hlen_short, !len_cons. lia.
  - intros other d'' Hother Hdec'' Heq.
    destruct (decode_accepts other d'' Hother Hdec'')
      as (n2 & se2 & mant2 & -> & Hn2 & Hlen2).
    rewrite decode_well_formed in Hdec'' by assumption.
    inversion Hdec''; subst d''. clear Hdec''.
    assert (Hmant2 : is_bytes mant2).
    { unfold is_bytes in *. inversion Hother as [|? ? _ Hb']; subst.
      inversion Hb'; subst. assumption. }
    pose proof (from_bytes_range mant2 Hmant2) as Hm2. rewrite Hlen2 in Hm2.
    unfold decimal.eq, value in Heq. cbn [exponent sign digits] in Heq.
    rewrite !int_of_str_digits in Heq by lia.
    rewrite <- Hval in Heq.
    pose proof (least_mantissa _ _ _ _ _ _ Heq ltac:(lia) Hpos' Hmod) as Hleast.
    assert (needed <= n2).
    { apply needed_is_least; lia. }
    fold m'. fold needed. rewrite Hlen_short, !len_cons. lia.
Qed.

Lemma float_shortest_form_witness :
  exists (shortest : bytes) (d' : Decimal),
    FloatCodec.encode (mkDecimal false [4;3;1;4;5;5;8;5;0;0] (ExpInt 17)) None = Ok shortest
    /\ FloatCodec.decode shortest = Ok d'
    /\ decimal.eq d' (mkDecimal false [4;3;1;4;5;5;8;5;0;0] (ExpInt 17))
    /\ py.len shortest <= py.len [0x05; 0x11; 0x01; 0x01; 0x2A; 0xF0; 0x24]
    /\ forall (other : bytes) (d'' : Decimal),
         is_bytes other ->
         FloatCodec.decode other = Ok d'' ->
         decimal.eq d'' (mkDecimal false [4;3;1;4;5;5;8;5;0;0] (ExpInt 17)) ->
         py.len shortest <= py.len other.
Proof.
  apply (float_shortest_form
           [0x05; 0x11; 0x01; 0x01; 0x2A; 0xF0; 0x24]
           (mkDecimal false [4;3;1;4;5;5;8;5;0;0] (ExpInt 17))
           (mkDecimal false [4;3;1;4;5;5;8;5] (ExpInt 19)) 19).
  - repeat constructor; unfold is_byte; lia.
  - reflexivity.
  - vm_compute. congruence.
  - vm_compute. congruence.
  - reflexivity.
  - reflexivity.
  - vm_compute. congruence.
Defined.

(** The zero mantissa: the shortest form that [encode] produces for a decoded
    zero has a length byte of zero, which [decode] refuses. *)
Lemma float_shortest_form_of_zero :
  FloatCodec.decode [0x01; 0x00; 0x00] = Ok (mkDecimal false [0] (ExpInt 0))
  /\ FloatCodec.encode (mkDecimal false [0] (ExpInt 0)) None = Ok [0x00; 0x00]
  /\ FloatCodec.decode [0x00; 0x00]
     = Raise (OutOfRangeError
                "Integer length byte value for floating point data decoding"
                (Some 1, None) 0).
Proof. repeat split; reflexivity. Qed.

End FloatCodecProperties.

(** ** Responses *)

Section GetRegisterResponseProperties.
Import logging.

(** One record at the front of the buffer: two bytes of ID, the unit, the
    length byte [L] and [L + 1] more bytes. *)
Lemma decode_one_register (id_hi id_lo u L : Z) (body rest : bytes) :
  0 <= L -> py.len body = L + 1 ->
  let raw := id_hi :: id_lo :: u :: L :: body ++ rest in
  6 <= py.len raw ->
  GetRegisterResponse._decode_one_register_value raw
  = (record_debug raw
       :: (if (0 <? py.len rest) && (py.len rest <? 6)
           then [short_remainder_warning (py.len rest)] else []),
     Ok (mkRegisterData (py.from_bytes [id_hi; id_lo]) u (L :: body), rest)).
Proof.
  intros HL Hbody raw Hmin.
  assert (Hlen : py.len raw = 5 + L + py.len rest).
  { unfold raw. rewrite !len_cons, len_app. lia. }
  pose proof (len_nonneg rest) as Hrest.
  unfold GetRegisterResponse._decode_one_register_value.
  cbv [GetRegisterResponse.REGISTER_ID_LENGTH_ENCODED
       GetRegisterResponse.REGISTER_UNIT_LENGTH_ENCODED
       GetRegisterResponse.REGISTER_VALUE_LENGTH_LENGTH_ENCODED
       GetRegisterResponse.REGISTER_VALUE_FORMAT_LENGTH_ENCODED].
  change (2 + 1 + 1 + 1 + 1) with 6.
  change (py.item raw 3) with L. change (py.item raw 2) with u.
  replace (py.len raw <? 6) with false by (symmetry; apply Z.ltb_ge; lia).
  replace (py.len raw >=? 4 + (L + 1)) with true by (symmetry; apply Z.geb_le; lia).
  cbn [negb].
  assert (H1 : py.slice None (Some 2) raw = [id_hi; id_lo]).
  { rewrite slice_upto by lia. reflexivity. }
  assert (H2 : py.slice (Some 3) (Some (3 + (L + 1) + 1)) raw = L :: body).
  { rewrite slice_bounds by lia. change (Z.to_nat 3) with 3%nat.
    unfold raw. cbn [skipn].
    change (L :: body ++ rest) with ((L :: body) ++ rest).
    apply firstn_length_app. unfold py.len in Hbody. cbn [List.length]. lia. }
  assert (H3 : py.slice (Some (4 + (L + 1))) None raw = rest).
  { rewrite slice_from by lia.
    replace (Z.to_nat (4 + (L + 1))) with (4 + List.length body)%nat
      by (unfold py.len in Hbody; lia).
    unfold raw. cbn [skipn Nat.add]. apply skipn_length_app. reflexivity. }
  rewrite H1, H2, H3.
  destruct ((0 <? py.len rest) && (py.len rest <? 6)); reflexivity.
Qed.

Lemma bindL_ok {A B} (records : list LogRecord) (a : A) (k : A -> Logged B) :
  bindL (records, Ok a) k = (records ++ fst (k a), snd (k a)).
Proof. unfold bindL. destruct (k a). reflexivity. Qed.

Lemma bindL_raise {A B} (records : list LogRecord) (e : Error) (k : A -> Logged B) :
  bindL (records, Raise e) k = (records, Raise e).
Proof. reflexivity. Qed.

(** One round of the loop of [decode]. *)
Lemma decode_loop_step (fuel : nat) (raw : bytes) (registers : dict.t RegisterData) :
  raw <> [] ->
  GetRegisterResponse.decode_loop (S fuel) raw registers
  = (decoded <~ GetRegisterResponse._decode_one_register_value raw ;;
     let '(register_data, bytes_remaining) := decoded in
     ([decoded_debug register_data (py.len bytes_remaining)], Ok tt) ;;;
     (if dict.contains registers (id_ register_data)
      then ([duplicate_warning (id_ register_data)], Ok tt)
      else ret tt) ;;;
     GetRegisterResponse.decode_loop fuel bytes_remaining
       (dict.update registers (id_ register_data) register_data)).
Proof. destruct raw; [congruence | reflexivity]. Qed.

(** A buffer shorter than the least record stops the loop with the length
    error. *)
Lemma decode_loop_short (fuel : nat) (raw : bytes) (registers : dict.t RegisterData) :
  0 < py.len raw < 6 ->
  GetRegisterResponse.decode_loop (S fuel) raw registers
  = ([record_debug raw],
     Raise (DataLengthUnexpectedError
              "Data to decode register data" (py.len raw) (Some 6) true)).
Proof.
  intros H. rewrite decode_loop_step by (intros ->; cbn in H; lia).
  unfold GetRegisterResponse._decode_one_register_value.
  cbv [GetRegisterResponse.REGISTER_ID_LENGTH_ENCODED
       GetRegisterResponse.REGISTER_UNIT_LENGTH_ENCODED
       GetRegisterResponse.REGISTER_VALUE_LENGTH_LENGTH_ENCODED
       GetRegisterResponse.REGISTER_VALUE_FORMAT_LENGTH_ENCODED].
  change (2 + 1 + 1 + 1 + 1) with 6.
  replace (py.len raw <? 6) with true by (symmetry; apply Z.ltb_lt; lia).
  reflexivity.
Qed.

Lemma is_bytes_skipn (n : nat) (s : bytes) : is_bytes s -> is_bytes (skipn n s).
Proof.
  unfold is_bytes. revert s. induction n as [|n IH]; intros s H; [exact H|].
  destruct s as [|x s]; [exact H|]. cbn [skipn]. apply IH.
  inversion H; assumption.
Qed.

Lemma item_is_byte (s : bytes) (i : Z) :
  is_bytes s -> 0 <= i < py.len s -> is_byte (py.item s i).
Proof.
  intros H Hi. unfold py.item.
  replace (i <? 0) with false by (symmetry; apply Z.ltb_ge; lia).
  unfold is_bytes in H. rewrite Forall_forall in H. apply H.
  apply nth_In. unfold py.len in Hi. lia.
Qed.

(** A round of the loop that returns leaves fewer bytes. *)
Lemma decode_one_register_shortens
    (raw remaining : bytes) (data : RegisterData) (records : list LogRecord) :
  is_bytes raw ->
  GetRegisterResponse._decode_one_register_value raw
  = (records, Ok (data, remaining)) ->
  (List.length remaining < List.length raw)%nat /\ is_bytes remaining.
Proof.
  intros Hbytes. unfold GetRegisterResponse._decode_one_register_value.
  cbv [GetRegisterResponse.REGISTER_ID_LENGTH_ENCODED
       GetRegisterResponse.REGISTER_UNIT_LENGTH_ENCODED
       GetRegisterResponse.REGISTER_VALUE_LENGTH_LENGTH_ENCODED
       GetRegisterResponse.REGISTER_VALUE_FORMAT_LENGTH_ENCODED].
  change (2 + 1 + 1 + 1 + 1) with 6.
  destruct (py.len raw <? 6) eqn:Emin; [discriminate|].
  apply Z.ltb_ge in Emin.
  destruct (py.len raw >=? 4 + (py.item raw 3 + 1)) eqn:Elen; [|discriminate].
  apply Z.geb_le in Elen. cbn [negb].
  pose proof (item_is_byte raw 3 Hbytes ltac:(lia)) as Hitem. unfold is_byte in Hitem.
  rewrite slice_from by lia.
  set (rest := skipn (Z.to_nat (4 + (py.item raw 3 + 1))) raw).
  assert (Hrest : (List.length rest < List.length raw)%nat).
  { unfold rest. rewrite length_skipn. unfold py.len in *. lia. }
  assert (Hb : is_bytes rest) by (apply is_bytes_skipn; exact Hbytes).
  destruct ((0 <? py.len rest) && (py.len rest <? 6));
    cbn [bindL log ret app]; intros H; inversion H; subst; split; assumption.
Qed.

(** The loop of [decode] never reaches the end of its fuel: any two amounts
    of fuel that cover the length of the buffer give the same result. *)
Lemma decode_loop_fuel (fuel : nat) :
  forall (fuel' : nat) (raw : bytes) (registers : dict.t RegisterData),
    is_bytes raw ->
    (List.length raw <= fuel)%nat -> (List.length raw <= fuel')%nat ->
    GetRegisterResponse.decode_loop fuel raw registers
    = GetRegisterResponse.decode_loop fuel' raw registers.
Proof.
  induction fuel as [|fuel IH]; intros fuel' raw registers Hbytes H1 H2.
  - destruct raw; [|cbn in H1; lia]. destruct fuel'; reflexivity.
  - destruct raw as [|x raw]; [destruct fuel'; reflexivity|].
    destruct fuel' as [|fuel']; [cbn in H2; lia|].
    rewrite !decode_loop_step by discriminate.
    destruct (GetRegisterResponse._decode_one_register_value (x :: raw))
      as [records [[data remaining]|e]] eqn:Eone; [|reflexivity].
    destruct (decode_one_register_shortens _ _ _ _ Hbytes Eone) as [Hlt Hb].
    rewrite !bindL_ok. cbn [fst snd].
    rewrite (IH fuel' remaining) by (try assumption; lia).
    reflexivity.
Qed.

Lemma decode_get_register (payload : bytes) :
  GetRegisterResponse.decode
    (ApplicationData.mk constants.CommandId.GET_REGISTER payload)
  = (registers <~
       GetRegisterResponse.decode_loop (List.length payload) payload [] ;;
     ret (GetRegisterResponse.mk registers (Some payload))).
Proof.
  unfold GetRegisterResponse.decode.
  cbn [ApplicationData.command_id ApplicationData.data].
  destruct (GetRegisterResponse.decode_loop (List.length payload) payload [])
    as [records [registers|e]]; reflexivity.
Qed.

(** C5, counterexample: one whole register record followed by the single
    byte [01], the payload of the test "superfluous data after full register
    data": [GetRegisterResponse.decode] raises the length error. *)
Lemma get_register_decode_fails_on_trailing_fragment :
  snd (GetRegisterResponse.decode
         (ApplicationData.mk constants.CommandId.GET_REGISTER
            [0x00; 0x80; 0x16; 0x04; 0x11; 0x01; 0x2A; 0xF0; 0x24; 0x01]))
  = Raise (DataLengthUnexpectedError "Data to decode register data" 1 (Some 6) true).
Proof. reflexivity. Qed.

(** C5, as the code has it: when one register record is followed by a fragment of one
    to five bytes, [_decode_one_register_value] does not fail: it returns the
    record and the fragment, and logs the short remainder as its only
    warning.  [GetRegisterResponse.decode] then raises the length error
    "Data to decode register data" with the length of the fragment, when
    its loop meets the fragment. *)
Theorem get_register_trailing_fragment (record fragment : bytes) :
  is_bytes record ->
  py.len record = 5 + py.item record 3 ->
  0 < py.len fragment < 6 ->
  (exists (data : RegisterData) (records : list LogRecord),
     GetRegisterResponse._decode_one_register_value (record ++ fragment)
     = (records, Ok (data, fragment))
     /\ warnings_and_up records = [short_remainder_warning (py.len fragment)])
  /\ snd (GetRegisterResponse.decode
            (ApplicationData.mk constants.CommandId.GET_REGISTER
               (record ++ fragment)))
     = Raise (DataLengthUnexpectedError
                "Data to decode register data" (py.len fragment) (Some 6) true).
Proof.
  intros Hbytes Hlen Hfrag.
  destruct record as [|id_hi [|id_lo [|u [|L body]]]];
    try (cbv in Hlen; discriminate Hlen).
  change (py.item (id_hi :: id_lo :: u :: L :: body) 3) with L in Hlen.
  assert (HL : 0 <= L).
  { unfold is_bytes in Hbytes. rewrite Forall_forall in Hbytes.
    apply (Hbytes L). cbn. tauto. }
  assert (Hbody : py.len body = L + 1) by (rewrite !len_cons in Hlen; lia).
  pose proof (len_nonneg body) as Hb.
  assert (Hraw : 6 <= py.len (id_hi :: id_lo :: u :: L :: body ++ fragment)).
  { rewrite !len_cons, len_app. lia. }
  pose proof (decode_one_register id_hi id_lo u L body fragment HL Hbody Hraw) as Hone.
  cbv zeta in Hone.
  replace ((0 <? py.len fragment) && (py.len fragment <? 6)) with true in Hone
    by (symmetry; apply andb_true_intro; split; apply Z.ltb_lt; lia).
  change ((id_hi :: id_lo :: u :: L :: body) ++ fragment)
    with (id_hi :: id_lo :: u :: L :: body ++ fragment).
  split.
  - eexists. eexists. split; [exact Hone | reflexivity].
  - rewrite decode_get_register.
    assert (Hfuel : exists fuel,
              List.length (id_hi :: id_lo :: u :: L :: body ++ fragment) = S (S fuel)).
    { cbn [List.length]. eexists. reflexivity. }
    destruct Hfuel as (fuel & ->).
    rewrite decode_loop_step by discriminate.
    rewrite Hone, bindL_ok.
    cbn [fst snd bindL ret app dict.contains dict.get id_].
    rewrite decode_loop_short by exact Hfrag. reflexivity.
Qed.

Lemma get_register_trailing_fragment_witness :
  (exists (data : RegisterData) (records : list LogRecord),
     GetRegisterResponse._decode_one_register_value
       ([0x00; 0x80; 0x16; 0x04; 0x11; 0x01; 0x2A; 0xF0; 0x24] ++ [0x00; 0x99])
     = (records, Ok (data, [0x00; 0x99]))
     /\ warnings_and_up records = [short_remainder_warning (py.len [0x00; 0x99])])
  /\ snd (GetRegisterResponse.decode
            (ApplicationData.mk constants.CommandId.GET_REGISTER
               ([0x00; 0x80; 0x16; 0x04; 0x11; 0x01; 0x2A; 0xF0; 0x24] ++ [0x00; 0x99])))
     = Raise (DataLengthUnexpectedError
                "Data to decode register data" (py.len [0x00; 0x99]) (Some 6) true).
Proof.
  apply (get_register_trailing_fragment
           [0x00; 0x80; 0x16; 0x04; 0x11; 0x01; 0x2A; 0xF0; 0x24] [0x00; 0x99]).
  - repeat constructor; unfold is_byte; lia.
  - reflexivity.
  - cbn. lia.
Defined.

(** ** Dictionaries *)

Lemma dict_get_update {V} (d : dict.t V) (key key' : Z) (v : V) :
  dict.get (dict.update d key v) key'
  = if key =? key' then Some v else dict.get d key'.
Proof.
  induction d as [|[k v'] d IH]; cbn [dict.update dict.get].
  - reflexivity.
  - destruct (k =? key) eqn:E.
    + apply Z.eqb_eq in E. subst k. cbn [dict.get].
      destruct (key =? key'); reflexivity.
    + cbn [dict.get]. destruct (k =? key') eqn:E'.
      * apply Z.eqb_eq in E'. subst k. rewrite Z.eqb_sym, E. reflexivity.
      * exact IH.
Qed.

Lemma dict_contains_update {V} (d : dict.t V) (key key' : Z) (v : V) :
  dict.contains (dict.update d key v) key'
  = (key =? key') || dict.contains d key'.
Proof.
  unfold dict.contains. rewrite dict_get_update.
  destruct (key =? key'); reflexivity.
Qed.

Lemma find_app {A} (f : A -> bool) (a b : list A) :
  find f (a ++ b) = match find f a with Some x => Some x | None => find f b end.
Proof.
  induction a as [|x a IH]; [reflexivity|].
  cbn [app find]. destruct (f x); [reflexivity | exact IH].
Qed.

(** The registers after a sequence of updates: the last record of an ID wins. *)
Lemma dict_get_updates (records : list RegisterData) :
  forall (d : dict.t RegisterData) (id : Z),
    dict.get (fold_left (fun d r => dict.update d (id_ r) r) records d) id
    = match find (fun r => id_ r =? id) (rev records) with
      | Some r => Some r
      | None => dict.get d id
      end.
Proof.
  induction records as [|r records IH]; intros d id; [reflexivity|].
  cbn [fold_left rev]. rewrite IH, find_app.
  destruct (find (fun r0 => id_ r0 =? id) (rev records)); [reflexivity|].
  cbn [find]. rewrite dict_get_update.
  destruct (id_ r =? id); reflexivity.
Qed.

(** ** A response made of whole records *)

Lemma encode_wire_register (r : RegisterData) :
  wire_register r ->
  exists L body,
    value r = L :: body /\ 1 <= L /\ py.len body = L + 1
    /\ GetRegisterResponse._encode_one_register_value r
       = Ok (id_ r / 256 :: id_ r mod 256 :: unit r :: L :: body).
Proof.
  intros (Hid & Hu & L & body & Hv & HL & Hb).
  exists L, body. repeat split; try assumption.
  unfold GetRegisterResponse._encode_one_register_value.
  rewrite to_bytes_2, to_bytes_1, Hv by assumption. reflexivity.
Qed.

Lemma join_encoded_length (records : list RegisterData) (payload : bytes) :
  Forall wire_register records ->
  GetRegisterResponse.join_encoded records = Ok payload ->
  payload = [] \/ 6 <= py.len payload.
Proof.
  intros Hwf. destruct Hwf as [|r records Hr _]; cbn [GetRegisterResponse.join_encoded].
  - intros H. inversion H. left. reflexivity.
  - destruct (encode_wire_register r Hr) as (L & body & _ & HL & Hb & ->).
    cbn [bind]. destruct (GetRegisterResponse.join_encoded records); [|discriminate].
    cbn [bind]. intros H. inversion H. right.
    cbn [app]. rewrite !len_cons, len_app. pose proof (len_nonneg a). lia.
Qed.

Lemma warnings_cons_debug (r : LogRecord) (l : list LogRecord) :
  level r = DEBUG -> warnings_and_up (r :: l) = warnings_and_up l.
Proof. intros H. unfold warnings_and_up. cbn [filter]. rewrite H. reflexivity. Qed.

Lemma warnings_cons_warning (r : LogRecord) (l : list LogRecord) :
  level r = WARNING -> warnings_and_up (r :: l) = r :: warnings_and_up l.
Proof. intros H. unfold warnings_and_up. cbn [filter]. rewrite H. reflexivity. Qed.

Lemma decode_loop_records (records : list RegisterData) :
  forall (fuel : nat) (payload : bytes) (registers : dict.t RegisterData)
         (seen : list Z),
    Forall wire_register records ->
    GetRegisterResponse.join_encoded records = Ok payload ->
    (List.length records <= fuel)%nat ->
    (forall id, dict.contains registers id = existsb (Z.eqb id) seen) ->
    exists logs,
      GetRegisterResponse.decode_loop fuel payload registers
      = (logs, Ok (fold_left (fun d r => dict.update d (id_ r) r) records registers))
      /\ warnings_and_up logs = map duplicate_warning (duplicate_ids seen records).
Proof.
  induction records as [|r records IH]; intros fuel payload registers seen Hwf Henc Hfuel Hseen.
  - cbn in Henc. inversion Henc; subst payload.
    exists []. split; [destruct fuel; reflexivity | reflexivity].
  - inversion Hwf as [|? ? Hr Hwf']; subst.
    cbn [GetRegisterResponse.join_encoded] in Henc.
    destruct (encode_wire_register r Hr) as (L & body & Hv & HL & Hb & Hone).
    rewrite Hone in Henc. cbn [bind] in Henc.
    destruct (GetRegisterResponse.join_encoded records) as [rest|] eqn:Erest;
      [|discriminate].
    cbn [bind app] in Henc. inversion Henc; subst payload. clear Henc.
    destruct fuel as [|fuel]; [cbn in Hfuel; lia|].
    cbn [List.length] in Hfuel.
    rewrite decode_loop_step by discriminate.
    assert (Hmin : 6 <= py.len (id_ r / 256 :: id_ r mod 256 :: unit r :: L :: body ++ rest)).
    { rewrite !len_cons, len_app. pose proof (len_nonneg rest). lia. }
    assert (HL0 : 0 <= L) by lia.
    rewrite (decode_one_register _ _ _ L body rest HL0 Hb Hmin).
    assert (Hrest : (0 <? py.len rest) && (py.len rest <? 6) = false).
    { destruct (join_encoded_length _ _ Hwf' Erest) as [->|H6].
      - reflexivity.
      - apply andb_false_intro2. apply Z.ltb_ge. exact H6. }
    rewrite Hrest.
    assert (Hid : py.from_bytes [id_ r / 256; id_ r mod 256] = id_ r).
    { cbn [py.from_bytes fold_left]. destruct Hr as (Hid & _).
      pose proof (Z.div_mod (id_ r) 256). lia. }
    rewrite Hid. rewrite <- Hv.
    replace (mkRegisterData (id_ r) (unit r) (value r)) with r by (destruct r; reflexivity).
    rewrite bindL_ok. cbn [fst snd].
    destruct (IH fuel rest (dict.update registers (id_ r) r) (id_ r :: seen)
                Hwf' eq_refl ltac:(lia)) as (logs & Hloop & Hwarn).
    { intros id. rewrite dict_contains_update. cbn [existsb].
      rewrite Hseen, (Z.eqb_sym id (id_ r)). reflexivity. }
    rewrite bindL_ok. cbn [fst snd].
    rewrite Hseen.
    destruct (existsb (Z.eqb (id_ r)) seen) eqn:Edup.
    + rewrite bindL_ok, Hloop. cbn [fst snd fold_left].
      eexists. split; [reflexivity|].
      cbn [duplicate_ids]. rewrite Edup. cbn [app map].
      rewrite !warnings_cons_debug, warnings_cons_warning, Hwarn by reflexivity.
      reflexivity.
    + unfold ret at 1. rewrite bindL_ok, Hloop. cbn [fst snd fold_left].
      eexists. split; [reflexivity|].
      cbn [duplicate_ids]. rewrite Edup. cbn [app map].
      rewrite !warnings_cons_debug, Hwarn by reflexivity.
      reflexivity.
Qed.

Lemma join_encoded_records_le (records : list RegisterData) (payload : bytes) :
  Forall wire_register records ->
  GetRegisterResponse.join_encoded records = Ok payload ->
  (List.length records <= List.length payload)%nat.
Proof.
  intros Hwf. revert payload.
  induction Hwf as [|r records Hr _ IH]; intros payload;
    cbn [GetRegisterResponse.join_encoded].
  - intros _. cbn. lia.
  - destruct (encode_wire_register r Hr) as (L & body & _ & _ & _ & ->).
    cbn [bind]. destruct (GetRegisterResponse.join_encoded records) as [rest|];
      [|discriminate].
    cbn [bind]. intros H. inversion H. specialize (IH rest eq_refl).
    cbn [app List.length]. rewrite length_app. lia.
Qed.

(** C8: for every payload made of whole register records,
    [GetRegisterResponse.decode] succeeds; the register found under an ID is
    the last record of the payload that carries this ID, and the warnings
    logged are one duplicate warning for each record that repeats the ID of
    an earlier record.  The nine-byte record [00 80 16 04 11 01 2A F0 24]
    twice gives one entry, keyed 128, with unit 0x16 and value
    [04 11 01 2A F0 24], and exactly one warning. *)
Theorem get_register_duplicate_last_wins :
  (forall (records : list RegisterData) (payload : bytes),
     Forall wire_register records ->
     GetRegisterResponse.join_encoded records = Ok payload ->
     exists (logs : list LogRecord) (response : GetRegisterResponse.t),
       GetRegisterResponse.decode
         (ApplicationData.mk constants.CommandId.GET_REGISTER payload)
       = (logs, Ok response)
       /\ (forall id : Z,
             dict.get (GetRegisterResponse.registers response) id
             = find (fun r => id_ r =? id) (rev records))
       /\ warnings_and_up logs = map duplicate_warning (duplicate_ids [] records))
  /\ (let record := [0x00; 0x80; 0x16; 0x04; 0x11; 0x01; 0x2A; 0xF0; 0x24] in
      exists (logs : list LogRecord) (response : GetRegisterResponse.t),
        GetRegisterResponse.decode
          (ApplicationData.mk constants.CommandId.GET_REGISTER (record ++ record))
        = (logs, Ok response)
        /\ GetRegisterResponse.registers response
           = [(128, mkRegisterData 128 0x16 [0x04; 0x11; 0x01; 0x2A; 0xF0; 0x24])]
        /\ warnings_and_up logs = [duplicate_warning 128]).
Proof.
  split.
  - intros records payload Hwf Henc.
    destruct (decode_loop_records records (List.length payload) payload [] []
                Hwf Henc (join_encoded_records_le _ _ Hwf Henc))
      as (logs & Hloop & Hwarn); [reflexivity|].
    rewrite decode_get_register, Hloop, bindL_ok. cbn [fst snd ret].
    eexists. eexists. split; [reflexivity|].
    cbn [GetRegisterResponse.registers]. split.
    + intros id. rewrite dict_get_updates.
      destruct (find (fun r => id_ r =? id) (rev records)); reflexivity.
    + rewrite app_nil_r. exact Hwarn.
  - cbv zeta. eexists. eexists. split; [reflexivity|]. split; reflexivity.
Qed.

Lemma get_register_duplicate_last_wins_witness :
  let first := mkRegisterData 128 0x16 [0x01; 0x00; 0x05] in
  let second := mkRegisterData 128 0x17 [0x01; 0x00; 0x07] in
  exists (logs : list LogRecord) (response : GetRegisterResponse.t),
    GetRegisterResponse.decode
      (ApplicationData.mk constants.CommandId.GET_REGISTER
         [0x00; 0x80; 0x16; 0x01; 0x00; 0x05; 0x00; 0x80; 0x17; 0x01; 0x00; 0x07])
    = (logs, Ok response)
    /\ (forall id : Z,
          dict.get (GetRegisterResponse.registers response) id
          = find (fun r => id_ r =? id) (rev [first; second]))
    /\ warnings_and_up logs = map duplicate_warning (duplicate_ids [] [first; second]).
Proof.
  intros first second.
  apply (proj1 get_register_duplicate_last_wins [first; second]).
  - repeat constructor; cbn; try lia.
    + exists 1, [0x00; 0x05]. repeat split; lia.
    + exists 1, [0x00; 0x07]. repeat split; lia.
  - reflexivity.
Defined.

End GetRegisterResponseProperties.

(** ** [int(s)] *)

Lemma digit_not_space (c : ascii) : py.isdigit c = true -> py.isspace c = false.
Proof.
  unfold py.isdigit, py.isspace. intros H.
  apply andb_prop in H. destruct H as [H1 H2].
  apply Z.leb_le in H1. apply Z.leb_le in H2.
  apply orb_false_intro.
  - apply andb_false_intro2. apply Z.leb_gt. lia.
  - apply Z.eqb_neq. lia.
Qed.

Lemma lstrip_keeps (c : ascii) (s : list ascii) :
  In c s -> py.isspace c = false -> In c (py.lstrip s).
Proof.
  intros Hin Hc. induction s as [|x s IH]; [destruct Hin|].
  cbn [py.lstrip]. destruct (py.isspace x) eqn:E.
  - destruct Hin as [->|Hin]; [congruence | exact (IH Hin)].
  - exact Hin.
Qed.

Lemma strip_keeps (c : ascii) (s : list ascii) :
  In c s -> py.isspace c = false -> In c (py.strip s).
Proof.
  intros Hin Hc. unfold py.strip.
  apply -> in_rev. apply lstrip_keeps; [|exact Hc].
  apply -> in_rev. apply lstrip_keeps; assumption.
Qed.

Lemma lstrip_no_space (s : list ascii) :
  match s with c :: _ => py.isspace c = false | [] => True end ->
  py.lstrip s = s.
Proof. destruct s as [|c s]; [reflexivity|]. cbn. intros ->. reflexivity. Qed.

Lemma strip_decimal (s : list ascii) : is_decimal s -> py.strip s = s.
Proof.
  intros H. unfold py.strip.
  rewrite (lstrip_no_space s).
  2:{ destruct H as [|c s Hc _]; [exact I | apply digit_not_space; exact Hc]. }
  rewrite (lstrip_no_space (rev s)); [apply rev_involutive|].
  apply Forall_rev in H. destruct H as [|c s' Hc _]; [exact I|].
  apply digit_not_space; exact Hc.
Qed.

Lemma int_digits_refuses (c : ascii) (s : list ascii) :
  In c s -> py.isdigit c = false -> c <> "_"%char ->
  forall acc count prev, py.int_digits acc count prev s = None.
Proof.
  intros Hin Hd Hu. induction s as [|x s IH]; [destruct Hin|].
  intros acc count prev. cbn [py.int_digits].
  destruct Hin as [->|Hin].
  - rewrite Hd. destruct (Ascii.eqb_spec c "_"); [congruence|]. reflexivity.
  - destruct (py.isdigit x); [apply IH; exact Hin|].
    destruct (Ascii.eqb x "_" && negb prev); [apply IH; exact Hin | reflexivity].
Qed.

Lemma int_refuses (c : ascii) (s : string) :
  In c (list_ascii_of_string s) ->
  py.isdigit c = false -> py.isspace c = false ->
  c <> "+"%char -> c <> "-"%char -> c <> "_"%char ->
  py.int s = None.
Proof.
  intros Hin Hd Hs Hplus Hminus Hu. unfold py.int.
  pose proof (strip_keeps c _ Hin Hs) as Hin'.
  destruct (py.strip (list_ascii_of_string s)) as [|x rest]; [reflexivity|].
  destruct (Ascii.eqb_spec x "+") as [->|Hx1].
  - destruct Hin' as [E|Hin']; [congruence|].
    apply (int_digits_refuses c); assumption.
  - destruct (Ascii.eqb_spec x "-") as [->|Hx2].
    + destruct Hin' as [E|Hin']; [congruence|].
      rewrite (int_digits_refuses c); [reflexivity | assumption..].
    + apply (int_digits_refuses c); assumption.
Qed.

Lemma int_digits_decimal (s : list ascii) :
  is_decimal s ->
  forall acc count prev,
    (s = [] -> prev = false) ->
    py.int_digits acc count prev s
    = if py.INT_MAX_STR_DIGITS <? count + py.len s then None
      else Some (acc * 10 ^ py.len s + decimal_value s).
Proof.
  induction 1 as [|c s Hc _ IH]; intros acc count prev Hprev.
  - rewrite (Hprev eq_refl). cbn [py.int_digits].
    change (py.len (@nil ascii)) with 0. rewrite Z.add_0_r.
    destruct (py.INT_MAX_STR_DIGITS <? count); [reflexivity|].
    f_equal. cbn. lia.
  - cbn [py.int_digits]. rewrite Hc, IH by reflexivity.
    rewrite len_cons. replace (count + 1 + py.len s) with (count + (1 + py.len s)) by lia.
    destruct (py.INT_MAX_STR_DIGITS <? count + (1 + py.len s)); [reflexivity|].
    f_equal. unfold decimal_value. cbn [map]. rewrite int_of_digits_cons.
    unfold py.len. rewrite length_map.
    replace (1 + Z.of_nat (List.length s)) with (Z.succ (Z.of_nat (List.length s))) by lia.
    rewrite Z.pow_succ_r by lia. lia.
Qed.

Lemma digit_not_sign (c : ascii) :
  py.isdigit c = true -> Ascii.eqb c "+" = false /\ Ascii.eqb c "-" = false.
Proof.
  intros H. split.
  - destruct (Ascii.eqb_spec c "+") as [->|]; [discriminate H | reflexivity].
  - destruct (Ascii.eqb_spec c "-") as [->|]; [discriminate H | reflexivity].
Qed.

Lemma list_ascii_length (s : string) :
  List.length (list_ascii_of_string s) = String.length s.
Proof. induction s as [|c s IH]; [reflexivity|]. cbn. rewrite IH. reflexivity. Qed.

(** [int] of a non-empty string of at most 4300 decimal digits. *)
Lemma int_decimal (s : string) :
  s <> ""%string ->
  is_decimal (list_ascii_of_string s) ->
  Z.of_nat (String.length s) <= py.INT_MAX_STR_DIGITS ->
  py.int s = Some (decimal_value (list_ascii_of_string s)).
Proof.
  intros Hne Hdec Hlen. unfold py.int. rewrite strip_decimal by exact Hdec.
  destruct (list_ascii_of_string s) as [|c rest] eqn:E.
  - destruct s; [congruence | discriminate E].
  - assert (Hc : py.isdigit c = true) by (inversion Hdec; assumption).
    destruct (digit_not_sign c Hc) as [-> ->].
    rewrite int_digits_decimal by (assumption || discriminate).
    rewrite <- list_ascii_length, E in Hlen. fold (py.len (c :: rest)) in Hlen.
    replace (py.INT_MAX_STR_DIGITS <? 0 + py.len (c :: rest)) with false
      by (symmetry; apply Z.ltb_ge; lia).
    f_equal; lia.
Qed.

Lemma decimal_value_nonneg (s : list ascii) : is_decimal s -> 0 <= decimal_value s.
Proof.
  intros H. unfold decimal_value. apply int_of_digits_nonneg.
  apply Forall_map. eapply Forall_impl; [|exact H].
  intros c Hc. unfold py.isdigit in Hc. unfold is_digit, py.digit_value.
  apply andb_prop in Hc. destruct Hc as [H1 H2].
  apply Z.leb_le in H1. apply Z.leb_le in H2. lia.
Qed.

(** C9, counterexample: the serial ["-1"] holds a character that is not a
    digit, and the constructor raises the out-of-range error for it, not the
    serial number error. *)
Lemma get_serial_minus_one_is_out_of_range :
  In "-"%char (list_ascii_of_string "-1")
  /\ py.isdigit "-" = false
  /\ GetSerialResponse.new "-1" None
     = Raise (OutOfRangeError "Serial number" (Some 0, Some 4294967295) (-1))
  /\ GetSerialResponse.new "-1" None <> Raise (SerialNumberInvalidError "-1").
Proof.
  split; [left; reflexivity|]. split; [reflexivity|].
  split; [reflexivity | discriminate].
Qed.

(** C9, as the code has it: constructing a [GetSerialResponse] raises the
    serial number error for every serial that holds an ASCII character other
    than a decimal digit, a sign, an underscore or white space; for a serial of one to 4300
    decimal digits it succeeds when the number is at most [2^32 - 1] and
    raises the out-of-range error otherwise; for ["-1"] it raises the
    out-of-range error.  In general it raises the serial number error when
    [int] refuses the serial, and the out-of-range error when [int] gives a
    number outside [0, 2^32 - 1]. *)
Theorem get_serial_validation :
  (forall (serial : string) (data_raw : option bytes) (c : ascii),
     In c (list_ascii_of_string serial) ->
     (nat_of_ascii c < 128)%nat ->
     py.isdigit c = false -> py.isspace c = false ->
     c <> "+"%char -> c <> "-"%char -> c <> "_"%char ->
     GetSerialResponse.new serial data_raw
     = Raise (SerialNumberInvalidError serial))
  /\ (forall (serial : string) (data_raw : option bytes),
        serial <> ""%string ->
        is_decimal (list_ascii_of_string serial) ->
        Z.of_nat (String.length serial) <= py.INT_MAX_STR_DIGITS ->
        let n := decimal_value (list_ascii_of_string serial) in
        GetSerialResponse.new serial data_raw
        = if n <=? 2 ^ 32 - 1
          then Ok (GetSerialResponse.mk serial data_raw)
          else Raise (OutOfRangeError
                        "Serial number" (Some 0, Some (2 ^ 32 - 1)) n))
  /\ GetSerialResponse.new "-1" None
     = Raise (OutOfRangeError "Serial number" (Some 0, Some (2 ^ 32 - 1)) (-1))
  /\ (forall (serial : string) (data_raw : option bytes),
        py.int serial = None ->
        GetSerialResponse.new serial data_raw
        = Raise (SerialNumberInvalidError serial))
  /\ (forall (serial : string) (data_raw : option bytes) (n : Z),
        py.int serial = Some n ->
        ~ 0 <= n <= 2 ^ 32 - 1 ->
        GetSerialResponse.new serial data_raw
        = Raise (OutOfRangeError
                   "Serial number" (Some 0, Some (2 ^ 32 - 1)) n)).
Proof.
  split; [|split; [|split; [|split]]].
  - intros serial data_raw c Hin _ Hd Hs Hp Hm Hu.
    unfold GetSerialResponse.new, GetSerialResponse.digits_only_validator.
    rewrite (int_refuses c serial) by assumption. reflexivity.
  - intros serial data_raw Hne Hdec Hlen n.
    unfold GetSerialResponse.new, GetSerialResponse.digits_only_validator.
    rewrite int_decimal by assumption. fold n.
    pose proof (decimal_value_nonneg _ Hdec) as Hn. fold n in Hn.
    replace (0 <=? n) with true by (symmetry; apply Z.leb_le; exact Hn).
    cbn [andb].
    change GetSerialResponse.SERIAL_VALUE_MAX with (2 ^ 32 - 1).
    destruct (n <=? 2 ^ 32 - 1); reflexivity.
  - reflexivity.
  - intros serial data_raw Hint.
    unfold GetSerialResponse.new, GetSerialResponse.digits_only_validator.
    rewrite Hint. reflexivity.
  - intros serial data_raw n Hint Hn.
    unfold GetSerialResponse.new, GetSerialResponse.digits_only_validator.
    rewrite Hint. change GetSerialResponse.SERIAL_VALUE_MAX with (2 ^ 32 - 1).
    replace ((0 <=? n) && (n <=? 2 ^ 32 - 1)) with false; [reflexivity|].
    symmetry. apply andb_false_iff.
    destruct (Z.leb_spec 0 n); [|left; reflexivity].
    destruct (Z.leb_spec n (2 ^ 32 - 1)); [|right; reflexivity].
    exfalso. apply Hn. split; assumption.
Qed.

Lemma get_serial_validation_witness :
  GetSerialResponse.new "Foobar" None = Raise (SerialNumberInvalidError "Foobar")
  /\ GetSerialResponse.new "4294967296" None
     = Raise (OutOfRangeError "Serial number" (Some 0, Some (2 ^ 32 - 1)) 4294967296).
Proof.
  split.
  - apply (proj1 get_serial_validation "Foobar"%string None "F"%char).
    + left. reflexivity.
    + cbn. lia.
    + reflexivity.
    + reflexivity.
    + discriminate.
    + discriminate.
    + discriminate.
  - apply (proj1 (proj2 get_serial_validation) "4294967296"%string None).
    + discriminate.
    + repeat constructor.
    + vm_compute. congruence.
Defined.

(** A serial with a sign, blanks or an underscore passes the validator. *)
Lemma get_serial_accepts_what_int_parses :
  GetSerialResponse.new "+1" None = Ok (GetSerialResponse.mk "+1" None)
  /\ GetSerialResponse.new " 12 " None = Ok (GetSerialResponse.mk " 12 " None)
  /\ GetSerialResponse.new "1_0" None = Ok (GetSerialResponse.mk "1_0" None).
Proof. repeat split; reflexivity. Qed.

(** ** The frames of the physical layer *)

Lemma encode_nonempty (direction : PhysicalDirection) (data : bytes) :
  data <> [] ->
  PhysicalCodec.encode (PhysicalCodec.new direction) data
  = Ok (PhysicalCodec._start_byte (PhysicalCodec.new direction)
          :: flat_map (stuffed [0x1B; 0x06; 0x40; 0x80; 0x0D]) data ++ [0x0D]).
Proof.
  intros Hne. unfold PhysicalCodec.encode.
  replace (py.len data =? 0) with false.
  2:{ symmetry. apply Z.eqb_neq. destruct data; [congruence|].
      rewrite len_cons. pose proof (len_nonneg data). lia. }
  rewrite encode_stuffs. destruct direction; reflexivity.
Qed.


Lemma stuffed_no_delimiter (data : bytes) :
  forallb (fun b => negb (is_delimiter b))
    (flat_map (stuffed [0x1B; 0x06; 0x40; 0x80; 0x0D]) data) = true.
Proof.
  induction data as [|y data IH]; [reflexivity|].
  cbn [flat_map]. rewrite forallb_app, IH, andb_true_r.
  unfold stuffed. cbn [existsb].
  split_special y; try reflexivity.
  repeat match goal with
         | H : y <> ?b |- _ => apply Z.eqb_neq in H
         end.
  repeat match goal with
         | H : (y =? _) = false |- _ => rewrite H
         end.
  cbn [orb forallb andb]. unfold is_delimiter. cbn [existsb].
  repeat match goal with
         | H : (y =? _) = false |- _ => rewrite H
         end.
  reflexivity.
Qed.

Lemma stuffed_length (data : bytes) :
  py.len (flat_map (stuffed [0x1B; 0x06; 0x40; 0x80; 0x0D]) data)
  = py.len data + py.len (filter is_special data).
Proof.
  induction data as [|y data IH]; [reflexivity|].
  cbn [flat_map filter]. rewrite len_app, IH, len_cons.
  unfold stuffed, is_special.
  destruct (existsb (Z.eqb y) [27; 6; 64; 128; 13]).
  - rewrite !len_cons. change (py.len (@nil Z)) with 0. lia.
  - rewrite !len_cons. change (py.len (@nil Z)) with 0. lia.
Qed.

Lemma stuffed_is_bytes (data : bytes) :
  is_bytes data -> is_bytes (flat_map (stuffed [0x1B; 0x06; 0x40; 0x80; 0x0D]) data).
Proof.
  induction 1 as [|y data Hy _ IH]; [constructor|].
  cbn [flat_map]. apply Forall_app. split; [|exact IH].
  unfold stuffed. cbn [existsb].
  split_special y;
    [cbn; repeat constructor; unfold is_byte; lia ..|].
  repeat match goal with
         | H : y <> ?b |- _ => apply Z.eqb_neq in H
         end.
  repeat match goal with
         | H : (y =? _) = false |- _ => rewrite H
         end.
  cbn [orb]. cbv iota. apply Forall_cons; [exact Hy | apply Forall_nil].
Qed.

(** X2: the frame that [encode] builds.  The data link bytes are stuffed
    byte by byte between the start byte of the direction and the stop byte:
    a special byte becomes the stuffing byte and its complement, any other
    byte stays.  No byte between the two delimiters is a start byte, the
    stop byte or the ACK byte, the frame is longer than the data by two
    bytes and one byte for each special byte, and bytes stay bytes. *)
Theorem physical_encode_frame (direction : PhysicalDirection) (data : bytes) :
  data <> [] ->
  let codec := PhysicalCodec.new direction in
  exists body : bytes,
    PhysicalCodec.encode codec data
    = Ok (PhysicalCodec._start_byte codec :: body ++ [constants.ByteCode.STOP])
    /\ body = flat_map (fun b => if is_special b then [0x1B; Z.lxor b 0xFF] else [b]) data
    /\ forallb (fun b => negb (is_delimiter b)) body = true
    /\ py.len body = py.len data + py.len (filter is_special data)
    /\ (is_bytes data -> is_bytes body).
Proof.
  intros Hne codec.
  exists (flat_map (stuffed [0x1B; 0x06; 0x40; 0x80; 0x0D]) data).
  split; [apply encode_nonempty; exact Hne|].
  split; [reflexivity|].
  split; [apply stuffed_no_delimiter|].
  split; [apply stuffed_length | apply stuffed_is_bytes].
Qed.

Lemma physical_encode_frame_witness :
  exists body : bytes,
    PhysicalCodec.encode (PhysicalCodec.new TO_METER) [0x3F; 0x10; 0x0D; 0x1B]
    = Ok (0x80 :: body ++ [0x0D])
    /\ body = flat_map (fun b => if is_special b then [0x1B; Z.lxor b 0xFF] else [b])
                [0x3F; 0x10; 0x0D; 0x1B]
    /\ forallb (fun b => negb (is_delimiter b)) body = true
    /\ py.len body = py.len [0x3F; 0x10; 0x0D; 0x1B]
                     + py.len (filter is_special [0x3F; 0x10; 0x0D; 0x1B])
    /\ (is_bytes [0x3F; 0x10; 0x0D; 0x1B] -> is_bytes body).
Proof.
  apply (physical_encode_frame TO_METER [0x3F; 0x10; 0x0D; 0x1B]). discriminate.
Defined.

(** *** What [decode] refuses *)

Lemma last_rev_hd (frame : bytes) : last frame 0 = hd 0 (rev frame).
Proof.
  induction frame as [|x frame IH]; [reflexivity|].
  destruct frame as [|y frame]; [reflexivity|].
  change (last (x :: y :: frame) 0) with (last (y :: frame) 0).
  rewrite IH. cbn [rev]. 
  destruct (rev frame ++ [y]) eqn:E.
  - destruct (rev frame); discriminate E.
  - reflexivity.
Qed.

Lemma item_last (frame : bytes) : frame <> [] -> py.item frame (-1) = last frame 0.
Proof.
  intros Hne. unfold py.item. cbn [Z.ltb Z.compare].
  destruct frame as [|x frame]; [congruence|].
  rewrite len_cons.
  replace (Z.to_nat (-1 + (1 + py.len frame))) with (List.length frame)
    by (unfold py.len; lia).
  clear Hne. revert x. induction frame as [|y frame IH]; intros x; [reflexivity|].
  change (last (x :: y :: frame) 0) with (last (y :: frame) 0).
  rewrite <- IH. reflexivity.
Qed.

Lemma endswith_stop (frame : bytes) :
  py.endswith frame (py.big_endian constants.ByteCode.STOP 1)
  = match rev frame with
    | x :: _ => 0x0D =? x
    | [] => false
    end.
Proof.
  unfold py.endswith. change (rev (py.big_endian constants.ByteCode.STOP 1)) with [0x0D].
  destruct (rev frame) as [|x r]; [reflexivity|].
  cbn [py.startswith]. rewrite startswith_nil. apply andb_true_r.
Qed.

Lemma decode_wrong_start (direction : PhysicalDirection) (b : Z) (rest : bytes) :
  let codec := PhysicalCodec.new direction in
  b :: rest <> [constants.ByteCode.ACK] -> b <> PhysicalCodec._start_byte codec ->
  PhysicalCodec.decode codec (b :: rest)
  = Raise (BoundaryByteInvalidError "start" (PhysicalCodec._start_byte codec) b).
Proof.
  intros codec Hack Hb. set (start := PhysicalCodec._start_byte codec) in *.
  assert (Hsb : py.big_endian start 1 = [start]) by (destruct direction; reflexivity).
  unfold PhysicalCodec.decode. fold start.
  replace (py.bytes_eqb (b :: rest) constants.ACK_BYTES) with false.
  2:{ symmetry. change constants.ACK_BYTES with [6]. cbn [py.bytes_eqb].
      destruct (Z.eqb_spec b 6) as [->|]; [|reflexivity].
      destruct rest; [exfalso; apply Hack; reflexivity | reflexivity]. }
  rewrite Hsb, startswith_neq_cons by congruence. reflexivity.
Qed.

Lemma decode_missing_stop (direction : PhysicalDirection) (rest : bytes) :
  let codec := PhysicalCodec.new direction in
  let start := PhysicalCodec._start_byte codec in
  last (start :: rest) 0 <> constants.ByteCode.STOP ->
  PhysicalCodec.decode codec (start :: rest)
  = Raise (BoundaryByteInvalidError
             "stop" constants.ByteCode.STOP (last (start :: rest) 0)).
Proof.
  intros codec start Hlast.
  assert (Hsb : py.big_endian start 1 = [start]) by (destruct direction; reflexivity).
  unfold PhysicalCodec.decode. fold start.
  replace (py.bytes_eqb (start :: rest) constants.ACK_BYTES) with false
    by (destruct direction; reflexivity).
  rewrite Hsb, startswith_refl_cons, startswith_nil. cbn [negb].
  rewrite endswith_stop, item_last by discriminate.
  rewrite last_rev_hd in *.
  destruct (rev (start :: rest)) as [|x r] eqn:E.
  - cbn [rev] in E. destruct (rev rest); discriminate E.
  - cbn [hd] in *. replace (13 =? x) with false; [reflexivity|].
    symmetry. apply Z.eqb_neq. intros H. apply Hlast. symmetry. exact H.
Qed.

(** X3: what [decode] accepts and what it refuses, for both directions.
    A frame is accepted exactly when it begins with the start byte of the
    direction and ends, from its second byte on, with the stop byte.  The
    empty frame raises the length error; the ACK frame raises
    [AckReceivedException], also when it came from [encode_ack]; any other
    frame that does not begin with the start byte raises the boundary error
    of the start byte, with the first byte of the frame; a frame that begins
    with the start byte and does not end with the stop byte raises the
    boundary error of the stop byte, with the last byte of the frame.  In
    particular the start byte alone is refused for its missing stop byte. *)
Theorem physical_decode_frames (direction : PhysicalDirection) :
  let codec := PhysicalCodec.new direction in
  let start := PhysicalCodec._start_byte codec in
  (forall body : bytes,
     exists data : bytes,
       PhysicalCodec.decode codec (start :: body ++ [constants.ByteCode.STOP]) = Ok data)
  /\ PhysicalCodec.decode codec []
     = Raise (DataLengthUnexpectedError "Frame" 0 None false)
  /\ PhysicalCodec.decode codec PhysicalCodec.encode_ack = Raise AckReceivedException
  /\ (forall (b : Z) (rest : bytes),
        b :: rest <> [constants.ByteCode.ACK] -> b <> start ->
        PhysicalCodec.decode codec (b :: rest)
        = Raise (BoundaryByteInvalidError "start" start b))
  /\ (forall rest : bytes,
        last (start :: rest) 0 <> constants.ByteCode.STOP ->
        PhysicalCodec.decode codec (start :: rest)
        = Raise (BoundaryByteInvalidError
                   "stop" constants.ByteCode.STOP (last (start :: rest) 0))).
Proof.
  intros codec start.
  split; [|split; [|split; [|split]]].
  - intros body. destruct body as [|x body].
    + exists []. destruct direction; reflexivity.
    + eexists. apply (decode_framed direction (x :: body)). discriminate.
  - reflexivity.
  - destruct direction; reflexivity.
  - intros b rest. apply decode_wrong_start.
  - intros rest. apply decode_missing_stop.
Qed.

Lemma physical_decode_frames_witness :
  PhysicalCodec.decode (PhysicalCodec.new FROM_METER) [0x80; 0x3F; 0x0D]
  = Raise (BoundaryByteInvalidError "start" 0x40 0x80)
  /\ PhysicalCodec.decode (PhysicalCodec.new FROM_METER) [0x40; 0x3F]
     = Raise (BoundaryByteInvalidError "stop" 0x0D 0x3F).
Proof.
  split.
  - apply (proj1 (proj2 (proj2 (proj2 (physical_decode_frames FROM_METER))))
             0x80 [0x3F; 0x0D]);
      discriminate.
  - apply (proj2 (proj2 (proj2 (proj2 (physical_decode_frames FROM_METER)))) [0x3F]).
    discriminate.
Defined.

Lemma physical_frame_other_direction
    (direction : PhysicalDirection) (data frame : bytes) :
  PhysicalCodec.encode (PhysicalCodec.new direction) data = Ok frame ->
  PhysicalCodec.decode (PhysicalCodec.new (opposite direction)) frame
  = Raise (BoundaryByteInvalidError
             "start"
             (PhysicalCodec._start_byte (PhysicalCodec.new (opposite direction)))
             (PhysicalCodec._start_byte (PhysicalCodec.new direction))).
Proof.
  intros H.
  destruct data as [|x data]; [destruct direction; discriminate H|].
  rewrite encode_nonempty in H by discriminate. injection H as <-.
  destruct direction; cbn [opposite].
  - apply (decode_wrong_start FROM_METER); discriminate.
  - apply (decode_wrong_start TO_METER); discriminate.
Qed.

(** X4: a frame of one direction is no frame of the other.  What [encode]
    returns for one direction is refused by [decode] for the other
    direction, with the boundary error of the start byte. *)
Theorem physical_decode_other_direction
    (direction : PhysicalDirection) (data frame : bytes) :
  PhysicalCodec.encode (PhysicalCodec.new direction) data = Ok frame ->
  PhysicalCodec.decode (PhysicalCodec.new (opposite direction)) frame
  = Raise (BoundaryByteInvalidError
             "start"
             (PhysicalCodec._start_byte (PhysicalCodec.new (opposite direction)))
             (PhysicalCodec._start_byte (PhysicalCodec.new direction))).
Proof. apply physical_frame_other_direction. Qed.

Lemma physical_decode_other_direction_witness :
  PhysicalCodec.decode (PhysicalCodec.new FROM_METER) [0x80; 0x3F; 0x02; 0x35; 0xE9; 0x0D]
  = Raise (BoundaryByteInvalidError "start" 0x40 0x80).
Proof.
  apply (physical_decode_other_direction TO_METER [0x3F; 0x02; 0x35; 0xE9]).
  reflexivity.
Defined.

(** *** Different data, different frames *)

Lemma stuffed_shape (y : Z) :
  (is_special y = true /\ stuffed [0x1B; 0x06; 0x40; 0x80; 0x0D] y = [0x1B; Z.lxor y 0xFF])
  \/ (is_special y = false /\ y <> 0x1B
      /\ stuffed [0x1B; 0x06; 0x40; 0x80; 0x0D] y = [y]).
Proof.
  unfold stuffed, is_special. cbn [existsb].
  destruct (Z.eqb_spec y 27) as [->|H]; [left; split; reflexivity|].
  cbn [orb]. destruct (_ || _); [left | right]; repeat split; try reflexivity.
  exact H.
Qed.

Lemma lxor_255_injective (a b : Z) : Z.lxor a 255 = Z.lxor b 255 -> a = b.
Proof.
  intros H.
  rewrite <- (Z.lxor_0_r a), <- (Z.lxor_0_r b), <- (Z.lxor_nilpotent 255).
  rewrite <- !Z.lxor_assoc, H. reflexivity.
Qed.

Lemma stuffing_injective (data1 : bytes) :
  forall data2 : bytes,
    flat_map (stuffed [0x1B; 0x06; 0x40; 0x80; 0x0D]) data1
    = flat_map (stuffed [0x1B; 0x06; 0x40; 0x80; 0x0D]) data2 ->
    data1 = data2.
Proof.
  induction data1 as [|y1 data1 IH]; intros [|y2 data2] H.
  - reflexivity.
  - exfalso. cbn [flat_map] in H.
    destruct (stuffed_shape y2) as [[_ E]|[_ [_ E]]]; rewrite E in H; discriminate H.
  - exfalso. cbn [flat_map] in H.
    destruct (stuffed_shape y1) as [[_ E]|[_ [_ E]]]; rewrite E in H; discriminate H.
  - cbn [flat_map] in H.
    destruct (stuffed_shape y1) as [[_ E1]|[_ [N1 E1]]];
      destruct (stuffed_shape y2) as [[_ E2]|[_ [N2 E2]]];
      rewrite E1, E2 in H; cbn [app] in H.
    + injection H as Hy H. apply lxor_255_injective in Hy. subst y2.
      f_equal. apply IH, H.
    + injection H as Hy _. congruence.
    + injection H as Hy _. congruence.
    + injection H as Hy H. subst y2. f_equal. apply IH, H.
Qed.

(** X5: different data, different frames.  For each direction,
    [PhysicalCodec.encode] never returns the same frame for two different
    sequences of data link bytes: the stuffing loses nothing, also for the
    data that [decode] does not give back. *)
Theorem physical_encode_injective
    (direction : PhysicalDirection) (data1 data2 frame : bytes) :
  PhysicalCodec.encode (PhysicalCodec.new direction) data1 = Ok frame ->
  PhysicalCodec.encode (PhysicalCodec.new direction) data2 = Ok frame ->
  data1 = data2.
Proof.
  intros H1 H2.
  assert (Hne1 : data1 <> []) by (intros ->; destruct direction; discriminate H1).
  assert (Hne2 : data2 <> []) by (intros ->; destruct direction; discriminate H2).
  rewrite encode_nonempty in H1, H2 by assumption.
  rewrite <- H2 in H1. injection H1 as H.
  apply app_inv_tail in H. apply stuffing_injective, H.
Qed.

Lemma physical_encode_injective_witness :
  [0x1B; 0xF9] = [0x1B; 0xF9].
Proof.
  apply (physical_encode_injective TO_METER [0x1B; 0xF9] [0x1B; 0xF9]
           [0x80; 0x1B; 0xE4; 0xF9; 0x0D]); reflexivity.
Defined.

(** ** What the checksum detects *)

Lemma crc_unstep_step (R : Z) : 0 <= R < 65536 -> crc_unstep (crc_step R) = R.
Proof.
  intros HR. apply Z.eqb_eq.
  apply (forall_below_65536 (fun R => crc_unstep (crc_step R) =? R)); [|exact HR].
  vm_compute. reflexivity.
Qed.

Lemma crc_step_injective (R R' : Z) :
  0 <= R < 65536 -> 0 <= R' < 65536 -> crc_step R = crc_step R' -> R = R'.
Proof.
  intros HR HR' E.
  rewrite <- (crc_unstep_step R HR), <- (crc_unstep_step R' HR'), E. reflexivity.
Qed.

(** A step on a register below 256 is the only one whose result has a
    low byte of zero. *)
Lemma crc_step_low_byte (R : Z) :
  0 <= R < 65536 -> Z.land (crc_step R) 255 = 0 -> R < 256.
Proof.
  intros HR E. apply Z.ltb_lt.
  assert (H : implb (Z.land (crc_step R) 255 =? 0) (R <? 256) = true).
  { apply (forall_below_65536
             (fun R => implb (Z.land (crc_step R) 255 =? 0) (R <? 256))); [|exact HR].
    vm_compute. reflexivity. }
  rewrite E in H. exact H.
Qed.

Lemma register_with_byte_range (r b : Z) :
  0 <= r < 65536 -> 0 <= b < 256 -> 0 <= Z.lxor r (Z.shiftl b 8) < 65536.
Proof.
  intros Hr Hb.
  assert (Hb8 : 0 <= Z.shiftl b 8 < 65536).
  { rewrite Z.shiftl_mul_pow2 by lia. change (2 ^ 8) with 256. lia. }
  assert (E : Z.land (Z.lxor r (Z.shiftl b 8)) (Z.ones 16) = Z.lxor r (Z.shiftl b 8)).
  { rewrite land_lxor_distr.
    rewrite !Z.land_ones by lia. change (2 ^ 16) with 65536.
    rewrite !Z.mod_small by lia. reflexivity. }
  rewrite <- E, Z.land_ones by lia. apply Z.mod_pos_bound. lia.
Qed.

Lemma crc_process_byte_step (r b : Z) :
  0 <= r < 65536 -> 0 <= b < 256 ->
  crc._process_byte DataLinkCodec.crc_calculator r b
  = crc_step (Z.lxor r (Z.shiftl b 8)).
Proof.
  intros Hr Hb.
  rewrite crc_table_driven_is_bitwise by assumption.
  change (crc.Register._process_byte (crc.configuration DataLinkCodec.crc_calculator) r b)
    with (Z.land
            (crc.Register.shift (crc.configuration DataLinkCodec.crc_calculator) 8
               (Z.lxor r (Z.shiftl b 8)))
            65535).
  apply crc_table_row. apply register_with_byte_range; assumption.
Qed.

Lemma lxor_cancel_r (a b c : Z) : Z.lxor a c = Z.lxor b c -> a = b.
Proof.
  intros H.
  rewrite <- (Z.lxor_0_r a), <- (Z.lxor_0_r b), <- (Z.lxor_nilpotent c).
  rewrite <- !Z.lxor_assoc, H. reflexivity.
Qed.

Lemma lxor_cancel_l (a b c : Z) : Z.lxor c a = Z.lxor c b -> a = b.
Proof. rewrite !(Z.lxor_comm c). apply lxor_cancel_r. Qed.

(** Two registers that differ still differ after the same bytes. *)
Lemma crc_update_injective (data : bytes) :
  is_bytes data ->
  forall r r', 0 <= r < 65536 -> 0 <= r' < 65536 ->
    crc.update DataLinkCodec.crc_calculator r data
    = crc.update DataLinkCodec.crc_calculator r' data ->
    r = r'.
Proof.
  induction 1 as [|b data Hb _ IH]; intros r r' Hr Hr' E; [exact E|].
  cbn [crc.update fold_left] in E.
  change (if crc.reverse_input (crc.configuration DataLinkCodec.crc_calculator)
          then crc.reversed 8 b else b) with b in E.
  apply IH in E; try apply crc_process_byte_range.
  rewrite !crc_process_byte_step in E by assumption.
  apply crc_step_injective in E; try (apply register_with_byte_range; assumption).
  apply lxor_cancel_r in E. exact E.
Qed.

Lemma crc_process_byte_injective (r b b' : Z) :
  0 <= r < 65536 -> 0 <= b < 256 -> 0 <= b' < 256 ->
  crc._process_byte DataLinkCodec.crc_calculator r b
  = crc._process_byte DataLinkCodec.crc_calculator r b' ->
  b = b'.
Proof.
  intros Hr Hb Hb' E.
  rewrite !crc_process_byte_step in E by assumption.
  apply crc_step_injective in E; try (apply register_with_byte_range; assumption).
  apply lxor_cancel_l in E.
  rewrite !Z.shiftl_mul_pow2 in E by lia. lia.
Qed.

(** Two messages that differ in one byte have different checksums. *)
Lemma crc_checksum_one_byte (pre post : bytes) (b b' : Z) :
  is_bytes pre -> is_bytes post -> is_byte b -> is_byte b' -> b <> b' ->
  crc.checksum DataLinkCodec.crc_calculator (pre ++ b :: post)
  <> crc.checksum DataLinkCodec.crc_calculator (pre ++ b' :: post).
Proof.
  intros Hpre Hpost Hb Hb' Hne E.
  rewrite !crc_checksum_eq, !crc_update_app in E.
  cbn [crc.update fold_left] in E.
  change (if crc.reverse_input (crc.configuration DataLinkCodec.crc_calculator)
          then crc.reversed 8 b else b) with b in E.
  change (if crc.reverse_input (crc.configuration DataLinkCodec.crc_calculator)
          then crc.reversed 8 b' else b') with b' in E.
  fold (crc.update DataLinkCodec.crc_calculator
          (crc._process_byte DataLinkCodec.crc_calculator
             (fold_left
                (fun register byte =>
                   crc._process_byte DataLinkCodec.crc_calculator register
                     (if crc.reverse_input (crc.configuration DataLinkCodec.crc_calculator)
                      then crc.reversed 8 byte else byte)) pre 0) b) post) in E.
  apply (crc_update_injective post Hpost) in E; try apply crc_process_byte_range.
  apply crc_process_byte_injective in E; try assumption.
  - contradiction.
  - apply (crc_update_range pre 0). lia.
Qed.

(** ** Frames that the data link layer accepts *)

(** Bytes of a frame of four bytes or more: the address, the application
    bytes and the two bytes of the checksum. *)
Lemma data_link_frame_parts (raw : bytes) :
  4 <= py.len raw ->
  exists addr app h l,
    raw = addr :: app ++ [h; l] /\ app <> [].
Proof.
  intros Hlen. destruct raw as [|addr rest]; [cbv in Hlen; congruence|].
  rewrite len_cons in Hlen.
  pose proof (firstn_skipn (List.length rest - 2) rest) as E.
  assert (Hs : List.length (skipn (List.length rest - 2) rest) = 2%nat).
  { rewrite length_skipn. unfold py.len in Hlen. lia. }
  destruct (skipn (List.length rest - 2) rest) as [|h [|l [|]]]; try discriminate Hs.
  exists addr, (firstn (List.length rest - 2) rest), h, l.
  split; [rewrite E; reflexivity|].
  intros Hnil. apply (f_equal (@List.length Z)) in Hnil.
  rewrite length_firstn in Hnil. cbn in Hnil. unfold py.len in Hlen. lia.
Qed.

Lemma data_link_decode_parts (addr : Z) (app : bytes) (h l : Z) :
  app <> [] ->
  DataLinkCodec.decode (addr :: app ++ [h; l])
  = if crc.checksum DataLinkCodec.crc_calculator (addr :: app ++ [h; l]) =? 0
    then Ok (DataLinkData.mk addr app (Some (h * 256 + l)))
    else Raise CrcChecksumInvalidError.
Proof.
  intros Happ. unfold DataLinkCodec.decode.
  set (raw := addr :: app ++ [h; l]).
  assert (Hlen : 0 < py.len app).
  { destruct app; [congruence|]. rewrite len_cons. pose proof (len_nonneg app). lia. }
  assert (Hraw : py.len raw = py.len app + 3).
  { unfold raw. rewrite len_cons, len_app. unfold py.len. cbn [List.length]. lia. }
  replace (py.len raw >=? DataLinkCodec.DATA_LINK_BYTES_LENGTH_MIN) with true
    by (symmetry; apply Z.geb_le; unfold DataLinkCodec.DATA_LINK_BYTES_LENGTH_MIN; lia).
  unfold crc.verify. cbn [negb].
  destruct (crc.checksum DataLinkCodec.crc_calculator raw =? 0); [|reflexivity].
  cbn [negb].
  assert (H0 : py.item raw 0 = addr) by reflexivity.
  assert (H1 : py.slice (Some 1) (Some (-2)) raw = app).
  { change (-2) with (- (2)). rewrite (slice_inner raw 1 2) by lia.
    rewrite Hraw. unfold raw. cbn [Z.to_nat Pos.to_nat Pos.iter_op Nat.add skipn].
    apply firstn_length_app. unfold py.len. lia. }
  assert (H2 : py.from_bytes (py.slice (Some (-2)) None raw) = h * 256 + l).
  { change (-2) with (- (2)). rewrite slice_from_end by lia.
    rewrite Hraw. unfold raw.
    change (addr :: app ++ [h; l]) with ((addr :: app) ++ [h; l]).
    rewrite skipn_length_app by (unfold py.len; cbn [List.length]; lia).
    cbn [py.from_bytes fold_left]. lia. }
  rewrite H0, H1, H2. reflexivity.
Qed.

Lemma data_link_decode_short (raw : bytes) :
  py.len raw < 4 ->
  DataLinkCodec.decode raw
  = Raise (DataLengthUnexpectedError
             "Data link layer message to destructure" (py.len raw) (Some 4) true).
Proof.
  intros H. unfold DataLinkCodec.decode.
  replace (py.len raw >=? DataLinkCodec.DATA_LINK_BYTES_LENGTH_MIN) with false;
    [reflexivity|].
  symmetry. unfold DataLinkCodec.DATA_LINK_BYTES_LENGTH_MIN.
  destruct (Z.geb_spec (py.len raw) 4); [lia | reflexivity].
Qed.

(** What [decode] accepts is a frame of four bytes or more with checksum
    zero. *)
Lemma data_link_decode_accepted (raw : bytes) (d : DataLinkData.t) :
  DataLinkCodec.decode raw = Ok d ->
  exists addr app h l,
    raw = addr :: app ++ [h; l] /\ app <> []
    /\ crc.checksum DataLinkCodec.crc_calculator raw = 0
    /\ d = DataLinkData.mk addr app (Some (h * 256 + l)).
Proof.
  intros H.
  destruct (Z.lt_ge_cases (py.len raw) 4) as [Hs | Hl].
  - rewrite data_link_decode_short in H by exact Hs. discriminate H.
  - destruct (data_link_frame_parts raw Hl) as (addr & app & h & l & -> & Happ).
    exists addr, app, h, l. rewrite data_link_decode_parts in H by exact Happ.
    destruct (Z.eqb_spec (crc.checksum DataLinkCodec.crc_calculator (addr :: app ++ [h; l])) 0)
      as [E|]; [|discriminate H].
    injection H as <-. repeat split; try assumption.
Qed.

(** The converse of the self-check: two bytes that bring the checksum of a
    message to zero are the checksum of the message. *)
Lemma crc_trailer_is_checksum (data : bytes) (h l : Z) :
  is_bytes data -> is_byte h -> is_byte l ->
  crc.checksum DataLinkCodec.crc_calculator (data ++ [h; l]) = 0 ->
  let c := crc.checksum DataLinkCodec.crc_calculator data in
  h = c / 256 /\ l = c mod 256.
Proof.
  intros Hdata Hh Hl E c.
  pose proof (crc_checksum_range data) as Hc. fold c in Hc.
  rewrite crc_checksum_eq, crc_update_app in E.
  rewrite <- crc_checksum_eq in E. fold c in E.
  cbn [crc.update fold_left] in E.
  change (crc.reverse_input (crc.configuration DataLinkCodec.crc_calculator))
    with false in E. cbv iota in E.
  set (r := crc._process_byte DataLinkCodec.crc_calculator c h) in *.
  assert (Hr : 0 <= r < 65536) by apply crc_process_byte_range.
  (* the register before the last byte *)
  assert (Er : r = 256 * l).
  { rewrite <- (crc_process_low_byte l Hl) in E.
    rewrite !crc_process_byte_step in E by (try assumption; unfold is_byte in Hl; lia).
    apply crc_step_injective in E;
      try (apply register_with_byte_range; try assumption; unfold is_byte in Hl; lia).
    apply lxor_cancel_r in E. exact E. }
  (* its low byte is zero, so the high byte of [c] was fed *)
  assert (Eh : Z.lxor c (Z.shiftl h 8) < 256).
  { apply crc_step_low_byte; [apply register_with_byte_range; assumption|].
    rewrite <- crc_process_byte_step by assumption. fold r. rewrite Er.
    change 255 with (Z.ones 8). rewrite Z.land_ones by lia.
    change (2 ^ 8) with 256. rewrite Z.mul_comm. apply Z.mod_mul. lia. }
  assert (Hh' : h = c / 256).
  { pose proof (register_with_byte_range c h Hc Hh) as HR.
    assert (E8 : Z.shiftr (Z.lxor c (Z.shiftl h 8)) 8 = 0).
    { rewrite Z.shiftr_div_pow2 by lia. apply Z.div_small. change (2 ^ 8) with 256. lia. }
    rewrite Z.shiftr_lxor, Z.shiftr_shiftl_l in E8 by lia.
    rewrite Z.sub_diag, Z.shiftl_0_r in E8.
    apply Z.lxor_eq in E8. rewrite Z.shiftr_div_pow2 in E8 by lia.
    change (2 ^ 8) with 256 in E8. congruence. }
  split; [exact Hh'|].
  unfold r in Er. rewrite Hh', crc_process_high_byte in Er by exact Hc. lia.
Qed.

(** X6: what [decode] accepts, [encode] gives back.  For every sequence
    of bytes that [decode] accepts, encoding the decoded address and
    application bytes returns that sequence, and the [crc_value] that
    [decode] returned is the checksum of the address and the application
    bytes: the sequences that [decode] accepts are the ones that [encode]
    produces. *)
Theorem data_link_encode_decode (raw : bytes) (d : DataLinkData.t) :
  is_bytes raw ->
  DataLinkCodec.decode raw = Ok d ->
  DataLinkCodec.encode d = Ok raw
  /\ DataLinkData.crc_value d
     = Some (crc.checksum DataLinkCodec.crc_calculator
               (DataLinkData.destination_address d :: DataLinkData.application_bytes d)).
Proof.
  intros Hraw H.
  destruct (data_link_decode_accepted raw d H) as (addr & app & h & l & -> & Happ & E & ->).
  cbn [DataLinkData.destination_address DataLinkData.application_bytes
       DataLinkData.crc_value].
  apply Forall_cons_iff in Hraw. destruct Hraw as [Haddr Hrest].
  apply Forall_app in Hrest. destruct Hrest as [Happb Hhl].
  apply Forall_cons_iff in Hhl. destruct Hhl as [Hh Hl].
  apply Forall_cons_iff in Hl. destruct Hl as [Hl _].
  change (addr :: app ++ [h; l]) with ((addr :: app) ++ [h; l]) in E.
  apply crc_trailer_is_checksum in E;
    [|apply Forall_cons; assumption | assumption | assumption].
  cbv zeta in E. destruct E as [Eh El].
  set (c := crc.checksum DataLinkCodec.crc_calculator (addr :: app)) in *.
  pose proof (crc_checksum_range (addr :: app)) as Hc. fold c in Hc.
  split.
  - unfold DataLinkCodec.encode.
    cbn [DataLinkData.destination_address DataLinkData.application_bytes].
    rewrite to_bytes_1 by exact Haddr.
    replace (py.len app <? DataLinkCodec.APPLICATION_BYTES_LENGTH_MIN) with false.
    2:{ symmetry. apply Z.ltb_ge. unfold DataLinkCodec.APPLICATION_BYTES_LENGTH_MIN.
        destruct app; [congruence|]. rewrite len_cons. pose proof (len_nonneg app). lia. }
    change ([addr] ++ app) with (addr :: app). fold c.
    rewrite to_bytes_2 by exact Hc. rewrite Eh, El. reflexivity.
  - f_equal. rewrite Eh, El. pose proof (Z.div_mod c 256). lia.
Qed.

Lemma data_link_encode_decode_witness :
  DataLinkCodec.encode
    (DataLinkData.mk 0x3F [0x02; 0x01; 0x23; 0x45; 0x67] (Some 0xE956))
  = Ok [0x3F; 0x02; 0x01; 0x23; 0x45; 0x67; 0xE9; 0x56]
  /\ Some 0xE956
     = Some (crc.checksum DataLinkCodec.crc_calculator
               [0x3F; 0x02; 0x01; 0x23; 0x45; 0x67]).
Proof.
  apply (data_link_encode_decode
           [0x3F; 0x02; 0x01; 0x23; 0x45; 0x67; 0xE9; 0x56]
           (DataLinkData.mk 0x3F [0x02; 0x01; 0x23; 0x45; 0x67] (Some 0xE956))).
  - repeat constructor; unfold is_byte; lia.
  - vm_compute. reflexivity.
Defined.

(** X7: a frame with one byte changed is refused.  When [decode] accepts
    a sequence of bytes, it raises [CrcChecksumInvalidError] for every
    sequence that differs from it in exactly one byte, whichever byte it is:
    the address, an application byte or a byte of the checksum. *)
Theorem data_link_detects_changed_byte
    (pre post : bytes) (b b' : Z) (d : DataLinkData.t) :
  is_bytes (pre ++ b :: post) -> is_byte b' -> b' <> b ->
  DataLinkCodec.decode (pre ++ b :: post) = Ok d ->
  DataLinkCodec.decode (pre ++ b' :: post) = Raise CrcChecksumInvalidError.
Proof.
  intros Hraw Hb' Hne H.
  apply Forall_app in Hraw. destruct Hraw as [Hpre Hrest].
  apply Forall_cons_iff in Hrest. destruct Hrest as [Hb Hpost].
  assert (Hlen : py.len (pre ++ b' :: post) = py.len (pre ++ b :: post)).
  { rewrite !len_app, !len_cons. reflexivity. }
  destruct (data_link_decode_accepted _ d H) as (addr & app & h & l & Eraw & Happ & E & _).
  assert (H4 : 4 <= py.len (pre ++ b' :: post)).
  { rewrite Hlen, Eraw, len_cons, len_app.
    destruct app; [congruence|]. rewrite !len_cons. pose proof (len_nonneg app).
    change (py.len (@nil Z)) with 0. lia. }
  destruct (data_link_frame_parts _ H4) as (addr' & app' & h' & l' & E' & Happ').
  rewrite E', data_link_decode_parts by exact Happ'. rewrite <- E'.
  replace (crc.checksum DataLinkCodec.crc_calculator (pre ++ b' :: post) =? 0) with false;
    [reflexivity|].
  symmetry. apply Z.eqb_neq. rewrite <- E.
  apply crc_checksum_one_byte; assumption.
Qed.

Lemma data_link_detects_changed_byte_witness :
  DataLinkCodec.decode [0x3F; 0x02; 0x01; 0x22; 0x45; 0x67; 0xE9; 0x56]
  = Raise CrcChecksumInvalidError.
Proof.
  apply (data_link_detects_changed_byte
           [0x3F; 0x02; 0x01] [0x45; 0x67; 0xE9; 0x56] 0x23 0x22
           (DataLinkData.mk 0x3F [0x02; 0x01; 0x23; 0x45; 0x67] (Some 0xE956))).
  - repeat constructor; unfold is_byte; lia.
  - unfold is_byte. lia.
  - discriminate.
  - vm_compute. reflexivity.
Defined.

(** X8: a zero byte in front of a frame goes unnoticed.  The register of
    the checksum starts at zero and a zero byte leaves it at zero, so when
    [decode] accepts a sequence of bytes it also accepts the sequence with a
    zero byte in front: it returns address 0, and the former address as the
    first application byte. *)
Theorem data_link_leading_zero_accepted (raw : bytes) (d : DataLinkData.t) :
  DataLinkCodec.decode raw = Ok d ->
  DataLinkCodec.decode (0 :: raw)
  = Ok (DataLinkData.mk 0
          (DataLinkData.destination_address d :: DataLinkData.application_bytes d)
          (DataLinkData.crc_value d)).
Proof.
  intros H.
  destruct (data_link_decode_accepted raw d H) as (addr & app & h & l & -> & Happ & E & ->).
  cbn [DataLinkData.destination_address DataLinkData.application_bytes
       DataLinkData.crc_value].
  change (0 :: addr :: app ++ [h; l]) with (0 :: (addr :: app) ++ [h; l]).
  rewrite data_link_decode_parts by discriminate.
  replace (crc.checksum DataLinkCodec.crc_calculator (0 :: (addr :: app) ++ [h; l]))
    with (crc.checksum DataLinkCodec.crc_calculator (addr :: app ++ [h; l])).
  - rewrite E. reflexivity.
  - rewrite !crc_checksum_eq. reflexivity.
Qed.

Lemma data_link_leading_zero_accepted_witness :
  DataLinkCodec.decode [0x00; 0x3F; 0x02; 0x01; 0x23; 0x45; 0x67; 0xE9; 0x56]
  = Ok (DataLinkData.mk 0 [0x3F; 0x02; 0x01; 0x23; 0x45; 0x67] (Some 0xE956)).
Proof.
  apply (data_link_leading_zero_accepted
           [0x3F; 0x02; 0x01; 0x23; 0x45; 0x67; 0xE9; 0x56]
           (DataLinkData.mk 0x3F [0x02; 0x01; 0x23; 0x45; 0x67] (Some 0xE956))).
  vm_compute. reflexivity.
Defined.

(** *** Two bytes next to each other *)

(** The low byte of a step tells the high byte of the register it was made
    from. *)
Lemma crc_step_high_byte (R : Z) :
  0 <= R < 65536 ->
  nth (Z.to_nat (Z.land (crc_step R) 255)) crc_low_byte_index 0 = Z.shiftr R 8.
Proof.
  intros HR. apply Z.eqb_eq.
  apply (forall_below_65536
           (fun R =>
              nth (Z.to_nat (Z.land (crc_step R) 255)) crc_low_byte_index 0
              =? Z.shiftr R 8)); [|exact HR].
  vm_compute. reflexivity.
Qed.

Lemma lxor_move (a b x y : Z) : Z.lxor a x = Z.lxor b y -> Z.lxor a b = Z.lxor x y.
Proof.
  intros H. apply Z.bits_inj'. intros n Hn.
  apply (f_equal (fun z => Z.testbit z n)) in H.
  rewrite !Z.lxor_spec in *.
  destruct (Z.testbit a n), (Z.testbit b n), (Z.testbit x n), (Z.testbit y n);
    cbn in *; congruence.
Qed.

Lemma shiftl_8_low_byte (z : Z) : Z.land (Z.shiftl z 8) 255 = 0.
Proof.
  change 255 with (Z.ones 8). rewrite Z.land_ones, Z.shiftl_mul_pow2 by lia.
  apply Z.mod_mul. lia.
Qed.

Lemma register_high_byte (r b : Z) :
  Z.shiftr (Z.lxor r (Z.shiftl b 8)) 8 = Z.lxor (Z.shiftr r 8) b.
Proof.
  rewrite Z.shiftr_lxor, Z.shiftr_shiftl_l by lia.
  rewrite Z.sub_diag, Z.shiftl_0_r. reflexivity.
Qed.

(** Two bytes fed to the same register: the register after them tells
    them. *)
Lemma crc_process_two_bytes_injective (c b1 b2 b1' b2' : Z) :
  0 <= c < 65536 ->
  is_byte b1 -> is_byte b2 -> is_byte b1' -> is_byte b2' ->
  crc._process_byte DataLinkCodec.crc_calculator
    (crc._process_byte DataLinkCodec.crc_calculator c b1) b2
  = crc._process_byte DataLinkCodec.crc_calculator
      (crc._process_byte DataLinkCodec.crc_calculator c b1') b2' ->
  b1 = b1' /\ b2 = b2'.
Proof.
  unfold is_byte. intros Hc H1 H2 H1' H2' E.
  set (r := crc._process_byte DataLinkCodec.crc_calculator c b1) in *.
  set (r' := crc._process_byte DataLinkCodec.crc_calculator c b1') in *.
  assert (Hr : 0 <= r < 65536) by apply crc_process_byte_range.
  assert (Hr' : 0 <= r' < 65536) by apply crc_process_byte_range.
  rewrite !crc_process_byte_step in E by assumption.
  apply crc_step_injective in E; try (apply register_with_byte_range; assumption).
  (* the two registers in between have the same low byte *)
  assert (Elow : Z.land r 255 = Z.land r' 255).
  { apply lxor_move in E. apply Z.lxor_eq.
    rewrite <- land_lxor_distr, E, land_lxor_distr, !shiftl_8_low_byte. reflexivity. }
  (* so they were made from registers with the same high byte *)
  assert (E1 : b1 = b1').
  { unfold r, r' in Elow. rewrite !crc_process_byte_step in Elow by assumption.
    pose proof (crc_step_high_byte _ (register_with_byte_range c b1 Hc H1)) as Ha.
    pose proof (crc_step_high_byte _ (register_with_byte_range c b1' Hc H1')) as Hb.
    rewrite Elow, Hb, !register_high_byte in Ha.
    apply lxor_cancel_l in Ha. congruence. }
  split; [exact E1|].
  assert (Er : r = r') by (unfold r, r'; rewrite E1; reflexivity).
  rewrite Er in E. apply lxor_cancel_l in E.
  rewrite !Z.shiftl_mul_pow2 in E by lia. lia.
Qed.

(** X9: a frame with two neighbouring bytes changed is refused.  When
    [decode] accepts a sequence of bytes, it raises
    [CrcChecksumInvalidError] for every sequence that differs from it in two
    bytes next to each other, or in one of them, and nowhere else. *)
Theorem data_link_detects_changed_pair
    (pre post : bytes) (b1 b2 b1' b2' : Z) (d : DataLinkData.t) :
  is_bytes (pre ++ b1 :: b2 :: post) -> is_byte b1' -> is_byte b2' ->
  (b1', b2') <> (b1, b2) ->
  DataLinkCodec.decode (pre ++ b1 :: b2 :: post) = Ok d ->
  DataLinkCodec.decode (pre ++ b1' :: b2' :: post) = Raise CrcChecksumInvalidError.
Proof.
  intros Hraw Hb1' Hb2' Hne H.
  apply Forall_app in Hraw. destruct Hraw as [Hpre Hrest].
  apply Forall_cons_iff in Hrest. destruct Hrest as [Hb1 Hrest].
  apply Forall_cons_iff in Hrest. destruct Hrest as [Hb2 Hpost].
  assert (Hlen : py.len (pre ++ b1' :: b2' :: post) = py.len (pre ++ b1 :: b2 :: post)).
  { rewrite !len_app, !len_cons. reflexivity. }
  destruct (data_link_decode_accepted _ d H) as (addr & app & h & l & Eraw & Happ & E & _).
  assert (H4 : 4 <= py.len (pre ++ b1' :: b2' :: post)).
  { rewrite Hlen, Eraw, len_cons, len_app.
    destruct app; [congruence|]. rewrite !len_cons. pose proof (len_nonneg app).
    change (py.len (@nil Z)) with 0. lia. }
  destruct (data_link_frame_parts _ H4) as (addr' & app' & h' & l' & E' & Happ').
  rewrite E', data_link_decode_parts by exact Happ'. rewrite <- E'.
  replace (crc.checksum DataLinkCodec.crc_calculator (pre ++ b1' :: b2' :: post) =? 0)
    with false; [reflexivity|].
  symmetry. apply Z.eqb_neq. rewrite <- E. intros Eq.
  rewrite !crc_checksum_eq, !crc_update_app in Eq.
  change (b1' :: b2' :: post) with ([b1'; b2'] ++ post) in Eq.
  change (b1 :: b2 :: post) with ([b1; b2] ++ post) in Eq.
  rewrite !crc_update_app in Eq.
  apply (crc_update_injective post Hpost) in Eq;
    try (apply crc_update_range; apply crc_update_range; lia).
  cbn [crc.update fold_left] in Eq.
  change (crc.reverse_input (crc.configuration DataLinkCodec.crc_calculator))
    with false in Eq. cbv iota in Eq.
  apply crc_process_two_bytes_injective in Eq; try assumption.
  - destruct Eq as [-> ->]. apply Hne. reflexivity.
  - apply (crc_update_range pre 0). lia.
Qed.

Lemma data_link_detects_changed_pair_witness :
  DataLinkCodec.decode [0x3F; 0x02; 0x01; 0x22; 0x46; 0x67; 0xE9; 0x56]
  = Raise CrcChecksumInvalidError.
Proof.
  apply (data_link_detects_changed_pair
           [0x3F; 0x02; 0x01] [0x67; 0xE9; 0x56] 0x23 0x45 0x22 0x46
           (DataLinkData.mk 0x3F [0x02; 0x01; 0x23; 0x45; 0x67] (Some 0xE956))).
  - repeat constructor; unfold is_byte; lia.
  - unfold is_byte. lia.
  - unfold is_byte. lia.
  - discriminate.
  - vm_compute. reflexivity.
Defined.

(** ** The application layer *)

Lemma application_decode_cons (cid : Z) (data : bytes) :
  ApplicationCodec.decode (cid :: data) = Ok (ApplicationData.mk cid data).
Proof.
  unfold ApplicationCodec.decode. rewrite len_cons.
  pose proof (len_nonneg data) as Hlen.
  replace (1 + py.len data >=? ApplicationCodec.APPLICATION_BYTES_LENGTH_MIN) with true
    by (symmetry; apply Z.geb_le; unfold ApplicationCodec.APPLICATION_BYTES_LENGTH_MIN; lia).
  cbn [negb]. f_equal. f_equal.
  rewrite slice_from by (rewrite len_cons; lia). reflexivity.
Qed.

Lemma application_encode_byte (cid : Z) (data : bytes) :
  0 <= cid <= 255 ->
  ApplicationCodec.encode (ApplicationData.mk cid data) = Ok (cid :: data).
Proof.
  intros H. unfold ApplicationCodec.encode. cbn [ApplicationData.command_id ApplicationData.data].
  rewrite to_bytes_1 by lia. reflexivity.
Qed.

Lemma to_bytes_1_none (n : Z) : ~ 0 <= n <= 255 -> py.to_bytes n 1 = None.
Proof.
  intros H. unfold py.to_bytes. change (256 ^ Z.of_nat 1) with 256.
  destruct (Z.leb_spec 0 n); [|reflexivity].
  destruct (Z.ltb_spec n 256); [lia | reflexivity].
Qed.

(** X10: the two round trips of the application codec and what it refuses.
    For a command ID in [0, 255], [encode] returns the command ID followed by
    the data, and [decode] of that returns the command ID and the data; for a
    command ID outside of [0, 255], [encode] raises the out-of-range error.
    [decode] accepts every sequence of bytes but the empty one, with the
    first byte as the command ID, and [encode] of what it returns gives the
    sequence back. *)
Theorem application_codec_round_trips :
  (forall d : ApplicationData.t,
     0 <= ApplicationData.command_id d <= 255 ->
     ApplicationCodec.encode d
     = Ok (ApplicationData.command_id d :: ApplicationData.data d)
     /\ ApplicationCodec.decode (ApplicationData.command_id d :: ApplicationData.data d)
        = Ok d)
  /\ (forall d : ApplicationData.t,
        ~ 0 <= ApplicationData.command_id d <= 255 ->
        ApplicationCodec.encode d
        = Raise (OutOfRangeError "Command ID" (Some 0, Some 255)
                   (ApplicationData.command_id d)))
  /\ (forall data : bytes,
        is_bytes data -> data <> [] ->
        exists d : ApplicationData.t,
          ApplicationCodec.decode data = Ok d
          /\ ApplicationData.command_id d = hd 0 data
          /\ ApplicationCodec.encode d = Ok data)
  /\ ApplicationCodec.decode []
     = Raise (DataLengthUnexpectedError
                "Application data message to destructure" 0 (Some 1) true).
Proof.
  split; [|split; [|split]].
  - intros [cid data] H. cbn [ApplicationData.command_id ApplicationData.data] in *.
    split; [apply application_encode_byte; exact H | apply application_decode_cons].
  - intros [cid data] H. cbn [ApplicationData.command_id ApplicationData.data] in *.
    unfold ApplicationCodec.encode. cbn [ApplicationData.command_id].
    rewrite to_bytes_1_none by exact H. reflexivity.
  - intros data Hb Hne. destruct data as [|cid data]; [congruence|].
    exists (ApplicationData.mk cid data).
    split; [apply application_decode_cons|]. split; [reflexivity|].
    apply application_encode_byte. apply Forall_cons_iff in Hb.
    destruct Hb as [Hb _]. unfold is_byte in Hb. lia.
  - reflexivity.
Qed.

Lemma application_codec_round_trips_witness :
  (ApplicationCodec.encode (ApplicationData.mk 0x10 [0x01; 0x00; 0x80])
   = Ok [0x10; 0x01; 0x00; 0x80]
   /\ ApplicationCodec.decode [0x10; 0x01; 0x00; 0x80]
      = Ok (ApplicationData.mk 0x10 [0x01; 0x00; 0x80]))
  /\ ApplicationCodec.encode (ApplicationData.mk 256 [])
     = Raise (OutOfRangeError "Command ID" (Some 0, Some 255) 256)
  /\ exists d : ApplicationData.t,
       ApplicationCodec.decode [0x02] = Ok d
       /\ ApplicationData.command_id d = 0x02
       /\ ApplicationCodec.encode d = Ok [0x02].
Proof.
  split; [|split].
  - apply (proj1 application_codec_round_trips (ApplicationData.mk 0x10 [0x01; 0x00; 0x80])).
    cbn. lia.
  - apply (proj1 (proj2 application_codec_round_trips) (ApplicationData.mk 256 [])).
    cbn. lia.
  - apply (proj1 (proj2 (proj2 application_codec_round_trips)) [0x02]).
    + repeat constructor; unfold is_byte; lia.
    + discriminate.
Defined.

(** ** More on the floating point format *)
Section FloatCodecFrames.
Import decimal.

(** X11: what [FloatCodec.decode] accepts and what it raises.  A sequence
    of bytes is accepted exactly when it is a length byte [n >= 1], a sign
    and exponent byte and [n] mantissa bytes.  The empty sequence raises the
    length error without an expected length, a length byte of zero raises
    the out-of-range error whatever follows it, and any other sequence
    raises the length error with the expected length [n + 2]. *)
Theorem float_decode_accepts_iff (data : bytes) :
  is_bytes data ->
  ((exists d : Decimal, FloatCodec.decode data = Ok d)
   <-> (exists n se mant, data = n :: se :: mant /\ 1 <= n /\ py.len mant = n))
  /\ (data = [] ->
      FloatCodec.decode data
      = Raise (DataLengthUnexpectedError
                 "Data for floating point decoding" 0 None false))
  /\ (forall rest, data = 0 :: rest ->
      FloatCodec.decode data
      = Raise (OutOfRangeError
                 "Integer length byte value for floating point data decoding"
                 (Some 1, None) 0))
  /\ (forall n rest, data = n :: rest -> n <> 0 -> py.len rest <> n + 1 ->
      FloatCodec.decode data
      = Raise (DataLengthUnexpectedError
                 "Floating point data" (py.len data) (Some (n + 2)) false)).
Proof.
  intros Hb. split; [|split; [|split]].
  - split.
    + intros (d & H). exact (decode_accepts data d Hb H).
    + intros (n & se & mant & -> & Hn & Hlen). eexists.
      apply decode_well_formed; assumption.
  - intros ->. reflexivity.
  - intros rest ->. reflexivity.
  - intros n rest -> Hn Hlen. unfold FloatCodec.decode, FloatCodec._decode_parts.
    change (py.item (n :: rest) 0) with n.
    replace (n =? 0) with false by (symmetry; apply Z.eqb_neq; exact Hn).
    replace (py.len (n :: rest) =? n + 2) with false; [reflexivity|].
    symmetry. apply Z.eqb_neq. rewrite len_cons. lia.
Qed.

Lemma float_decode_accepts_iff_witness :
  ((exists d : Decimal, FloatCodec.decode [0x02; 0x43; 0x30; 0x39] = Ok d)
   <-> (exists n se mant,
          [0x02; 0x43; 0x30; 0x39] = n :: se :: mant /\ 1 <= n /\ py.len mant = n))
  /\ FloatCodec.decode [0x02; 0x43; 0x30]
     = Raise (DataLengthUnexpectedError "Floating point data" 3 (Some 4) false).
Proof.
  split.
  - apply (float_decode_accepts_iff [0x02; 0x43; 0x30; 0x39]).
    repeat constructor; unfold is_byte; lia.
  - assert (Hb : is_bytes [0x02; 0x43; 0x30])
      by (repeat constructor; unfold is_byte; lia).
    apply (proj2 (proj2 (proj2 (float_decode_accepts_iff [0x02; 0x43; 0x30] Hb)))
             0x02 [0x43; 0x30]).
    + reflexivity.
    + discriminate.
    + vm_compute. discriminate.
Defined.

(** X12: what [FloatCodec.decode] returns is a finite decimal within the
    bounds of the format.  For every sequence of bytes that [decode]
    accepts, the decimal has an integer exponent of magnitude at most 63
    (never an infinity or a NaN), its sign is bit 7 of the second byte, its
    digits are decimal digits, and its coefficient is the big-endian number
    of the mantissa bytes, below 256 to the power of their number. *)
Theorem float_decode_range (data : bytes) (d : Decimal) :
  is_bytes data ->
  FloatCodec.decode data = Ok d ->
  exists e : Z,
    exponent d = ExpInt e
    /\ -63 <= e <= 63
    /\ sign d = Z.testbit (py.item data 1) 7
    /\ Forall is_digit (digits d)
    /\ py.int_of_digits (digits d) = py.from_bytes (py.slice (Some 2) None data)
    /\ 0 <= py.int_of_digits (digits d) < 256 ^ (py.len data - 2).
Proof.
  intros Hb H.
  destruct (decode_accepts data d Hb H) as (n & se & mant & -> & Hn & Hlen).
  rewrite decode_well_formed in H by assumption. injection H as <-.
  apply Forall_cons_iff in Hb. destruct Hb as [_ Hb].
  apply Forall_cons_iff in Hb. destruct Hb as [_ Hb].
  pose proof (from_bytes_range mant Hb) as Hr.
  pose proof (Z.mod_pos_bound se 64 ltac:(lia)) as Hse.
  exists (if Z.testbit se 6 then - (se mod 64) else se mod 64).
  cbn [exponent sign digits].
  split; [reflexivity|]. split; [destruct (Z.testbit se 6); lia|].
  split; [reflexivity|].
  split; [apply str_digits_are_digits; lia|].
  rewrite int_of_str_digits by lia.
  rewrite slice_from by (rewrite !len_cons; pose proof (len_nonneg mant); lia).
  change (skipn (Z.to_nat 2) (n :: se :: mant)) with mant.
  split; [reflexivity|].
  rewrite !len_cons. replace (1 + (1 + py.len mant) - 2) with (py.len mant) by lia.
  exact Hr.
Qed.

Lemma float_decode_range_witness :
  exists e : Z,
    exponent (mkDecimal false [1; 2; 3; 4; 5] (ExpInt (-3))) = ExpInt e
    /\ -63 <= e <= 63
    /\ sign (mkDecimal false [1; 2; 3; 4; 5] (ExpInt (-3)))
       = Z.testbit (py.item [0x02; 0x43; 0x30; 0x39] 1) 7
    /\ Forall is_digit (digits (mkDecimal false [1; 2; 3; 4; 5] (ExpInt (-3))))
    /\ py.int_of_digits (digits (mkDecimal false [1; 2; 3; 4; 5] (ExpInt (-3))))
       = py.from_bytes (py.slice (Some 2) None [0x02; 0x43; 0x30; 0x39])
    /\ 0 <= py.int_of_digits (digits (mkDecimal false [1; 2; 3; 4; 5] (ExpInt (-3))))
       < 256 ^ (py.len [0x02; 0x43; 0x30; 0x39] - 2).
Proof.
  apply (float_decode_range [0x02; 0x43; 0x30; 0x39]).
  - repeat constructor; unfold is_byte; lia.
  - reflexivity.
Defined.

Lemma to_bytes_inv (n : Z) (k : nat) (b : bytes) :
  py.to_bytes n k = Some b -> b = py.big_endian n k /\ 0 <= n < 256 ^ Z.of_nat k.
Proof.
  unfold py.to_bytes. destruct (Z.leb_spec 0 n); [|discriminate].
  destruct (Z.ltb_spec n (256 ^ Z.of_nat k)); [|discriminate].
  cbn [andb]. intros Eb. injection Eb as <-. split; [reflexivity | lia].
Qed.

(** X13: what [FloatCodec.encode] returns is a frame of the format.  For
    every decimal and every choice of [significand_num_bytes], a result of
    [encode] is a length byte [n] in [0, 255], a sign and exponent byte and
    exactly [n] mantissa bytes, all of them bytes; [n] is the requested
    number of bytes when one was given; and [decode] accepts the result
    unless [n] is zero. *)
Theorem float_encode_frame
    (v : Decimal) (significand_num_bytes : option Z) (data : bytes) :
  FloatCodec.encode v significand_num_bytes = Ok data ->
  exists n se mant,
    data = n :: se :: mant
    /\ 0 <= n <= 255
    /\ py.len mant = n
    /\ is_bytes data
    /\ (forall l, significand_num_bytes = Some l -> n = l)
    /\ (n <> 0 -> exists d : Decimal, FloatCodec.decode data = Ok d).
Proof.
  unfold FloatCodec.encode.
  destruct (normalize v) as [dt|]; [|discriminate]. cbn [bind].
  destruct (exponent dt) as [e| | |]; try discriminate.
  set (m := py.int_of_digits (digits dt)).
  set (needed := py.ceil_div8 (py.bit_length m)).
  match goal with
  | |- bind ?r _ = _ -> _ => destruct r as [n|] eqn:Elen; [|cbn [bind]; intros Hx; discriminate Hx]
  end.
  cbn [bind].
  destruct (Z.abs e >? 63); [discriminate|].
  set (se := Z.lor _ _).
  destruct (py.to_bytes n 1) as [nb|] eqn:En; [|discriminate].
  destruct (py.to_bytes se 1) as [sb|] eqn:Es; [|discriminate].
  destruct (py.to_bytes m (Z.to_nat n)) as [mb|] eqn:Em; [|discriminate].
  intros H. injection H as <-.
  apply to_bytes_inv in En, Es, Em.
  destruct En as [-> Hn], Es as [-> Hs], Em as [-> Hm].
  change (256 ^ Z.of_nat 1) with 256 in *.
  exists n, se, (py.big_endian m (Z.to_nat n)).
  assert (Hlenm : py.len (py.big_endian m (Z.to_nat n)) = n).
  { unfold py.len. rewrite length_big_endian. lia. }
  split.
  { cbn. rewrite !Z.mod_small by lia. reflexivity. }
  split; [lia|]. split; [exact Hlenm|]. split.
  { cbn [py.big_endian py.little_endian rev app].
    apply Forall_cons; [apply Z.mod_pos_bound; lia|].
    apply Forall_cons; [apply Z.mod_pos_bound; lia|].
    apply big_endian_is_bytes. }
  split.
  { intros l ->. destruct (needed >? l); [discriminate | congruence]. }
  intros Hn0. eexists.
  replace (py.big_endian n 1) with [n] by (cbn; rewrite Z.mod_small by lia; reflexivity).
  replace (py.big_endian se 1) with [se] by (cbn; rewrite Z.mod_small by lia; reflexivity).
  cbn [app]. apply decode_well_formed; [lia | exact Hlenm].
Qed.

Lemma float_encode_frame_witness :
  exists n se mant,
    [0x04; 0x42; 0x00; 0x00; 0x30; 0x39] = n :: se :: mant
    /\ 0 <= n <= 255
    /\ py.len mant = n
    /\ is_bytes [0x04; 0x42; 0x00; 0x00; 0x30; 0x39]
    /\ (forall l, Some 4 = Some l -> n = l)
    /\ (n <> 0 ->
        exists d : Decimal, FloatCodec.decode [0x04; 0x42; 0x00; 0x00; 0x30; 0x39] = Ok d).
Proof.
  apply (float_encode_frame (mkDecimal false [1; 2; 3; 4; 5] (ExpInt (-2))) (Some 4)).
  vm_compute. reflexivity.
Defined.

(** X14: a length above 255 is not refused as out of range.  For a
    decimal whose normal form has an exponent of magnitude at most 63 and a
    mantissa that fits [L] bytes, [encode] with [significand_num_bytes = L]
    and [L > 255] raises the [OverflowError] of [int.to_bytes] for the
    length byte: the length is checked against the mantissa only, not
    against the one byte that has to hold it. *)
Theorem float_encode_length_overflow (v nv : Decimal) (e L : Z) :
  normalize v = Ok nv ->
  exponent nv = ExpInt e ->
  Z.abs e <= 63 ->
  py.ceil_div8 (py.bit_length (py.int_of_digits (digits nv))) <= L ->
  255 < L ->
  FloatCodec.encode v (Some L) = Raise OverflowError.
Proof.
  intros Hnorm Hexp He Hfit HL. unfold FloatCodec.encode.
  rewrite Hnorm. cbn [bind]. rewrite Hexp.
  replace (py.ceil_div8 (py.bit_length (py.int_of_digits (digits nv))) >? L) with false
    by (symmetry; rewrite Z.gtb_ltb; apply Z.ltb_ge; lia).
  cbn [bind].
  replace (Z.abs e >? 63) with false
    by (symmetry; rewrite Z.gtb_ltb; apply Z.ltb_ge; lia).
  replace (py.to_bytes L 1) with (@None bytes); [reflexivity|].
  symmetry. unfold py.to_bytes. change (256 ^ Z.of_nat 1) with 256.
  replace (L <? 256) with false by (symmetry; apply Z.ltb_ge; lia).
  rewrite andb_false_r. reflexivity.
Qed.

Lemma float_encode_length_overflow_witness :
  FloatCodec.encode (mkDecimal false [1; 2; 3] (ExpInt 0)) (Some 256)
  = Raise OverflowError.
Proof.
  apply (float_encode_length_overflow
           (mkDecimal false [1; 2; 3] (ExpInt 0))
           (mkDecimal false [1; 2; 3] (ExpInt 0)) 0 256).
  - reflexivity.
  - reflexivity.
  - cbn. lia.
  - vm_compute. discriminate.
  - lia.
Defined.

(** *** Zero *)

Lemma normalize_zero (v : Decimal) (e : Z) :
  exponent v = ExpInt e ->
  py.int_of_digits (digits v) = 0 ->
  normalize v = Ok (mkDecimal (sign v) [0] (ExpInt 0)).
Proof.
  intros He Hz. unfold normalize, _fix. rewrite He.
  destruct (py.len (digits v) <=? prec) eqn:Ep.
  - rewrite Hz. reflexivity.
  - apply Z.leb_gt in Ep. rewrite Hz.
    set (k := py.len (digits v) - prec).
    assert (Hk : 0 < k) by (unfold k; lia).
    rewrite Z.div_0_l, Z.mod_0_l by (apply Z.pow_nonzero; lia).
    assert (Hhalf : 0 < 5 * 10 ^ (k - 1)).
    { pose proof (Z.pow_pos_nonneg 10 (k - 1)). lia. }
    replace (5 * 10 ^ (k - 1) <? 0) with false by (symmetry; apply Z.ltb_ge; lia).
    replace (0 =? 5 * 10 ^ (k - 1)) with false by (symmetry; apply Z.eqb_neq; lia).
    cbn [orb andb].
    replace (0 =? 10 ^ prec) with false by reflexivity.
    reflexivity.
Qed.

Lemma big_endian_zero (k : nat) : py.big_endian 0 k = repeat 0 k.
Proof.
  induction k as [|k IH]; [reflexivity|].
  rewrite big_endian_succ. change (0 / 256) with 0. change (0 mod 256) with 0.
  rewrite IH. cbn [repeat]. symmetry. apply repeat_cons.
Qed.

(** X15: zero needs a given length.  For every finite decimal whose
    coefficient is zero, of either sign, [encode] without
    [significand_num_bytes] returns the two bytes [00] and the sign byte,
    which [decode] refuses with the out-of-range error of the length byte;
    with [significand_num_bytes = L], [1 <= L <= 255], it returns [L], the
    sign byte and [L] zero bytes, which [decode] reads as the zero of that
    sign with exponent 0. *)
Theorem float_encode_zero (v : Decimal) (e : Z) :
  exponent v = ExpInt e ->
  py.int_of_digits (digits v) = 0 ->
  let sign_byte := if sign v then 0x80 else 0x00 in
  FloatCodec.encode v None = Ok [0x00; sign_byte]
  /\ FloatCodec.decode [0x00; sign_byte]
     = Raise (OutOfRangeError
                "Integer length byte value for floating point data decoding"
                (Some 1, None) 0)
  /\ (forall L, 1 <= L <= 255 ->
        FloatCodec.encode v (Some L) = Ok (L :: sign_byte :: repeat 0 (Z.to_nat L))
        /\ FloatCodec.decode (L :: sign_byte :: repeat 0 (Z.to_nat L))
           = Ok (mkDecimal (sign v) [0] (ExpInt 0))).
Proof.
  intros He Hz sign_byte.
  pose proof (normalize_zero v e He Hz) as Hnorm.
  assert (Hse : sign_exp_of (sign v) (0 <? 0) (Z.abs 0) = sign_byte)
    by (unfold sign_byte; destruct (sign v); reflexivity).
  split; [|split].
  - unfold FloatCodec.encode. rewrite Hnorm. unfold sign_byte.
    destruct (sign v); reflexivity.
  - reflexivity.
  - intros L HL.
    assert (Hdig : Forall is_digit [0])
      by (constructor; [unfold is_digit; lia | constructor]).
    split.
    + rewrite (encode_normalized v (sign v) [0] 0 (Some L) Hnorm Hdig);
        [| cbn; lia | cbn; lia].
      rewrite Hse. change (py.int_of_digits [0]) with 0.
      rewrite big_endian_zero. reflexivity.
    + rewrite <- big_endian_zero, <- Hse.
      rewrite decode_encoded; [reflexivity | cbn; lia | lia |].
      split; [lia | apply Z.pow_pos_nonneg; lia].
Qed.

Lemma float_encode_zero_witness :
  FloatCodec.encode (mkDecimal true [0; 0] (ExpInt 3)) None = Ok [0x00; 0x80]
  /\ FloatCodec.decode [0x00; 0x80]
     = Raise (OutOfRangeError
                "Integer length byte value for floating point data decoding"
                (Some 1, None) 0)
  /\ (forall L, 1 <= L <= 255 ->
        FloatCodec.encode (mkDecimal true [0; 0] (ExpInt 3)) (Some L)
        = Ok (L :: 0x80 :: repeat 0 (Z.to_nat L))
        /\ FloatCodec.decode (L :: 0x80 :: repeat 0 (Z.to_nat L))
           = Ok (mkDecimal true [0] (ExpInt 0))).
Proof.
  apply (float_encode_zero (mkDecimal true [0; 0] (ExpInt 3)) 3); reflexivity.
Defined.

(** *** Equal decimals *)





End FloatCodecFrames.

(** ** The two round trips of [GetRegisterResponse] *)
Section GetRegisterResponseRoundTrips.
Import logging.

Lemma warnings_app (a b : list LogRecord) :
  warnings_and_up (a ++ b) = warnings_and_up a ++ warnings_and_up b.
Proof. apply filter_app. Qed.

(** What [_decode_one_register_value] returns, read backwards. *)
Lemma decode_one_register_inv
    (raw rest : bytes) (r : RegisterData) (logs : list LogRecord) :
  is_bytes raw ->
  GetRegisterResponse._decode_one_register_value raw = (logs, Ok (r, rest)) ->
  exists a b u L body,
    raw = a :: b :: u :: L :: body ++ rest
    /\ r = mkRegisterData (a * 256 + b) u (L :: body)
    /\ 0 <= L /\ py.len body = L + 1
    /\ logs = record_debug raw
                :: (if (0 <? py.len rest) && (py.len rest <? 6)
                    then [short_remainder_warning (py.len rest)] else []).
Proof.
  intros Hbytes H.
  assert (Hcond : 6 <= py.len raw /\ 5 + py.item raw 3 <= py.len raw).
  { revert H. unfold GetRegisterResponse._decode_one_register_value.
    cbv [GetRegisterResponse.REGISTER_ID_LENGTH_ENCODED
         GetRegisterResponse.REGISTER_UNIT_LENGTH_ENCODED
         GetRegisterResponse.REGISTER_VALUE_LENGTH_LENGTH_ENCODED
         GetRegisterResponse.REGISTER_VALUE_FORMAT_LENGTH_ENCODED].
    change (2 + 1 + 1 + 1 + 1) with 6.
    destruct (py.len raw <? 6) eqn:Emin; [discriminate|].
    apply Z.ltb_ge in Emin.
    destruct (py.len raw >=? 4 + (py.item raw 3 + 1)) eqn:Elen; [|discriminate].
    apply Z.geb_le in Elen. intros _. lia. }
  destruct Hcond as [Hmin Hlen].
  pose proof (item_is_byte raw 3 Hbytes ltac:(lia)) as HL. unfold is_byte in HL.
  destruct raw as [|a [|b [|u [|L tail]]]];
    try (cbn in Hmin; lia).
  change (py.item (a :: b :: u :: L :: tail) 3) with L in *.
  rewrite !len_cons in Hlen.
  set (body := firstn (Z.to_nat (L + 1)) tail).
  set (rest' := skipn (Z.to_nat (L + 1)) tail).
  assert (Etail : tail = body ++ rest') by (symmetry; apply firstn_skipn).
  assert (Hbody : py.len body = L + 1).
  { unfold body, py.len. rewrite length_firstn. unfold py.len in Hlen. lia. }
  rewrite Etail in H.
  rewrite (decode_one_register a b u L body rest' ltac:(lia) Hbody) in H.
  2:{ rewrite <- Etail. exact Hmin. }
  injection H as Hlogs Hr Hrest. subst rest.
  exists a, b, u, L, body.
  split; [rewrite Etail; reflexivity|].
  split; [rewrite <- Hr; cbn [py.from_bytes fold_left]; f_equal; lia|].
  split; [lia|]. split; [exact Hbody|].
  rewrite <- Hlogs, Etail. reflexivity.
Qed.

Lemma encode_decoded_register (a b u L : Z) (body : bytes) :
  is_byte a -> is_byte b -> is_byte u ->
  GetRegisterResponse._encode_one_register_value
    (mkRegisterData (a * 256 + b) u (L :: body))
  = Ok (a :: b :: u :: L :: body).
Proof.
  unfold is_byte. intros Ha Hb Hu.
  unfold GetRegisterResponse._encode_one_register_value. cbn [id_ unit value].
  rewrite to_bytes_2, to_bytes_1 by lia.
  replace ((a * 256 + b) / 256) with a by (apply Z.div_unique with b; lia).
  replace ((a * 256 + b) mod 256) with b by (apply Z.mod_unique with a; lia).
  reflexivity.
Qed.

Lemma dict_update_new {V} (d : dict.t V) (key : Z) (v : V) :
  dict.contains d key = false -> dict.update d key v = d ++ [(key, v)].
Proof.
  unfold dict.contains. induction d as [|[k v'] d IH]; [reflexivity|].
  cbn [dict.get dict.update app]. destruct (k =? key); [discriminate|].
  intros H. rewrite IH by exact H. reflexivity.
Qed.

(** The loop of [decode], read backwards: a run without a warning has
    appended the records of the buffer to the registers, one entry each. *)
Lemma decode_loop_inv (fuel : nat) :
  forall (raw : bytes) (registers registers' : dict.t RegisterData)
         (logs : list LogRecord),
    is_bytes raw -> (List.length raw <= fuel)%nat ->
    GetRegisterResponse.decode_loop fuel raw registers = (logs, Ok registers') ->
    warnings_and_up logs = [] ->
    exists records,
      GetRegisterResponse.join_encoded records = Ok raw
      /\ registers' = registers ++ registers_of records.
Proof.
  induction fuel as [|fuel IH]; intros raw registers registers' logs Hbytes Hfuel H Hw.
  - destruct raw; [|cbn in Hfuel; lia]. cbn in H. injection H as _ <-.
    exists []. split; [reflexivity | symmetry; apply app_nil_r].
  - destruct raw as [|x raw].
    { cbn in H. injection H as _ <-.
      exists []. split; [reflexivity | symmetry; apply app_nil_r]. }
    rewrite decode_loop_step in H by discriminate.
    destruct (GetRegisterResponse._decode_one_register_value (x :: raw))
      as [logs1 [[r rest]|e]] eqn:Eone; [|discriminate H].
    destruct (decode_one_register_shortens _ _ _ _ Hbytes Eone) as [Hlt Hrestb].
    destruct (decode_one_register_inv _ _ _ _ Hbytes Eone)
      as (a & b & u & L & body & Eraw & Er & HL & Hbody & Elogs).
    rewrite bindL_ok in H. cbn [fst snd] in H.
    rewrite bindL_ok in H. cbn [fst snd] in H.
    destruct (dict.contains registers (id_ r)) eqn:Edup.
    + exfalso. rewrite bindL_ok in H. cbn [fst snd] in H.
      injection H as Hlogs _. rewrite <- Hlogs in Hw.
      rewrite warnings_app in Hw.
      apply app_eq_nil in Hw. destruct Hw as [_ Hw].
      rewrite warnings_cons_debug, warnings_cons_warning in Hw by reflexivity.
      discriminate Hw.
    + unfold ret at 1 in H. rewrite bindL_ok in H. cbn [fst snd app] in H.
      destruct (GetRegisterResponse.decode_loop fuel rest
                  (dict.update registers (id_ r) r)) as [logs2 res2] eqn:Eloop.
      cbn [fst snd] in H. injection H as Hlogs Hres. subst res2.
      assert (Hw2 : warnings_and_up logs2 = []).
      { rewrite <- Hlogs in Hw. rewrite warnings_app in Hw.
        apply app_eq_nil in Hw. destruct Hw as [_ Hw].
        rewrite warnings_cons_debug in Hw by reflexivity. exact Hw. }
      assert (Hfuel' : (List.length rest <= fuel)%nat)
        by (cbn [List.length] in Hlt, Hfuel; lia).
      destruct (IH rest _ _ _ Hrestb Hfuel' Eloop Hw2) as (records & Hjoin & Hregs).
      exists (r :: records). split.
      * cbn [GetRegisterResponse.join_encoded]. rewrite Er.
        rewrite Eraw in Hbytes.
        apply Forall_cons_iff in Hbytes. destruct Hbytes as [Ha Hbytes].
        apply Forall_cons_iff in Hbytes. destruct Hbytes as [Hb Hbytes].
        apply Forall_cons_iff in Hbytes. destruct Hbytes as [Hu Hbytes].
        rewrite encode_decoded_register by assumption.
        cbn [bind]. rewrite Hjoin. cbn [bind]. rewrite Eraw.
        cbn [app]. reflexivity.
      * rewrite Hregs, dict_update_new by exact Edup.
        rewrite <- app_assoc. reflexivity.
Qed.

(** X17: what [GetRegisterResponse.decode] accepts without a warning,
    [encode] gives back.  For every application data of bytes that [decode]
    accepts without logging a warning, encoding the decoded response
    returns the same command ID and the same data. *)
Theorem get_register_encode_decode
    (data : ApplicationData.t) (logs : list LogRecord)
    (response : GetRegisterResponse.t) :
  is_bytes (ApplicationData.data data) ->
  GetRegisterResponse.decode data = (logs, Ok response) ->
  warnings_and_up logs = [] ->
  GetRegisterResponse.encode response = Ok data.
Proof.
  destruct data as [cid payload]. cbn [ApplicationData.data]. intros Hbytes H Hw.
  assert (Hcid : cid = constants.CommandId.GET_REGISTER).
  { unfold GetRegisterResponse.decode, _decode_validate_command_id in H.
    cbn [ApplicationData.command_id] in H.
    destruct (Z.eqb_spec cid GetRegisterResponse.command_id) as [E|]; [exact E|].
    discriminate H. }
  subst cid. rewrite decode_get_register in H.
  destruct (GetRegisterResponse.decode_loop (List.length payload) payload [])
    as [logs1 [registers|e]] eqn:Eloop; [|discriminate H].
  rewrite bindL_ok in H. cbn [fst snd ret] in H. injection H as Hlogs Hresp.
  rewrite app_nil_r in Hlogs. subst logs1.
  destruct (decode_loop_inv _ _ _ _ _ Hbytes (le_n _) Eloop Hw) as (records & Hjoin & Hregs).
  subst response. unfold GetRegisterResponse.encode.
  cbn [GetRegisterResponse.registers]. rewrite Hregs. cbn [app].
  unfold dict.values, registers_of. rewrite map_map. cbn [snd].
  rewrite map_id, Hjoin. reflexivity.
Qed.

Lemma get_register_encode_decode_witness :
  GetRegisterResponse.encode
    (GetRegisterResponse.mk
       [(128, mkRegisterData 128 0x16 [0x04; 0x11; 0x01; 0x2A; 0xF0; 0x24])]
       (Some [0x00; 0x80; 0x16; 0x04; 0x11; 0x01; 0x2A; 0xF0; 0x24]))
  = Ok (ApplicationData.mk 0x10 [0x00; 0x80; 0x16; 0x04; 0x11; 0x01; 0x2A; 0xF0; 0x24]).
Proof.
  eapply (get_register_encode_decode
            (ApplicationData.mk 0x10 [0x00; 0x80; 0x16; 0x04; 0x11; 0x01; 0x2A; 0xF0; 0x24])).
  - repeat constructor; unfold is_byte; lia.
  - reflexivity.
  - reflexivity.
Defined.

(** *** From the response to the bytes and back *)

Lemma join_encoded_wire (records : list RegisterData) :
  Forall wire_register records ->
  exists payload, GetRegisterResponse.join_encoded records = Ok payload.
Proof.
  induction 1 as [|r records Hr _ (rest & IH)].
  - exists []. reflexivity.
  - destruct (encode_wire_register r Hr) as (L & body & _ & _ & _ & E).
    eexists. cbn [GetRegisterResponse.join_encoded]. rewrite E, IH. reflexivity.
Qed.

Lemma fold_update_new (records : list RegisterData) :
  forall d : dict.t RegisterData,
    NoDup (map fst d ++ map id_ records) ->
    fold_left (fun d r => dict.update d (id_ r) r) records d
    = d ++ registers_of records.
Proof.
  induction records as [|r records IH]; intros d Hnd.
  - symmetry. apply app_nil_r.
  - cbn [fold_left]. rewrite dict_update_new.
    + rewrite IH.
      * rewrite <- app_assoc. reflexivity.
      * rewrite map_app. cbn [map fst]. rewrite <- app_assoc. exact Hnd.
    + cbn [map] in Hnd. apply NoDup_remove_2 in Hnd.
      unfold dict.contains. destruct (dict.get d (id_ r)) eqn:E; [|reflexivity].
      exfalso. apply Hnd. apply in_or_app. left.
      clear -E. induction d as [|[k v] d IH]; [discriminate|].
      cbn [dict.get] in E. cbn [map fst].
      destruct (Z.eqb_spec k (id_ r)) as [->|]; [left; reflexivity | right; auto].
Qed.

Lemma duplicate_ids_nodup (records : list RegisterData) :
  forall seen, NoDup (seen ++ map id_ records) -> duplicate_ids seen records = [].
Proof.
  induction records as [|r records IH]; intros seen Hnd; [reflexivity|].
  cbn [duplicate_ids]. cbn [map] in Hnd.
  replace (existsb (Z.eqb (id_ r)) seen) with false.
  - cbn [app]. apply IH. apply NoDup_remove in Hnd.
    cbn [app]. apply NoDup_cons; apply Hnd.
  - symmetry. apply not_true_is_false. intros E.
    apply existsb_exists in E. destruct E as (x & Hin & Ex).
    apply Z.eqb_eq in Ex. subst x.
    apply NoDup_remove_2 in Hnd. apply Hnd. apply in_or_app. left. exact Hin.
Qed.

(** X18: a response is recovered from its encoding.  For registers with
    distinct IDs, each with an ID on two bytes, a unit on one byte and a
    value made of its length byte [L >= 1] and [L + 1] more bytes, held under
    their IDs: [encode] succeeds, and [decode] of the result returns the
    same registers in the same order, with the encoded bytes as [data_raw],
    and logs no warning. *)
Theorem get_register_decode_encode (records : list RegisterData) :
  Forall wire_register records ->
  NoDup (map id_ records) ->
  exists (payload : bytes) (logs : list LogRecord),
    GetRegisterResponse.encode (GetRegisterResponse.mk (registers_of records) None)
    = Ok (ApplicationData.mk constants.CommandId.GET_REGISTER payload)
    /\ GetRegisterResponse.decode
         (ApplicationData.mk constants.CommandId.GET_REGISTER payload)
       = (logs, Ok (GetRegisterResponse.mk (registers_of records) (Some payload)))
    /\ warnings_and_up logs = [].
Proof.
  intros Hwf Hnd.
  destruct (join_encoded_wire records Hwf) as (payload & Hjoin).
  destruct (decode_loop_records records (List.length payload) payload [] []
              Hwf Hjoin (join_encoded_records_le _ _ Hwf Hjoin))
    as (logs & Hloop & Hwarn); [reflexivity|].
  exists payload, logs. split; [|split].
  - unfold GetRegisterResponse.encode. cbn [GetRegisterResponse.registers].
    unfold dict.values, registers_of. rewrite map_map. cbn [snd].
    rewrite map_id, Hjoin. reflexivity.
  - rewrite decode_get_register, Hloop, bindL_ok. cbn [fst snd ret].
    rewrite app_nil_r, (fold_update_new records []) by exact Hnd. reflexivity.
  - rewrite Hwarn, (duplicate_ids_nodup records []) by exact Hnd. reflexivity.
Qed.

Lemma get_register_decode_encode_witness :
  let records :=
    [mkRegisterData 60 0x08 [0x04; 0x42; 0x00; 0x00; 0x30; 0x39];
     mkRegisterData 68 0x28 [0x01; 0x00; 0x07]] in
  exists (payload : bytes) (logs : list LogRecord),
    GetRegisterResponse.encode (GetRegisterResponse.mk (registers_of records) None)
    = Ok (ApplicationData.mk constants.CommandId.GET_REGISTER payload)
    /\ GetRegisterResponse.decode
         (ApplicationData.mk constants.CommandId.GET_REGISTER payload)
       = (logs, Ok (GetRegisterResponse.mk (registers_of records) (Some payload)))
    /\ warnings_and_up logs = [].
Proof.
  intros records. apply (get_register_decode_encode records).
  - repeat constructor; cbn; try lia.
    + exists 4, [0x42; 0x00; 0x00; 0x30; 0x39]. repeat split; lia.
    + exists 1, [0x00; 0x07]. repeat split; lia.
  - repeat constructor; cbn; intuition lia.
Defined.

End GetRegisterResponseRoundTrips.

(** ** The values of the registers *)
Section RegisterValues.
Import logging.

Lemma dict_update_forall {V} (P : Z * V -> Prop) (d : dict.t V) (key : Z) (v : V) :
  Forall P d -> P (key, v) -> (forall k v', P (k, v') -> k = key -> P (k, v)) ->
  Forall P (dict.update d key v).
Proof.
  intros Hd Hv Hk. induction Hd as [|[k v'] d Hkv Hd IH]; cbn [dict.update].
  - constructor; [exact Hv | constructor].
  - destruct (Z.eqb_spec k key) as [E|].
    + constructor; [|exact Hd]. apply (Hk k v' Hkv E).
    + constructor; [exact Hkv | exact IH].
Qed.

Lemma dict_get_in {V} (d : dict.t V) (key : Z) (v : V) :
  dict.get d key = Some v -> In (key, v) d.
Proof.
  induction d as [|[k v'] d IH]; [discriminate|].
  cbn [dict.get]. destruct (Z.eqb_spec k key) as [->|].
  - intros H. injection H as ->. left. reflexivity.
  - intros H. right. apply IH, H.
Qed.

Lemma is_bytes_firstn (n : nat) (s : bytes) : is_bytes s -> is_bytes (firstn n s).
Proof.
  unfold is_bytes. revert s. induction n as [|n IH]; intros s H; [constructor|].
  destruct s as [|x s]; [constructor|]. cbn [firstn].
  inversion H; subst. constructor; [assumption | apply IH; assumption].
Qed.

Lemma decode_loop_registers (fuel : nat) :
  forall (raw : bytes) (registers registers' : dict.t RegisterData)
         (logs : list LogRecord),
    is_bytes raw ->
    Forall decoded_register registers ->
    GetRegisterResponse.decode_loop fuel raw registers = (logs, Ok registers') ->
    Forall decoded_register registers'.
Proof.
  induction fuel as [|fuel IH]; intros raw registers registers' logs Hbytes Hregs H.
  - destruct raw; cbn in H; injection H as _ <-; exact Hregs.
  - destruct raw as [|x raw]; [cbn in H; injection H as _ <-; exact Hregs|].
    rewrite decode_loop_step in H by discriminate.
    destruct (GetRegisterResponse._decode_one_register_value (x :: raw))
      as [logs1 [[r rest]|e]] eqn:Eone; [|discriminate H].
    destruct (decode_one_register_shortens _ _ _ _ Hbytes Eone) as [_ Hrestb].
    destruct (decode_one_register_inv _ _ _ _ Hbytes Eone)
      as (a & b & u & L & body & Eraw & Er & HL & Hbody & _).
    rewrite !bindL_ok in H. cbn [fst snd] in H.
    assert (Hr : decoded_register (id_ r, r)).
    { rewrite Eraw in Hbytes.
      apply Forall_cons_iff in Hbytes. destruct Hbytes as [Ha Hbytes].
      apply Forall_cons_iff in Hbytes. destruct Hbytes as [Hb Hbytes].
      apply Forall_cons_iff in Hbytes. destruct Hbytes as [Hu Hbytes].
      apply Forall_cons_iff in Hbytes. destruct Hbytes as [HLb Hbytes].
      apply Forall_app in Hbytes. destruct Hbytes as [Hbodyb _].
      unfold decoded_register. cbn [fst snd]. rewrite Er. cbn [id_ unit value].
      unfold is_byte in *.
      split; [reflexivity|]. split; [lia|]. split; [exact Hu|].
      split; [apply Forall_cons; assumption|].
      exists L, body. split; [reflexivity | exact Hbody]. }
    assert (Hupd : Forall decoded_register (dict.update registers (id_ r) r)).
    { apply dict_update_forall; [exact Hregs | exact Hr|].
      intros k v' _ ->. exact Hr. }
    destruct (dict.contains registers (id_ r)).
    + rewrite bindL_ok in H. cbn [fst snd] in H.
      destruct (GetRegisterResponse.decode_loop fuel rest
                  (dict.update registers (id_ r) r)) as [logs2 res2] eqn:Eloop.
      cbn [fst snd] in H. injection H as _ ->.
      exact (IH _ _ _ _ Hrestb Hupd Eloop).
    + unfold ret at 1 in H. rewrite bindL_ok in H. cbn [fst snd] in H.
      destruct (GetRegisterResponse.decode_loop fuel rest
                  (dict.update registers (id_ r) r)) as [logs2 res2] eqn:Eloop.
      cbn [fst snd] in H. injection H as _ ->.
      exact (IH _ _ _ _ Hrestb Hupd Eloop).
Qed.

(** X19: every register of a decoded response holds a frame of the
    floating point format.  When [GetRegisterResponse.decode] accepts
    application data of bytes, each register of the response is held under
    its own ID, which lies in [0, 65535]; its unit is a byte; and its value
    is a length byte [L] followed by [L + 1] bytes.  [FloatCodec.decode], to
    which the command line tool passes the value, therefore accepts it
    unless [L] is zero, and then raises the out-of-range error of the length
    byte: it never raises a length error. *)
Theorem get_register_values_are_float_frames
    (data : ApplicationData.t) (logs : list LogRecord)
    (response : GetRegisterResponse.t) :
  is_bytes (ApplicationData.data data) ->
  GetRegisterResponse.decode data = (logs, Ok response) ->
  forall (id : Z) (r : RegisterData),
    dict.get (GetRegisterResponse.registers response) id = Some r ->
    id_ r = id
    /\ 0 <= id < 65536
    /\ is_byte (unit r)
    /\ exists L rest,
         value r = L :: rest
         /\ py.len rest = L + 1
         /\ (L <> 0 -> exists d, FloatCodec.decode (value r) = Ok d)
         /\ (L = 0 ->
             FloatCodec.decode (value r)
             = Raise (OutOfRangeError
                        "Integer length byte value for floating point data decoding"
                        (Some 1, None) 0)).
Proof.
  destruct data as [cid payload]. cbn [ApplicationData.data]. intros Hbytes H id r Hget.
  assert (Hcid : cid = constants.CommandId.GET_REGISTER).
  { unfold GetRegisterResponse.decode, _decode_validate_command_id in H.
    cbn [ApplicationData.command_id] in H.
    destruct (Z.eqb_spec cid GetRegisterResponse.command_id) as [E|]; [exact E|].
    discriminate H. }
  subst cid. rewrite decode_get_register in H.
  destruct (GetRegisterResponse.decode_loop (List.length payload) payload [])
    as [logs1 [registers|e]] eqn:Eloop; [|discriminate H].
  rewrite bindL_ok in H. cbn [fst snd ret] in H. injection H as _ Hresp.
  subst response. cbn [GetRegisterResponse.registers] in Hget.
  pose proof (decode_loop_registers _ _ _ _ _ Hbytes (Forall_nil _) Eloop) as Hall.
  apply dict_get_in in Hget. rewrite Forall_forall in Hall.
  destruct (Hall _ Hget) as (Hid & Hrange & Hu & Hvb & L & rest & Hv & Hlen).
  cbn [fst snd] in *.
  split; [symmetry; exact Hid|]. split; [rewrite Hid; exact Hrange|].
  split; [exact Hu|].
  exists L, rest. split; [exact Hv|]. split; [exact Hlen|].
  rewrite Hv in *. apply Forall_cons_iff in Hvb. destruct Hvb as [HL _].
  unfold is_byte in HL. split.
  - intros HL0. destruct rest as [|se mant]; [cbn in Hlen; lia|].
    rewrite len_cons in Hlen. eexists. apply decode_well_formed; lia.
  - intros ->. reflexivity.
Qed.

Lemma get_register_values_are_float_frames_witness :
  id_ (mkRegisterData 128 0x16 [0x04; 0x11; 0x01; 0x2A; 0xF0; 0x24]) = 128
  /\ 0 <= 128 < 65536
  /\ is_byte (unit (mkRegisterData 128 0x16 [0x04; 0x11; 0x01; 0x2A; 0xF0; 0x24]))
  /\ exists L rest,
       value (mkRegisterData 128 0x16 [0x04; 0x11; 0x01; 0x2A; 0xF0; 0x24]) = L :: rest
       /\ py.len rest = L + 1
       /\ (L <> 0 ->
           exists d,
             FloatCodec.decode
               (value (mkRegisterData 128 0x16 [0x04; 0x11; 0x01; 0x2A; 0xF0; 0x24]))
             = Ok d)
       /\ (L = 0 ->
           FloatCodec.decode
             (value (mkRegisterData 128 0x16 [0x04; 0x11; 0x01; 0x2A; 0xF0; 0x24]))
           = Raise (OutOfRangeError
                      "Integer length byte value for floating point data decoding"
                      (Some 1, None) 0)).
Proof.
  eapply (get_register_values_are_float_frames
            (ApplicationData.mk 0x10 [0x00; 0x80; 0x16; 0x04; 0x11; 0x01; 0x2A; 0xF0; 0x24])).
  - repeat constructor; unfold is_byte; lia.
  - reflexivity.
  - reflexivity.
Defined.

End RegisterValues.

(** ** [str] and [int], [from_bytes] and [to_bytes] *)

Lemma digits_from_length (fuel : nat) :
  forall n acc,
    (List.length (py.digits_from fuel n acc) <= fuel + List.length acc)%nat.
Proof.
  induction fuel as [|fuel IH]; intros n acc; cbn [py.digits_from]; [lia|].
  destruct (n <? 10); [cbn [List.length]; lia|].
  specialize (IH (n / 10) (n mod 10 :: acc)). cbn [List.length] in IH. lia.
Qed.

Lemma digits_from_nonempty (fuel : nat) :
  forall n acc, py.digits_from (S fuel) n acc <> [].
Proof.
  induction fuel as [|fuel IH]; intros n acc; cbn [py.digits_from].
  - destruct (n <? 10); discriminate.
  - destruct (n <? 10); [discriminate|]. apply IH.
Qed.

Lemma digit_char_is_digit (d : Z) :
  is_digit d ->
  py.isdigit (py.digit_char d) = true /\ py.digit_value (py.digit_char d) = d.
Proof.
  unfold is_digit. intros H.
  assert (E : d = 0 \/ d = 1 \/ d = 2 \/ d = 3 \/ d = 4 \/ d = 5 \/ d = 6 \/ d = 7
              \/ d = 8 \/ d = 9) by lia.
  repeat destruct E as [->|E]; try subst d; split; reflexivity.
Qed.

Lemma digit_chars_decimal (ds : list Z) :
  Forall is_digit ds ->
  is_decimal (map py.digit_char ds)
  /\ decimal_value (map py.digit_char ds) = py.int_of_digits ds.
Proof.
  intros H. split.
  - unfold is_decimal. apply Forall_map. eapply Forall_impl; [|exact H].
    intros d Hd. apply digit_char_is_digit, Hd.
  - unfold decimal_value. f_equal. rewrite map_map.
    induction H as [|d ds Hd _ IH]; [reflexivity|].
    cbn [map]. rewrite IH. f_equal. apply digit_char_is_digit, Hd.
Qed.

(** [int(str(n))] is [n], for a natural number of at most 4300 digits. *)
Lemma int_str (n : Z) :
  0 <= n < 2 ^ 4299 -> py.int (py.str n) = Some n.
Proof.
  intros Hn. unfold py.str.
  replace (n <? 0) with false by (symmetry; apply Z.ltb_ge; lia).
  rewrite Z.abs_eq by lia.
  pose proof (str_digits_are_digits n ltac:(lia)) as Hdig.
  destruct (digit_chars_decimal _ Hdig) as [Hdec Hval].
  set (s := string_of_list_ascii (map py.digit_char (py.str_digits n))).
  assert (Es : list_ascii_of_string s = map py.digit_char (py.str_digits n))
    by apply list_ascii_of_string_of_list_ascii.
  rewrite int_decimal.
  - rewrite Es, Hval, int_of_str_digits by lia. reflexivity.
  - intros E. apply (f_equal list_ascii_of_string) in E. rewrite Es in E.
    cbn in E. apply map_eq_nil in E. revert E. apply digits_from_nonempty.
  - rewrite Es. exact Hdec.
  - rewrite <- list_ascii_length, Es, length_map. unfold py.str_digits.
    pose proof (digits_from_length (S (Z.to_nat (Z.log2 n))) n []) as Hl.
    cbn [List.length] in Hl.
    assert (Z.log2 n < 4299).
    { destruct (Z.eq_dec n 0) as [->|]; [cbn; lia|]. apply Z.log2_lt_pow2; lia. }
    pose proof (Z.log2_nonneg n). unfold py.INT_MAX_STR_DIGITS. lia.
Qed.

(** [to_bytes] of what [from_bytes] returned gives the bytes back. *)
Lemma big_endian_from_bytes (s : bytes) :
  is_bytes s -> py.big_endian (py.from_bytes s) (List.length s) = s.
Proof.
  induction s as [|b s IH] using rev_ind; intros H; [reflexivity|].
  apply Forall_app in H. destruct H as [Hs Hb].
  apply Forall_cons_iff in Hb. destruct Hb as [Hb _]. unfold is_byte in Hb.
  rewrite length_app, Nat.add_comm. cbn [List.length Nat.add].
  rewrite big_endian_succ, from_bytes_snoc.
  replace ((py.from_bytes s * 256 + b) / 256) with (py.from_bytes s)
    by (apply Z.div_unique with b; lia).
  replace ((py.from_bytes s * 256 + b) mod 256) with b
    by (apply Z.mod_unique with (py.from_bytes s); lia).
  rewrite IH by exact Hs. reflexivity.
Qed.

(** ** The serial number *)
Section GetSerialResponseProperties.
Import logging.

Lemma get_serial_decode_four_bytes (data : bytes) :
  is_bytes data -> py.len data = 4 ->
  GetSerialResponse.decode (ApplicationData.mk constants.CommandId.GET_SERIAL data)
  = ([mkLogRecord DEBUG "Decoding %s data (len=%d != %d): %r"
        [ArgStr "GetSerialNo"; ArgInt 4; ArgInt 4; ArgHex data]],
     Ok (GetSerialResponse.mk (py.str (py.from_bytes data)) (Some data))).
Proof.
  intros Hb Hlen.
  pose proof (from_bytes_range data Hb) as Hr. rewrite Hlen in Hr.
  change (256 ^ 4) with 4294967296 in Hr.
  unfold GetSerialResponse.decode.
  cbn [ApplicationData.command_id ApplicationData.data].
  rewrite Hlen.
  change (GetSerialResponse.SERIAL_LENGTH_ENCODED) with 4.
  cbn [Z.eqb Pos.eqb negb].
  unfold GetSerialResponse.new, GetSerialResponse.digits_only_validator.
  rewrite int_str.
  2:{ split; [lia|]. eapply Z.lt_trans; [apply Hr|].
      change 4294967296 with (2 ^ 32). apply Z.pow_lt_mono_r; lia. }
  change GetSerialResponse.SERIAL_VALUE_MAX with 4294967295.
  replace (0 <=? py.from_bytes data) with true by (symmetry; apply Z.leb_le; lia).
  replace (py.from_bytes data <=? 4294967295) with true
    by (symmetry; apply Z.leb_le; lia).
  reflexivity.
Qed.

Lemma get_serial_encode_four_bytes (data : bytes) :
  is_bytes data -> py.len data = 4 ->
  GetSerialResponse.encode
    (GetSerialResponse.mk (py.str (py.from_bytes data)) (Some data))
  = Returns (ApplicationData.mk constants.CommandId.GET_SERIAL data).
Proof.
  intros Hb Hlen.
  pose proof (from_bytes_range data Hb) as Hr. rewrite Hlen in Hr.
  unfold GetSerialResponse.encode. cbn [GetSerialResponse.serial].
  rewrite int_str.
  2:{ split; [lia|]. eapply Z.lt_trans; [apply Hr|].
      change (256 ^ 4) with (2 ^ 32). apply Z.pow_lt_mono_r; lia. }
  change (Z.to_nat GetSerialResponse.SERIAL_LENGTH_ENCODED) with 4%nat.
  rewrite to_bytes_some by exact Hr.
  replace 4%nat with (List.length data) by (unfold py.len in Hlen; lia).
  rewrite big_endian_from_bytes by exact Hb. reflexivity.
Qed.

(** X20: every four bytes are a serial number.  [GetSerialResponse.decode]
    accepts application data of bytes exactly when it has the command ID of
    GetSerialNo and four bytes of data.  The serial is then the decimal
    spelling of the big-endian number of the four bytes, which the validator
    of the constructor never refuses; [data_raw] is the data; no warning is
    logged; and [encode] of the response returns the application data. *)
Theorem get_serial_encode_decode (data : ApplicationData.t) :
  is_bytes (ApplicationData.data data) ->
  ((exists logs response, GetSerialResponse.decode data = (logs, Ok response))
   <-> ApplicationData.command_id data = constants.CommandId.GET_SERIAL
       /\ py.len (ApplicationData.data data) = 4)
  /\ (forall logs response,
        GetSerialResponse.decode data = (logs, Ok response) ->
        warnings_and_up logs = []
        /\ response
           = GetSerialResponse.mk (py.str (py.from_bytes (ApplicationData.data data)))
               (Some (ApplicationData.data data))
        /\ GetSerialResponse.encode response = Returns data).
Proof.
  destruct data as [cid payload]. cbn [ApplicationData.command_id ApplicationData.data].
  intros Hb.
  assert (Hacc : forall logs response,
             GetSerialResponse.decode (ApplicationData.mk cid payload)
             = (logs, Ok response) ->
             cid = constants.CommandId.GET_SERIAL /\ py.len payload = 4).
  { intros logs response. unfold GetSerialResponse.decode, _decode_validate_command_id.
    cbn [ApplicationData.command_id ApplicationData.data].
    destruct (Z.eqb_spec cid GetSerialResponse.command_id) as [E|]; [|discriminate].
    cbn [negb lift bindL log app].
    change GetSerialResponse.SERIAL_LENGTH_ENCODED with 4.
    destruct (Z.eqb_spec (py.len payload) 4) as [El|]; [|discriminate].
    intros _. split; [exact E | exact El]. }
  split.
  - split.
    + intros (logs & response & H). exact (Hacc logs response H).
    + intros [-> Hlen]. eexists _, _.
      apply get_serial_decode_four_bytes; assumption.
  - intros logs response H. destruct (Hacc logs response H) as [-> Hlen].
    rewrite get_serial_decode_four_bytes in H by assumption.
    injection H as <- <-.
    split; [reflexivity|]. split; [reflexivity|].
    apply get_serial_encode_four_bytes; assumption.
Qed.

Lemma get_serial_encode_decode_witness :
  let data :=
    ApplicationData.mk constants.CommandId.GET_SERIAL [0x00; 0x12; 0xD6; 0x87] in
  let response :=
    GetSerialResponse.mk "1234567"%string (Some [0x00; 0x12; 0xD6; 0x87]) in
  warnings_and_up (fst (GetSerialResponse.decode data)) = []
  /\ response
     = GetSerialResponse.mk (py.str (py.from_bytes (ApplicationData.data data)))
         (Some (ApplicationData.data data))
  /\ GetSerialResponse.encode response = Returns data.
Proof.
  intros data response.
  assert (Hb : is_bytes (ApplicationData.data data))
    by (repeat constructor; unfold is_byte; lia).
  apply (proj2 (get_serial_encode_decode data Hb)
           (fst (GetSerialResponse.decode data)) response).
  reflexivity.
Defined.

(** X21: [encode] cannot fail on a response that the constructor accepted.
    For every serial string that the validator lets through, [int] parses
    the string to a number [n] in [0, 2^32 - 1], [encode] returns the four
    big-endian bytes of [n], and [decode] of that returns the serial
    [str(n)]: the serial in its canonical spelling, without sign, blanks,
    underscores or leading zeros. *)
Theorem get_serial_encode_constructed
    (serial : string) (data_raw : option bytes) (response : GetSerialResponse.t) :
  GetSerialResponse.new serial data_raw = Ok response ->
  exists (n : Z) (payload : bytes) (logs : list LogRecord),
    py.int serial = Some n
    /\ 0 <= n <= 4294967295
    /\ payload = py.big_endian n 4
    /\ GetSerialResponse.encode response
       = Returns (ApplicationData.mk constants.CommandId.GET_SERIAL payload)
    /\ GetSerialResponse.decode
         (ApplicationData.mk constants.CommandId.GET_SERIAL payload)
       = (logs, Ok (GetSerialResponse.mk (py.str n) (Some payload))).
Proof.
  unfold GetSerialResponse.new, GetSerialResponse.digits_only_validator.
  destruct (py.int serial) as [n|] eqn:Eint; [|discriminate].
  change GetSerialResponse.SERIAL_VALUE_MAX with 4294967295.
  destruct (Z.leb_spec 0 n) as [Hlo|]; [|discriminate].
  destruct (Z.leb_spec n 4294967295) as [Hhi|]; [|discriminate].
  cbn [andb negb bind]. intros Hresp. injection Hresp as <-.
  assert (Hr : 0 <= n < 256 ^ Z.of_nat 4) by (change (256 ^ Z.of_nat 4) with 4294967296; lia).
  exists n, (py.big_endian n 4). eexists.
  split; [reflexivity|]. split; [lia|]. split; [reflexivity|]. split.
  - unfold GetSerialResponse.encode. cbn [GetSerialResponse.serial].
    rewrite Eint. change (Z.to_nat GetSerialResponse.SERIAL_LENGTH_ENCODED) with 4%nat.
    rewrite to_bytes_some by exact Hr. reflexivity.
  - rewrite get_serial_decode_four_bytes.
    + rewrite from_bytes_big_endian, Z.mod_small by exact Hr. reflexivity.
    + apply big_endian_is_bytes.
    + unfold py.len. rewrite length_big_endian. reflexivity.
Qed.

Lemma get_serial_encode_constructed_witness :
  exists (n : Z) (payload : bytes) (logs : list LogRecord),
    py.int " +0012_34 "%string = Some n
    /\ 0 <= n <= 4294967295
    /\ payload = py.big_endian n 4
    /\ GetSerialResponse.encode (GetSerialResponse.mk " +0012_34 "%string None)
       = Returns (ApplicationData.mk constants.CommandId.GET_SERIAL payload)
    /\ GetSerialResponse.decode
         (ApplicationData.mk constants.CommandId.GET_SERIAL payload)
       = (logs, Ok (GetSerialResponse.mk (py.str n) (Some payload))).
Proof.
  apply (get_serial_encode_constructed " +0012_34 "%string None). reflexivity.
Defined.

End GetSerialResponseProperties.

(** ** Requests *)
Section Requests.
Import logging.

(** X22: the requests without data.  [GetTypeRequest.decode] and
    [GetSerialRequest.decode] return a request exactly for the application
    data that [encode] produces: the command ID of the class and no data.
    Any other command ID raises [MessageCidMismatchError], whatever the data;
    the command ID of the class with data raises [DataWithNoDataError]. *)
Theorem requests_without_data (data : ApplicationData.t) :
  (GetTypeRequest.decode data = Returns GetTypeRequest.mk
   <-> data = GetTypeRequest.encode GetTypeRequest.mk)
  /\ (GetSerialRequest.decode data = Returns GetSerialRequest.mk
      <-> data = GetSerialRequest.encode GetSerialRequest.mk)
  /\ (ApplicationData.command_id data <> constants.CommandId.GET_TYPE ->
      GetTypeRequest.decode data
      = Raises (CodecError
                  (MessageCidMismatchError "GetTypeRequest"
                     constants.CommandId.GET_TYPE (ApplicationData.command_id data))))
  /\ (ApplicationData.command_id data <> constants.CommandId.GET_SERIAL ->
      GetSerialRequest.decode data
      = Raises (CodecError
                  (MessageCidMismatchError "GetSerialRequest"
                     constants.CommandId.GET_SERIAL (ApplicationData.command_id data))))
  /\ (ApplicationData.command_id data = constants.CommandId.GET_TYPE ->
      ApplicationData.data data <> [] ->
      GetTypeRequest.decode data = Raises (DataWithNoDataError "GetTypeRequest"))
  /\ (ApplicationData.command_id data = constants.CommandId.GET_SERIAL ->
      ApplicationData.data data <> [] ->
      GetSerialRequest.decode data = Raises (DataWithNoDataError "GetSerialRequest")).
Proof.
  destruct data as [cid payload].
  cbn [ApplicationData.command_id ApplicationData.data].
  unfold GetTypeRequest.decode, GetSerialRequest.decode, WithoutDataMixin.decode,
    _decode_validate_command_id, GetTypeRequest.encode, GetSerialRequest.encode,
    WithoutDataMixin.encode.
  cbn [ApplicationData.command_id ApplicationData.data].
  change GetTypeRequest.command_id with 1. change GetSerialRequest.command_id with 2.
  change constants.CommandId.GET_TYPE with 1. change constants.CommandId.GET_SERIAL with 2.
  repeat split.
  - destruct (Z.eqb_spec cid 1) as [->|]; [|discriminate].
    destruct payload; [reflexivity | discriminate].
  - intros H. injection H as -> ->. reflexivity.
  - destruct (Z.eqb_spec cid 2) as [->|]; [|discriminate].
    destruct payload; [reflexivity | discriminate].
  - intros H. injection H as -> ->. reflexivity.
  - intros H. destruct (Z.eqb_spec cid 1); [contradiction | reflexivity].
  - intros H. destruct (Z.eqb_spec cid 2); [contradiction | reflexivity].
  - intros -> H. destruct payload; [contradiction | reflexivity].
  - intros -> H. destruct payload; [contradiction | reflexivity].
Qed.

Lemma requests_without_data_witness :
  GetTypeRequest.decode (ApplicationData.mk 0x10 [])
  = Raises (CodecError (MessageCidMismatchError "GetTypeRequest" 0x01 0x10))
  /\ GetSerialRequest.decode (ApplicationData.mk 0x02 [0x66])
     = Raises (DataWithNoDataError "GetSerialRequest").
Proof.
  split.
  - apply (proj1 (proj2 (proj2 (requests_without_data (ApplicationData.mk 0x10 []))))).
    discriminate.
  - apply (proj2 (proj2 (proj2 (proj2 (proj2
             (requests_without_data (ApplicationData.mk 0x02 [0x66]))))))).
    + reflexivity.
    + discriminate.
Defined.

(** *** The register IDs of a GetRegister request *)

Lemma range_even (k : nat) :
  py.range 0 (2 * Z.of_nat k) 2 = map (fun j => Z.of_nat j * 2) (seq 0 k).
Proof.
  unfold py.range.
  replace (Z.to_nat ((2 * Z.of_nat k - 0 + 2 - 1) / 2)) with k.
  - apply map_ext. intros j. lia.
  - replace (2 * Z.of_nat k - 0 + 2 - 1) with (1 + Z.of_nat k * 2) by lia.
    rewrite Z.div_add by lia. change (1 / 2) with 0. lia.
Qed.

Lemma chunks_of_two (packed : bytes) (k : nat) :
  List.length packed = (2 * k)%nat ->
  map py.from_bytes
    (map (fun i => py.slice (Some i) (Some (i + 2)) packed)
         (py.range 0 (py.len packed) 2))
  = unpacked_register_ids packed.
Proof.
  intros Hlen. unfold py.len. rewrite Hlen.
  replace (Z.of_nat (2 * k)) with (2 * Z.of_nat k) by lia.
  rewrite range_even, !map_map.
  revert packed Hlen. induction k as [|k IH]; intros packed Hlen.
  - destruct packed; [reflexivity | discriminate Hlen].
  - destruct packed as [|hi [|lo rest]]; try (cbn in Hlen; lia).
    cbn [List.length] in Hlen.
    cbn [seq map unpacked_register_ids]. f_equal.
    + change (Z.of_nat 0 * 2) with 0.
      rewrite slice_bounds by (rewrite ?len_cons; pose proof (len_nonneg rest); lia).
      change (Z.to_nat (0 + 2 - 0)) with 2%nat. change (Z.to_nat 0) with 0%nat.
      cbn [skipn firstn]. unfold py.from_bytes. cbn [fold_left]. lia.
    + rewrite <- seq_shift, map_map, <- (IH rest) by lia.
      apply map_ext_in. intros j Hj. apply in_seq in Hj. f_equal.
      assert (Hb : Z.of_nat j * 2 + 2 <= py.len rest) by (unfold py.len; lia).
      rewrite !slice_bounds by (rewrite ?len_cons; lia).
      replace (Z.to_nat (Z.of_nat (S j) * 2)) with (S (S (Z.to_nat (Z.of_nat j * 2))))
        by lia.
      replace (Z.of_nat (S j) * 2 + 2 - Z.of_nat (S j) * 2) with 2 by lia.
      replace (Z.of_nat j * 2 + 2 - Z.of_nat j * 2) with 2 by lia.
      reflexivity.
Qed.

Lemma unpacked_packed (registers : list Z) :
  Forall (fun register_id => 0 <= register_id <= 65535) registers ->
  unpacked_register_ids (packed_register_ids registers) = registers.
Proof.
  induction 1 as [|register_id registers H _ IH]; [reflexivity|].
  cbn [packed_register_ids flat_map app unpacked_register_ids].
  fold (packed_register_ids registers). rewrite IH. f_equal.
  pose proof (Z.div_mod register_id 256). lia.
Qed.

Lemma packed_length (registers : list Z) :
  List.length (packed_register_ids registers) = (2 * List.length registers)%nat.
Proof.
  induction registers as [|r registers IH]; [reflexivity|].
  cbn [packed_register_ids flat_map app List.length].
  fold (packed_register_ids registers). rewrite IH. lia.
Qed.

Lemma packed_unpacked (packed : bytes) (k : nat) :
  is_bytes packed -> List.length packed = (2 * k)%nat ->
  packed_register_ids (unpacked_register_ids packed) = packed
  /\ List.length (unpacked_register_ids packed) = k
  /\ Forall (fun register_id => 0 <= register_id <= 65535)
       (unpacked_register_ids packed).
Proof.
  revert packed. induction k as [|k IH]; intros packed Hb Hlen.
  - destruct packed; [|discriminate Hlen]. repeat split. constructor.
  - destruct packed as [|hi [|lo rest]]; try (cbn in Hlen; lia).
    cbn [List.length] in Hlen.
    apply Forall_cons_iff in Hb. destruct Hb as [Hhi Hb].
    apply Forall_cons_iff in Hb. destruct Hb as [Hlo Hb].
    unfold is_byte in Hhi, Hlo.
    destruct (IH rest Hb ltac:(lia)) as (E & El & Er).
    cbn [unpacked_register_ids packed_register_ids flat_map app].
    fold (packed_register_ids (unpacked_register_ids rest)).
    rewrite E. split; [|split].
    + f_equal; [symmetry; apply Z.div_unique with lo; lia|].
      f_equal. symmetry. apply Z.mod_unique with hi; lia.
    + cbn [List.length]. rewrite El. reflexivity.
    + constructor; [lia | exact Er].
Qed.

Lemma register_id_validator_ok (registers : list Z) :
  Forall (fun register_id => 0 <= register_id <= 65535) registers ->
  GetRegisterRequest.register_id_validator registers = Ok tt.
Proof.
  induction 1 as [|register_id registers H _ IH]; [reflexivity|].
  cbn [GetRegisterRequest.register_id_validator].
  change GetRegisterRequest.REGISTER_ID_VALUE_MAX with 65535.
  replace (0 <=? register_id) with true by (symmetry; apply Z.leb_le; lia).
  replace (register_id <=? 65535) with true by (symmetry; apply Z.leb_le; lia).
  exact IH.
Qed.

Lemma new_request_ok (registers : list Z) (data_raw : option bytes) :
  Forall (fun register_id => 0 <= register_id <= 65535) registers ->
  GetRegisterRequest.new registers data_raw
  = Ok (GetRegisterRequest.mk registers data_raw).
Proof.
  intros H. unfold GetRegisterRequest.new, _ints2register_ids.
  rewrite map_id, register_id_validator_ok by exact H. reflexivity.
Qed.

Lemma join_register_ids_ok (registers : list Z) :
  Forall (fun register_id => 0 <= register_id <= 65535) registers ->
  GetRegisterRequest.join_register_ids registers = Ok (packed_register_ids registers).
Proof.
  induction 1 as [|register_id registers H _ IH]; [reflexivity|].
  cbn [GetRegisterRequest.join_register_ids].
  change (Z.to_nat GetRegisterRequest.REGISTER_ID_LENGTH_ENCODED) with 2%nat.
  rewrite to_bytes_2 by lia. rewrite IH. reflexivity.
Qed.

(** [decode] on data that holds a number of registers and as many pairs of
    bytes. *)
Lemma get_register_request_decode_pairs (n : Z) (packed : bytes) :
  is_bytes packed -> py.len packed = 2 * n ->
  GetRegisterRequest.decode
    (ApplicationData.mk constants.CommandId.GET_REGISTER (n :: packed))
  = ((if (1 <=? n) && (n <=? 8) then [] else [number_of_registers_warning n]),
     Ok (GetRegisterRequest.mk (unpacked_register_ids packed) (Some (n :: packed)))).
Proof.
  intros Hb Hlen.
  assert (Hk : List.length packed = (2 * Z.to_nat n)%nat) by (unfold py.len in Hlen; lia).
  destruct (packed_unpacked packed (Z.to_nat n) Hb Hk) as (_ & _ & Hr).
  unfold GetRegisterRequest.decode.
  cbn [ApplicationData.command_id ApplicationData.data].
  change (_decode_validate_command_id "GetRegisterRequest" GetRegisterRequest.command_id
            constants.CommandId.GET_REGISTER) with (@Ok Datatypes.unit tt).
  change GetRegisterRequest.NUM_REGISTERS_LENGTH_ENCODED with 1.
  change GetRegisterRequest.NUM_REGISTERS_MAX with 8.
  rewrite len_cons. pose proof (len_nonneg packed) as Hnn.
  replace (1 + py.len packed <? 1) with false by (symmetry; apply Z.ltb_ge; lia).
  change (py.item (n :: packed) 0) with n.
  rewrite slice_from by (rewrite len_cons; lia).
  change (skipn (Z.to_nat 1) (n :: packed)) with packed.
  unfold GetRegisterRequest._decode_register_ids_array.
  change GetRegisterRequest.REGISTER_ID_LENGTH_ENCODED with 2.
  replace (py.len packed =? n * 2) with true by (symmetry; apply Z.eqb_eq; lia).
  cbn [negb].
  rewrite (chunks_of_two packed (Z.to_nat n) Hk).
  pose proof (new_request_ok _ (Some (n :: packed)) Hr) as Hnew.
  destruct ((1 <=? n) && (n <=? 8));
    cbn [negb bindL lift ret log app]; (apply f_equal2; [reflexivity | exact Hnew]).
Qed.

(** X23: a GetRegister request is recovered from its encoding.  For one to
    eight register IDs in [0, 65535], the constructor accepts the request,
    [encode] returns the number of registers followed by the big-endian
    pairs of bytes of the IDs, and [decode] of that returns the same IDs,
    with the encoded data as [data_raw], and logs nothing. *)
Theorem get_register_request_decode_encode (registers : list Z) :
  1 <= py.len registers <= 8 ->
  Forall (fun register_id => 0 <= register_id <= 65535) registers ->
  let data :=
    ApplicationData.mk constants.CommandId.GET_REGISTER
      (py.len registers :: packed_register_ids registers) in
  GetRegisterRequest.new registers None = Ok (GetRegisterRequest.mk registers None)
  /\ GetRegisterRequest.encode (GetRegisterRequest.mk registers None) = Ok data
  /\ GetRegisterRequest.decode data
     = ([], Ok (GetRegisterRequest.mk registers (Some (ApplicationData.data data)))).
Proof.
  intros Hn Hr data. split; [apply new_request_ok; exact Hr|]. split.
  - unfold GetRegisterRequest.encode. cbn [GetRegisterRequest.registers].
    change GetRegisterRequest.NUM_REGISTERS_MAX with 8.
    replace (1 <=? py.len registers) with true by (symmetry; apply Z.leb_le; lia).
    replace (py.len registers <=? 8) with true by (symmetry; apply Z.leb_le; lia).
    cbn [andb negb].
    change (Z.to_nat GetRegisterRequest.NUM_REGISTERS_LENGTH_ENCODED) with 1%nat.
    rewrite to_bytes_1 by lia. rewrite join_register_ids_ok by exact Hr. reflexivity.
  - unfold data. cbn [ApplicationData.data].
    rewrite get_register_request_decode_pairs.
    + rewrite unpacked_packed by exact Hr.
      replace (1 <=? py.len registers) with true by (symmetry; apply Z.leb_le; lia).
      replace (py.len registers <=? 8) with true by (symmetry; apply Z.leb_le; lia).
      reflexivity.
    + clear Hn data. induction Hr as [|r registers Hr _ IH]; [constructor|].
      cbn [packed_register_ids flat_map app].
      apply Forall_cons; [|apply Forall_cons; [|exact IH]].
      * split; [apply Z.div_pos; lia | apply Z.div_lt_upper_bound; lia].
      * apply Z.mod_pos_bound. lia.
    + unfold py.len. rewrite packed_length. lia.
Qed.

Lemma get_register_request_decode_encode_witness :
  let data :=
    ApplicationData.mk constants.CommandId.GET_REGISTER
      (py.len [60; 68; 0x10A] :: packed_register_ids [60; 68; 0x10A]) in
  GetRegisterRequest.new [60; 68; 0x10A] None
  = Ok (GetRegisterRequest.mk [60; 68; 0x10A] None)
  /\ GetRegisterRequest.encode (GetRegisterRequest.mk [60; 68; 0x10A] None) = Ok data
  /\ GetRegisterRequest.decode data
     = ([], Ok (GetRegisterRequest.mk [60; 68; 0x10A] (Some (ApplicationData.data data)))).
Proof.
  apply (get_register_request_decode_encode [60; 68; 0x10A]).
  - unfold py.len. cbn. lia.
  - repeat constructor; lia.
Defined.

(** X24: what [GetRegisterRequest.decode] accepts.  Data of bytes is
    accepted exactly when it holds a first byte [n] and then [2 * n] bytes.
    The request then holds the [n] big-endian numbers of the pairs of bytes,
    which the validator of the constructor never refuses; a warning is
    logged, and nothing else, exactly when [n] lies outside of [1, 8]; and
    [encode] of the decoded request returns the data for [n] in [1, 8] and
    raises the out-of-range error otherwise: [decode] accepts requests for no
    register and for more than eight registers, which [encode] refuses to
    produce. *)
Theorem get_register_request_decode (payload : bytes) :
  is_bytes payload ->
  let data := ApplicationData.mk constants.CommandId.GET_REGISTER payload in
  ((exists logs request, GetRegisterRequest.decode data = (logs, Ok request))
   <-> (exists n packed, payload = n :: packed /\ py.len packed = 2 * n))
  /\ (forall n packed,
        payload = n :: packed -> py.len packed = 2 * n ->
        let request :=
          GetRegisterRequest.mk (unpacked_register_ids packed) (Some payload) in
        GetRegisterRequest.decode data
        = ((if (1 <=? n) && (n <=? 8) then [] else [number_of_registers_warning n]),
           Ok request)
        /\ py.len (GetRegisterRequest.registers request) = n
        /\ GetRegisterRequest.encode request
           = if (1 <=? n) && (n <=? 8)
             then Ok data
             else Raise (OutOfRangeError
                           "Number of registers requested in GetRegister request"
                           (Some 1, Some 8) n)).
Proof.
  intros Hb data. split.
  - split.
    + intros (logs & request & H). unfold data in H.
      destruct payload as [|n packed].
      { cbn in H. discriminate H. }
      exists n, packed. split; [reflexivity|].
      revert H. unfold GetRegisterRequest.decode.
      cbn [ApplicationData.command_id ApplicationData.data].
      change (_decode_validate_command_id "GetRegisterRequest"
                GetRegisterRequest.command_id constants.CommandId.GET_REGISTER)
        with (@Ok Datatypes.unit tt).
      change GetRegisterRequest.NUM_REGISTERS_LENGTH_ENCODED with 1.
      rewrite len_cons. pose proof (len_nonneg packed) as Hnn.
      replace (1 + py.len packed <? 1) with false by (symmetry; apply Z.ltb_ge; lia).
      change (py.item (n :: packed) 0) with n.
      rewrite slice_from by (rewrite len_cons; lia).
      change (skipn (Z.to_nat 1) (n :: packed)) with packed.
      unfold GetRegisterRequest._decode_register_ids_array.
      change GetRegisterRequest.REGISTER_ID_LENGTH_ENCODED with 2.
      destruct (Z.eqb_spec (py.len packed) (n * 2)) as [E|]; [lia|].
      cbn [negb]. destruct (negb _); cbn; discriminate.
    + intros (n & packed & -> & Hlen). unfold data.
      apply Forall_cons_iff in Hb. destruct Hb as [_ Hb].
      rewrite get_register_request_decode_pairs by assumption.
      eexists. eexists. reflexivity.
  - intros n packed -> Hlen request.
    apply Forall_cons_iff in Hb. destruct Hb as [Hn Hb]. unfold is_byte in Hn.
    assert (Hk : List.length packed = (2 * Z.to_nat n)%nat)
      by (unfold py.len in Hlen; lia).
    destruct (packed_unpacked packed (Z.to_nat n) Hb Hk) as (Epacked & Elen & Hr).
    assert (Hcount : py.len (unpacked_register_ids packed) = n)
      by (unfold py.len; rewrite Elen; lia).
    split; [apply get_register_request_decode_pairs; assumption|].
    split; [exact Hcount|].
    unfold GetRegisterRequest.encode, request. cbn [GetRegisterRequest.registers].
    change GetRegisterRequest.NUM_REGISTERS_MAX with 8. rewrite Hcount.
    destruct ((1 <=? n) && (n <=? 8)); cbn [negb]; [|reflexivity].
    change (Z.to_nat GetRegisterRequest.NUM_REGISTERS_LENGTH_ENCODED) with 1%nat.
    rewrite to_bytes_1 by lia. rewrite join_register_ids_ok by exact Hr.
    rewrite Epacked. reflexivity.
Qed.

Lemma get_register_request_decode_witness :
  let data := ApplicationData.mk constants.CommandId.GET_REGISTER [0x00] in
  let request := GetRegisterRequest.mk (unpacked_register_ids []) (Some [0x00]) in
  GetRegisterRequest.decode data
  = ((if (1 <=? 0) && (0 <=? 8) then [] else [number_of_registers_warning 0]),
     Ok request)
  /\ py.len (GetRegisterRequest.registers request) = 0
  /\ GetRegisterRequest.encode request
     = if (1 <=? 0) && (0 <=? 8)
       then Ok data
       else Raise (OutOfRangeError
                     "Number of registers requested in GetRegister request"
                     (Some 1, Some 8) 0).
Proof.
  assert (Hb : is_bytes [0x00]) by (repeat constructor; unfold is_byte; lia).
  apply (proj2 (get_register_request_decode [0x00] Hb) 0 []); reflexivity.
Defined.

End Requests.

(** ** The meter type and the software revision *)
Section GetTypeResponseProperties.
Import logging.

Lemma bytes_eqb_eq (a b : bytes) : py.bytes_eqb a b = true -> a = b.
Proof.
  revert b. induction a as [|x a IH]; intros [|y b] H; try discriminate H.
  - reflexivity.
  - cbn [py.bytes_eqb] in H. apply andb_prop in H. destruct H as [Hx H].
    apply Z.eqb_eq in Hx. subst y. f_equal. apply IH, H.
Qed.

Lemma revision_encodes_to_spec (s : string) (expected : bytes) :
  revision_encodes_to s expected = true ->
  GetTypeResponse.encode_software_revision s = Returns expected.
Proof.
  unfold revision_encodes_to.
  destruct (GetTypeResponse.encode_software_revision s) as [b|]; [|discriminate].
  intros H. apply andb_prop in H. destruct H as [H _].
  apply bytes_eqb_eq in H. subst b. reflexivity.
Qed.

Lemma revision_refused_spec (s : string) :
  revision_refused s = true ->
  GetTypeResponse.encode_software_revision s
  = Raises (SoftwareRevisionInvalidError s).
Proof.
  unfold revision_refused.
  destruct (GetTypeResponse.encode_software_revision s) as [b|[]]; try discriminate.
  intros H. apply String.eqb_eq in H. subst. reflexivity.
Qed.

(** A property of all letters and numbers, from its check on each of
    them. *)
Lemma forall_letters_numbers (P : Z -> Z -> bool) (bound : nat) :
  forallb (fun l => forallb (fun n => P (Z.of_nat l) (Z.of_nat n)) (seq 0 bound))
          (seq 1 26) = true ->
  forall l n, 1 <= l <= 26 -> 0 <= n < Z.of_nat bound -> P l n = true.
Proof.
  intros H l n Hl Hn. rewrite forallb_forall in H.
  specialize (H (Z.to_nat l) ltac:(apply in_seq; lia)).
  rewrite forallb_forall in H.
  specialize (H (Z.to_nat n) ltac:(apply in_seq; lia)).
  rewrite !Z2Nat.id in H by lia. exact H.
Qed.

Lemma revision_canonical (l n : Z) :
  1 <= l <= 26 -> 0 <= n <= 255 ->
  GetTypeResponse.encode_software_revision (revision_string l n) = Returns [l; n].
Proof.
  intros Hl Hn. apply revision_encodes_to_spec.
  apply (forall_letters_numbers
           (fun l n => revision_encodes_to (revision_string l n) [l; n]) 256);
    [vm_compute; reflexivity | lia | lia].
Qed.

Lemma encode_with_revision
    (meter_type_bytes : bytes) (s : string) (data_raw : option bytes) :
  py.len meter_type_bytes = 2 ->
  snd (GetTypeResponse.encode (GetTypeResponse.mk meter_type_bytes (Some s) data_raw))
  = match GetTypeResponse.encode_software_revision s with
    | Returns sw_rev_bytes =>
        Returns (ApplicationData.mk constants.CommandId.GET_TYPE
                   (meter_type_bytes ++ sw_rev_bytes))
    | Raises x => Raises x
    end.
Proof.
  intros H. unfold GetTypeResponse.encode.
  cbn [snd GetTypeResponse.meter_type_bytes GetTypeResponse.software_revision].
  rewrite H. reflexivity.
Qed.

Lemma get_type_decode_four (m1 m2 l n : Z) :
  GetTypeResponse.decode (ApplicationData.mk constants.CommandId.GET_TYPE [m1; m2; l; n])
  = if (l =? 0) && (n =? 0)
    then ([mkLogRecord DEBUG "Decoding GetType data. [len=%d, expected_len=%d, data=%r]"
             [ArgInt 4; ArgInt 4; ArgHex [m1; m2; l; n]]],
          Ok (GetTypeResponse.mk [m1; m2] None (Some [m1; m2; l; n])))
    else if (1 <=? l) && (l <=? 26)
    then ([mkLogRecord DEBUG "Decoding GetType data. [len=%d, expected_len=%d, data=%r]"
             [ArgInt 4; ArgInt 4; ArgHex [m1; m2; l; n]]],
          Ok (GetTypeResponse.mk [m1; m2] (Some (revision_string l n))
                (Some [m1; m2; l; n])))
    else ([mkLogRecord DEBUG "Decoding GetType data. [len=%d, expected_len=%d, data=%r]"
             [ArgInt 4; ArgInt 4; ArgHex [m1; m2; l; n]];
           mkLogRecord DEBUG
             "Decoding %s response; software revision letter out of range. [data=%r]"
             [ArgStr "GetType"; ArgHex [m1; m2; l; n]]],
          Raise (OutOfRangeError "Software revision letter (int value)"
                   (Some 1, Some 26) l)).
Proof.
  unfold GetTypeResponse.decode.
  cbn [ApplicationData.command_id ApplicationData.data].
  change (_decode_validate_command_id "GetTypeResponse" GetTypeResponse.command_id
            constants.CommandId.GET_TYPE) with (@Ok Datatypes.unit tt).
  change (py.len [m1; m2; l; n]) with 4.
  change (GetTypeResponse.METER_TYPE_LENGTH_ENCODED
          + GetTypeResponse.SOFTWARE_REVISION_LENGTH_ENCODED) with 4.
  change (py.slice None (Some 2) [m1; m2; l; n]) with [m1; m2].
  change (py.slice (Some 2) None [m1; m2; l; n]) with [l; n].
  change (py.item [l; n] 0) with l. change (py.item [l; n] 1) with n.
  change GetTypeResponse.SOFTWARE_REVISION_UNAVAILABLE_BYTES with [0; 0].
  change GetTypeResponse.SOFTWARE_REVISION_LETTER_INT_MIN with 1.
  change GetTypeResponse.SOFTWARE_REVISION_LETTER_INT_MAX with 26.
  cbn [py.bytes_eqb Z.eqb Pos.eqb negb]. rewrite andb_true_r.
  destruct ((l =? 0) && (n =? 0)); [reflexivity|].
  destruct ((1 <=? l) && (l <=? 26)); reflexivity.
Qed.

Lemma get_type_decode_length (payload : bytes) (logs : list LogRecord)
    (response : GetTypeResponse.t) :
  GetTypeResponse.decode (ApplicationData.mk constants.CommandId.GET_TYPE payload)
  = (logs, Ok response) ->
  exists m1 m2 l n, payload = [m1; m2; l; n].
Proof.
  unfold GetTypeResponse.decode.
  cbn [ApplicationData.command_id ApplicationData.data].
  change (_decode_validate_command_id "GetTypeResponse" GetTypeResponse.command_id
            constants.CommandId.GET_TYPE) with (@Ok Datatypes.unit tt).
  change (GetTypeResponse.METER_TYPE_LENGTH_ENCODED
          + GetTypeResponse.SOFTWARE_REVISION_LENGTH_ENCODED) with 4.
  destruct (Z.eqb_spec (py.len payload) 4) as [E|]; [|discriminate].
  intros _. destruct payload as [|m1 [|m2 [|l [|n [|]]]]]; try discriminate E.
  - eexists _, _, _, _. reflexivity.
  - exfalso. rewrite !len_cons in E. pose proof (len_nonneg l0). lia.
Qed.

(** X25: what [GetTypeResponse.decode] accepts, [encode] gives back.  Data
    of bytes is accepted exactly when it is four bytes whose last two are
    [00 00] or begin with a letter byte in [1, 26].  The response then holds
    the first two bytes as the meter type, and the software revision is
    [None] for [00 00] and otherwise the letter with code [64 + letter byte]
    followed by the decimal spelling of the number byte; no warning is
    logged, and [encode] of the response returns the data. *)
Theorem get_type_encode_decode (payload : bytes) :
  is_bytes payload ->
  let data := ApplicationData.mk constants.CommandId.GET_TYPE payload in
  ((exists logs response, GetTypeResponse.decode data = (logs, Ok response))
   <-> (exists m1 m2 l n,
          payload = [m1; m2; l; n] /\ ((l = 0 /\ n = 0) \/ 1 <= l <= 26)))
  /\ (forall logs response,
        GetTypeResponse.decode data = (logs, Ok response) ->
        warnings_and_up logs = []
        /\ GetTypeResponse.meter_type_bytes response = py.slice None (Some 2) payload
        /\ GetTypeResponse.software_revision response
           = (if py.bytes_eqb (py.slice (Some 2) None payload) [0; 0] then None
              else Some (revision_string (py.item payload 2) (py.item payload 3)))
        /\ GetTypeResponse.data_raw response = Some payload
        /\ snd (GetTypeResponse.encode response) = Returns data).
Proof.
  intros Hb data. unfold data. split.
  - split.
    + intros (logs & response & H).
      destruct (get_type_decode_length _ _ _ H) as (m1 & m2 & l & n & ->).
      exists m1, m2, l, n. split; [reflexivity|].
      rewrite get_type_decode_four in H.
      destruct ((l =? 0) && (n =? 0)) eqn:Ez.
      * apply andb_prop in Ez. destruct Ez as [El En].
        apply Z.eqb_eq in El, En. left. split; assumption.
      * destruct (Z.leb_spec 1 l); destruct (Z.leb_spec l 26);
          cbn [andb] in H; try discriminate H. right. lia.
    + intros (m1 & m2 & l & n & -> & Hl). rewrite get_type_decode_four.
      destruct Hl as [[-> ->]|Hl].
      * cbn [Z.eqb andb]. eexists _, _. reflexivity.
      * destruct ((l =? 0) && (n =? 0)); [eexists _, _; reflexivity|].
        replace (1 <=? l) with true by (symmetry; apply Z.leb_le; lia).
        replace (l <=? 26) with true by (symmetry; apply Z.leb_le; lia).
        eexists _, _. reflexivity.
  - intros logs response H.
    destruct (get_type_decode_length _ _ _ H) as (m1 & m2 & l & n & ->).
    rewrite get_type_decode_four in H.
    change (py.slice None (Some 2) [m1; m2; l; n]) with [m1; m2].
    change (py.slice (Some 2) None [m1; m2; l; n]) with [l; n].
    change (py.item [m1; m2; l; n] 2) with l. change (py.item [m1; m2; l; n] 3) with n.
    cbn [py.bytes_eqb]. rewrite andb_true_r.
    apply Forall_cons_iff in Hb. destruct Hb as [_ Hb].
    apply Forall_cons_iff in Hb. destruct Hb as [_ Hb].
    apply Forall_cons_iff in Hb. destruct Hb as [Hl Hb].
    apply Forall_cons_iff in Hb. destruct Hb as [Hn _].
    unfold is_byte in Hl, Hn.
    destruct (Z.eqb_spec l 0) as [->|Hl0]; destruct (Z.eqb_spec n 0) as [->|Hn0];
      cbn [andb] in H |- *.
    + injection H as <- <-. repeat split; reflexivity.
    + change ((1 <=? 0) && (0 <=? 26)) with false in H. discriminate H.
    + destruct (Z.leb_spec 1 l); destruct (Z.leb_spec l 26);
        cbn [andb] in H; try discriminate H.
      injection H as <- <-.
      cbn [GetTypeResponse.meter_type_bytes GetTypeResponse.software_revision
           GetTypeResponse.data_raw].
      split; [reflexivity|]. split; [reflexivity|]. split; [reflexivity|].
      split; [reflexivity|].
      rewrite encode_with_revision by reflexivity.
      rewrite revision_canonical by lia. reflexivity.
    + destruct (Z.leb_spec 1 l); destruct (Z.leb_spec l 26);
        cbn [andb] in H; try discriminate H.
      injection H as <- <-.
      cbn [GetTypeResponse.meter_type_bytes GetTypeResponse.software_revision
           GetTypeResponse.data_raw].
      split; [reflexivity|]. split; [reflexivity|]. split; [reflexivity|].
      split; [reflexivity|].
      rewrite encode_with_revision by reflexivity.
      rewrite revision_canonical by lia. reflexivity.
Qed.

Lemma get_type_encode_decode_witness :
  let payload := [0x00; 0x04; 0x06; 0x01] in
  let data := ApplicationData.mk constants.CommandId.GET_TYPE payload in
  let response := GetTypeResponse.mk [0x00; 0x04] (Some "F1"%string) (Some payload) in
  warnings_and_up (fst (GetTypeResponse.decode data)) = []
  /\ GetTypeResponse.meter_type_bytes response = py.slice None (Some 2) payload
  /\ GetTypeResponse.software_revision response
     = (if py.bytes_eqb (py.slice (Some 2) None payload) [0; 0] then None
        else Some (revision_string (py.item payload 2) (py.item payload 3)))
  /\ GetTypeResponse.data_raw response = Some payload
  /\ snd (GetTypeResponse.encode response) = Returns data.
Proof.
  intros payload data response.
  assert (Hb : is_bytes payload) by (repeat constructor; unfold is_byte; lia).
  apply (proj2 (get_type_encode_decode payload Hb)
           (fst (GetTypeResponse.decode data)) response).
  reflexivity.
Defined.

(** *** Spellings of the software revision *)

(** X26: the software revision strings that [GetTypeResponse.encode]
    takes.  For a letter [A] to [Z] and a number written in decimal without
    leading zeros: a number up to 255 is encoded as the letter byte
    (1 to 26) and the number byte, a number from 256 to 999 raises
    [SoftwareRevisionInvalidError].  The same string followed by a newline
    is encoded, not refused, to the same bytes; a one-digit number with one
    leading zero also; a two-digit number with a leading zero is refused.
    A string that is empty or does not begin with one of [A] to [Z] is
    refused.  So [decode] after [encode] returns the revision in its
    canonical spelling, not always the string given. *)
Theorem get_type_revision_spellings :
  (forall l n, 1 <= l <= 26 -> 0 <= n <= 255 ->
     let s := revision_string l n in
     GetTypeResponse.encode_software_revision s = Returns [l; n]
     /\ GetTypeResponse.encode_software_revision (s ++ String "010" EmptyString)
        = Returns [l; n])
  /\ (forall l n, 1 <= l <= 26 -> 256 <= n <= 999 ->
        let s := revision_string l n in
        GetTypeResponse.encode_software_revision s
        = Raises (SoftwareRevisionInvalidError s))
  /\ (forall l n, 1 <= l <= 26 -> 0 <= n <= 9 ->
        GetTypeResponse.encode_software_revision
          (String (py.chr (l + 64)) (String "0" (py.str n)))
        = Returns [l; n])
  /\ (forall l n, 1 <= l <= 26 -> 10 <= n <= 99 ->
        let s := String (py.chr (l + 64)) (String "0" (py.str n)) in
        GetTypeResponse.encode_software_revision s
        = Raises (SoftwareRevisionInvalidError s))
  /\ (forall s,
        match s with
        | EmptyString => True
        | String c _ => re.in_range "A" "Z" c = false
        end ->
        GetTypeResponse.encode_software_revision s
        = Raises (SoftwareRevisionInvalidError s)).
Proof.
  split; [|split; [|split; [|split]]].
  - intros l n Hl Hn s. split; [apply revision_canonical; assumption|].
    apply revision_encodes_to_spec.
    apply (forall_letters_numbers
             (fun l n =>
                revision_encodes_to (revision_string l n ++ String "010" EmptyString) [l; n]) 256);
      [vm_compute; reflexivity | lia | lia].
  - intros l n Hl Hn s. apply revision_refused_spec.
    assert (H : implb (256 <=? n) (revision_refused (revision_string l n)) = true).
    { apply (forall_letters_numbers
               (fun l n => implb (256 <=? n) (revision_refused (revision_string l n)))
               1000);
        [vm_compute; reflexivity | lia | lia]. }
    replace (256 <=? n) with true in H by (symmetry; apply Z.leb_le; lia).
    exact H.
  - intros l n Hl Hn. apply revision_encodes_to_spec.
    apply (forall_letters_numbers
             (fun l n =>
                revision_encodes_to
                  (String (py.chr (l + 64)) (String "0" (py.str n))) [l; n]) 10);
      [vm_compute; reflexivity | lia | lia].
  - intros l n Hl Hn s. apply revision_refused_spec.
    assert (H : implb (10 <=? n)
                  (revision_refused
                     (String (py.chr (l + 64)) (String "0" (py.str n)))) = true).
    { apply (forall_letters_numbers
               (fun l n =>
                  implb (10 <=? n)
                    (revision_refused
                       (String (py.chr (l + 64)) (String "0" (py.str n)))))
               100);
        [vm_compute; reflexivity | lia | lia]. }
    replace (10 <=? n) with true in H by (symmetry; apply Z.leb_le; lia).
    exact H.
  - intros [|c rest] H; [reflexivity|].
    unfold GetTypeResponse.encode_software_revision, re.match_.
    cbn [list_ascii_of_string GetTypeResponse.SOFTWARE_REVISION_STR_RE re.run Nat.eqb].
    rewrite H. reflexivity.
Qed.

Lemma get_type_revision_spellings_witness :
  (GetTypeResponse.encode_software_revision (revision_string 6 1) = Returns [6; 1]
   /\ GetTypeResponse.encode_software_revision
        (revision_string 6 1 ++ String "010" EmptyString)
      = Returns [6; 1])
  /\ GetTypeResponse.encode_software_revision (revision_string 6 256)
     = Raises (SoftwareRevisionInvalidError (revision_string 6 256))
  /\ GetTypeResponse.encode_software_revision "a1"
     = Raises (SoftwareRevisionInvalidError "a1").
Proof.
  split; [|split].
  - apply (proj1 get_type_revision_spellings 6 1); lia.
  - apply (proj1 (proj2 get_type_revision_spellings) 6 256); lia.
  - apply (proj2 (proj2 (proj2 (proj2 get_type_revision_spellings))) "a1"%string).
    reflexivity.
Defined.

End GetTypeResponseProperties.

(** ** The client *)
Section ClientCodecProperties.
Import logging.

Lemma data_link_encode_frame (addr : Z) (app : bytes) (crc_value : option Z) :
  0 <= addr <= 255 -> app <> [] ->
  let c := crc.checksum DataLinkCodec.crc_calculator (addr :: app) in
  DataLinkCodec.encode (DataLinkData.mk addr app crc_value)
  = Ok (addr :: app ++ [c / 256; c mod 256])
  /\ DataLinkCodec.decode (addr :: app ++ [c / 256; c mod 256])
     = Ok (DataLinkData.mk addr app (Some c)).
Proof.
  intros Haddr Happ c.
  pose proof (crc_checksum_range (addr :: app)) as Hc. fold c in Hc.
  split.
  - unfold DataLinkCodec.encode.
    cbn [DataLinkData.destination_address DataLinkData.application_bytes].
    rewrite to_bytes_1 by lia.
    replace (py.len app <? DataLinkCodec.APPLICATION_BYTES_LENGTH_MIN) with false.
    2:{ symmetry. apply Z.ltb_ge. unfold DataLinkCodec.APPLICATION_BYTES_LENGTH_MIN.
        destruct app; [congruence|]. rewrite len_cons. pose proof (len_nonneg app). lia. }
    change ([addr] ++ app) with (addr :: app). fold c.
    rewrite to_bytes_2 by exact Hc. reflexivity.
  - rewrite data_link_decode_parts by exact Happ.
    change (addr :: app ++ [c / 256; c mod 256])
      with ((addr :: app) ++ [c / 256; c mod 256]).
    unfold c. rewrite crc_self_check. fold c. cbn [Z.eqb].
    f_equal. f_equal. f_equal. pose proof (Z.div_mod c 256). lia.
Qed.

Lemma data_link_encode_bad_address (addr : Z) (app : bytes) (crc_value : option Z) :
  ~ 0 <= addr <= 255 ->
  DataLinkCodec.encode (DataLinkData.mk addr app crc_value)
  = Raise InvalidDestinationAddressError.
Proof.
  intros H. unfold DataLinkCodec.encode. cbn [DataLinkData.destination_address].
  rewrite to_bytes_1_none by exact H. reflexivity.
Qed.


Lemma request_encode_command_id (request : Request) (app : ApplicationData.t) :
  request_encode request = Ok app ->
  1 <= ApplicationData.command_id app <= 16.
Proof.
  destruct request as [r|r|r]; cbn [request_encode].
  - intros H. injection H as <-. cbv. split; discriminate.
  - intros H. injection H as <-. cbv. split; discriminate.
  - unfold GetRegisterRequest.encode.
    destruct (negb _); [discriminate|].
    destruct (py.to_bytes _ _); [|discriminate].
    destruct (GetRegisterRequest.join_register_ids _); [|discriminate].
    cbn [bind]. intros H. injection H as <-.
    cbn [ApplicationData.command_id]. cbv. split; discriminate.
Qed.

(** X27: the frame of a request.  For every request that its class
    encodes to application data, and a client with a destination address
    in [0, 255], [ClientCodec.encode] returns the start byte to the meter,
    the stuffed bytes of the address, the command ID, the data and the
    checksum of these, and the stop byte, with the class of the request; the
    data link bytes in the frame pass the checksum test of
    [DataLinkCodec.decode], and [ApplicationCodec.decode] of their
    application bytes returns the application data of the request.  With a
    destination address outside of [0, 255], [ClientCodec.encode] raises
    [InvalidDestinationAddressError]. *)
Theorem client_encode_frame
    (self : ClientCodec.t) (request : Request) (app : ApplicationData.t) :
  request_encode request = Ok app ->
  let addr := ClientCodec.destination_address self in
  let app_bytes := ApplicationData.command_id app :: ApplicationData.data app in
  let c := crc.checksum DataLinkCodec.crc_calculator (addr :: app_bytes) in
  let data_link_bytes := addr :: app_bytes ++ [c / 256; c mod 256] in
  (0 <= addr <= 255 ->
   ClientCodec.encode self request
   = Ok (EncodedClientRequest.mk
           (0x80 :: flat_map (fun b => if is_special b then [0x1B; Z.lxor b 0xFF] else [b])
                      data_link_bytes ++ [0x0D])
           (type_of request))
   /\ DataLinkCodec.decode data_link_bytes = Ok (DataLinkData.mk addr app_bytes (Some c))
   /\ ApplicationCodec.decode app_bytes = Ok app)
  /\ (~ 0 <= addr <= 255 ->
      ClientCodec.encode self request = Raise InvalidDestinationAddressError).
Proof.
  intros Hreq addr app_bytes c data_link_bytes.
  pose proof (request_encode_command_id request app Hreq) as Hcid.
  assert (Happ : ApplicationCodec.encode app = Ok app_bytes).
  { destruct app as [cid data]. apply application_encode_byte. cbn in Hcid. lia. }
  split.
  - intros Haddr.
    destruct (data_link_encode_frame addr app_bytes None Haddr ltac:(discriminate))
      as [Henc Hdec].
    split; [|split].
    + unfold ClientCodec.encode. rewrite Hreq. cbn [bind]. rewrite Happ. cbn [bind].
      fold addr. rewrite Henc. cbn [bind].
      fold c. fold data_link_bytes.
      unfold ClientCodec.physical_codec_encode.
      rewrite encode_nonempty by discriminate. reflexivity.
    + exact Hdec.
    + destruct app as [cid data]. apply application_decode_cons.
  - intros Haddr. unfold ClientCodec.encode. rewrite Hreq. cbn [bind].
    rewrite Happ. cbn [bind]. fold addr.
    rewrite data_link_encode_bad_address by exact Haddr. reflexivity.
Qed.

Lemma client_encode_frame_witness :
  ClientCodec.encode (ClientCodec.mk 0x3F) (GetSerialRequest_ GetSerialRequest.mk)
  = Ok (EncodedClientRequest.mk [0x80; 0x3F; 0x02; 0x35; 0xE9; 0x0D]
          GetSerialRequest_class)
  /\ ClientCodec.encode (ClientCodec.mk 256) (GetSerialRequest_ GetSerialRequest.mk)
     = Raise InvalidDestinationAddressError.
Proof.
  split.
  - apply (proj1 (client_encode_frame (ClientCodec.mk 0x3F)
                    (GetSerialRequest_ GetSerialRequest.mk)
                    (ApplicationData.mk 0x02 []) eq_refl)).
    cbn. lia.
  - apply (proj2 (client_encode_frame (ClientCodec.mk 256)
                    (GetSerialRequest_ GetSerialRequest.mk)
                    (ApplicationData.mk 0x02 []) eq_refl)).
    cbn. lia.
Defined.





(** X29: the client takes no request for a response.  A frame that
    [ClientCodec.encode] built is refused by [ClientCodec.decode], of the
    same or of another client, with the boundary error of the start byte,
    whatever the request was; and the ACK frame raises
    [NotImplementedError]. *)
Theorem client_decode_refuses_requests
    (self other : ClientCodec.t) (request : Request)
    (encoded : EncodedClientRequest.t) (request_cls : RequestClass) :
  ClientCodec.encode self request = Ok encoded ->
  ClientCodec.decode other
    (EncodedClientResponse.mk (EncodedClientRequest.physical_bytes encoded) request_cls)
  = ([], Raises (CodecError (BoundaryByteInvalidError "start" 0x40 0x80)))
  /\ ClientCodec.decode other
       (EncodedClientResponse.mk PhysicalCodec.encode_ack request_cls)
     = ([], Raises NotImplementedError).
Proof.
  intros H. split; [|reflexivity].
  unfold ClientCodec.encode in H.
  destruct (request_encode request) as [app|]; [|discriminate H]. cbn [bind] in H.
  destruct (ApplicationCodec.encode app) as [app_bytes|]; [|discriminate H].
  cbn [bind] in H.
  destruct (DataLinkCodec.encode _) as [data_link_bytes|]; [|discriminate H].
  cbn [bind] in H.
  destruct (PhysicalCodec.encode ClientCodec.physical_codec_encode data_link_bytes)
    as [frame|] eqn:Ephys; [|discriminate H].
  cbn [bind] in H. injection H as <-.
  cbn [EncodedClientRequest.physical_bytes].
  unfold ClientCodec.physical_codec_encode in Ephys.
  apply (physical_frame_other_direction TO_METER) in Ephys.
  unfold ClientCodec.decode, ClientCodec.physical_codec_decode.
  cbn [EncodedClientResponse.physical_bytes].
  change (PhysicalCodec.new FROM_METER) with (PhysicalCodec.new (opposite TO_METER)).
  rewrite Ephys. reflexivity.
Qed.

Lemma client_decode_refuses_requests_witness :
  ClientCodec.decode (ClientCodec.mk 0x3F)
    (EncodedClientResponse.mk [0x80; 0x3F; 0x02; 0x35; 0xE9; 0x0D] GetSerialRequest_class)
  = ([], Raises (CodecError (BoundaryByteInvalidError "start" 0x40 0x80)))
  /\ ClientCodec.decode (ClientCodec.mk 0x3F)
       (EncodedClientResponse.mk PhysicalCodec.encode_ack GetSerialRequest_class)
     = ([], Raises NotImplementedError).
Proof.
  apply (client_decode_refuses_requests (ClientCodec.mk 0x3F) (ClientCodec.mk 0x3F)
           (GetSerialRequest_ GetSerialRequest.mk)
           (EncodedClientRequest.mk [0x80; 0x3F; 0x02; 0x35; 0xE9; 0x0D]
              GetSerialRequest_class)
           GetSerialRequest_class).
  reflexivity.
Defined.



End ClientCodecProperties.
